(** * Zk2Fs: mirroring a ZooKeeper namespace onto the file system

    A shallow embedding of [treadmill/zksync.py] and the properties of its
    children diff, data watch, children reconciliation and atomic writer. *)

From Stdlib Require Import Ascii.
From Stdlib Require String.
From stdpp Require Import base decidable option list sorting gmap strings.

(* The solvers of stdpp clear hypotheses that may be gone already. *)
Local Set Warnings "-clear-no-such-hyp".

(** ** Names and their order

    Child names and file names are Python [str]; [==] and [<] on them are
    equality and the lexicographic order on code units. *)

Definition str_lt (s1 s2 : string) : Prop := String.ltb s1 s2 = true.

#[global] Instance str_lt_dec : RelDecision str_lt.
Proof. intros s1 s2. unfold str_lt. apply _. Defined.

(** ** The children diff: [Zk2Fs._filter_children_actions] *)

Module Diff.

(** The loop variables of [_filter_children_actions]: the two cursors and the
    three lists the caller passed in, which the loop appends to. *)
Record state := State {
  child_idx : nat;
  file_idx : nat;
  add : list string;
  remove : list string;
  common : list string
}.

(** One evaluation of the [while] condition followed, when it holds, by one
    run of the body.  [None] is the exit of the loop. *)
Definition step (sorted_children sorted_filenames : list string)
    (st : state) : option state :=
  let num_children := length sorted_children in
  let num_filenames := length sorted_filenames in
  if decide (child_idx st < num_children ∨ file_idx st < num_filenames) then
    let child_name :=
      if decide (child_idx st < num_children)
      then sorted_children !! child_idx st else None in
    let file_name :=
      if decide (file_idx st < num_filenames)
      then sorted_filenames !! file_idx st else None in
    match child_name, file_name with
    | None, Some f =>
        Some (State (child_idx st) (S (file_idx st))
                (add st) (remove st ++ [f]) (common st))
    | None, None => None (* not reached: one of the cursors is in range *)
    | Some c, None =>
        Some (State (S (child_idx st)) (file_idx st)
                (add st ++ [c]) (remove st) (common st))
    | Some c, Some f =>
        if String.eqb c f then
          Some (State (S (child_idx st)) (S (file_idx st))
                  (add st) (remove st) (common st ++ [c]))
        else if String.ltb c f then
          Some (State (S (child_idx st)) (file_idx st)
                  (add st ++ [c]) (remove st) (common st))
        else
          Some (State (child_idx st) (S (file_idx st))
                  (add st) (remove st ++ [f]) (common st))
    end
  else None.

(** The [while] loop, run for at most [fuel] iterations. *)
Fixpoint loop (sorted_children sorted_filenames : list string)
    (fuel : nat) (st : state) : state :=
  match fuel with
  | 0 => st
  | S fuel' =>
      match step sorted_children sorted_filenames st with
      | None => st
      | Some st' => loop sorted_children sorted_filenames fuel' st'
      end
  end.

(** [_filter_children_actions(sorted_children, sorted_filenames, add, remove,
    common)].  Every iteration advances a cursor, so the sum of the two
    lengths bounds the number of iterations. *)
Definition run
    (sorted_children sorted_filenames add remove common : list string)
    : state :=
  loop sorted_children sorted_filenames
    (length sorted_children + length sorted_filenames)
    (State 0 0 add remove common).

End Diff.

Definition _filter_children_actions
    (sorted_children sorted_filenames add remove common : list string)
    : list string * list string * list string :=
  let st := Diff.run sorted_children sorted_filenames add remove common in
  (Diff.add st, Diff.remove st, Diff.common st).

(** ** Paths

    [os.path] and the path helpers, on strings as the source has them.  The
    model compares paths as strings: it does not identify [a//b] with [a/b]. *)

Definition is_slash (c : ascii) : bool := Ascii.eqb c "/"%char.

Fixpoint slash_in (s : string) : bool :=
  match s with
  | "" => false
  | String c s' => is_slash c || slash_in s'
  end.

Fixpoint all_slashes (s : string) : bool :=
  match s with
  | "" => true
  | String c s' => is_slash c && all_slashes s'
  end.

Definition starts_with_slash (s : string) : bool :=
  match s with
  | String c _ => is_slash c
  | "" => false
  end.

Fixpoint ends_with_slash (s : string) : bool :=
  match s with
  | "" => false
  | String c "" => is_slash c
  | String _ s' => ends_with_slash s'
  end.

(** [s.lstrip('/')] *)
Fixpoint lstrip_slash (s : string) : string :=
  match s with
  | String c s' => if is_slash c then lstrip_slash s' else s
  | "" => ""
  end.

(** [s.rstrip('/')] *)
Fixpoint rstrip_slash (s : string) : string :=
  match s with
  | "" => ""
  | String c s' =>
      match rstrip_slash s' with
      | "" => if is_slash c then "" else String c ""
      | r => String c r
      end
  end.

(** [os.path.join(a, b)] *)
Definition os_path_join (a b : string) : string :=
  if starts_with_slash b then b
  else if bool_decide (a = "") || ends_with_slash a then a +:+ b
  else a +:+ "/" +:+ b.

(** [p[:p.rfind('/') + 1]] *)
Fixpoint head_of (p : string) : string :=
  match p with
  | "" => ""
  | String c p' =>
      if slash_in p' then String c (head_of p')
      else if is_slash c then "/" else ""
  end.

(** [os.path.dirname(p)] *)
Definition os_path_dirname (p : string) : string :=
  let head := head_of p in
  if all_slashes head then head else rstrip_slash head.

(** [os.path.basename(p)], that is [p[p.rfind('/') + 1:]] *)
Fixpoint os_path_basename (p : string) : string :=
  match p with
  | "" => ""
  | String c p' =>
      if slash_in p' then os_path_basename p'
      else if is_slash c then p' else p
  end.

Fixpoint strip_prefix (pre s : string) : option string :=
  match pre, s with
  | "", _ => Some s
  | String a pre', String b s' =>
      if Ascii.eqb a b then strip_prefix pre' s' else None
  | String _ _, "" => None
  end.

(** A name that begins with a dot. *)
Definition hidden (name : string) : bool :=
  match name with
  | String c _ => Ascii.eqb c "."%char
  | "" => false
  end.

(** A directory entry's name: not empty, without a slash. *)
Definition entry_name (name : string) : bool :=
  negb (bool_decide (name = "")) && negb (slash_in name).

(** Modelled from the spec: [zknamespace.join_zookeeper_path] is not among the
    sources; remote paths are hierarchical and [/]-separated, and the child's
    path is the parent's path, a slash and the child's name. *)
Definition join_zookeeper_path (root child : string) : string :=
  rstrip_slash root +:+ "/" +:+ child.

(** ** The world the engine runs in *)

(** A file system entry.  A file has its content, modification time and
    permission bits. *)
Inductive node :=
  | File (content : string) (mtime : Z) (mode : N)
  | Dir.

#[global] Instance node_eq_dec : EqDecision node.
Proof. solve_decision. Defined.

(** The remote [stat]; the engine reads [last_modified] only. *)
Record stat := Stat { last_modified : Z }.

(** A remote node: its data (absent or bytes), its stat and the names of its
    children. *)
Record znode := ZNode {
  zdata : option string;
  zstat : stat;
  zchildren : list string
}.

(** [event.type] of a watched event. *)
Inductive event_type := CREATED | DELETED | CHANGED | CHILD.

#[global] Instance event_type_eq_dec : EqDecision event_type.
Proof. solve_decision. Defined.

Inductive exn :=
  | NoNodeError | OSError | FileExistsError | AttributeError | SystemExit.

#[global] Instance exn_eq_dec : EqDecision exn.
Proof. solve_decision. Defined.

Inductive level := DEBUG | INFO | ERROR.

(** What a run leaves behind, in order: the calls to the coordination
    service, the file system calls that changed something, and the lines
    written to the logger. *)
Inductive event :=
  | ZkGet (path : string)
  | ZkGetChildren (path : string)
  | ZkDataWatch (path : string)
  | ZkChildrenWatch (path : string)
  | FsMkdir (path : string)
  | FsCreate (path : string)
  | FsWrite (path data : string)
  | FsChmod (path : string) (mode : N)
  | FsUtime (path : string) (mtime : Z)
  | FsRename (src dst : string)
  | FsUnlink (path : string)
  | FsTouch (path : string)
  | Logged (lvl : level) (msg : string).

#[global] Instance level_eq_dec : EqDecision level.
Proof. solve_decision. Defined.

#[global] Instance event_eq_dec : EqDecision event.
Proof. solve_decision. Defined.

Definition is_zk_call (ev : event) : bool :=
  match ev with
  | ZkGet _ | ZkGetChildren _ | ZkDataWatch _ | ZkChildrenWatch _ => true
  | _ => false
  end.

Definition is_fs_mutation (ev : event) : bool :=
  match ev with
  | FsMkdir _ | FsCreate _ | FsWrite _ _ | FsChmod _ _ | FsUtime _ _
  | FsRename _ _ | FsUnlink _ | FsTouch _ => true
  | _ => false
  end.

(** A failure the environment injects into one call of [write_data]: at the
    creation of the temporary file, in the middle of the write (only the
    first [written] characters reach the file), at [fchmod], at [utime] or at
    the rename. *)
Inductive fault :=
  | FailCreate
  | FailWrite (written : nat)
  | FailChmod
  | FailUtime
  | FailRename.

(** The engine's fields ([watches], [processed_once], [ready], [fsroot]) and
    its environment: the local file system, the remote namespace, the armed
    kazoo watches, the clock read by [time.time()], the names [tempfile] will
    draw, the faults to inject into the coming calls of [write_data] (one
    entry per call), and the trace. *)
Record World := mkWorld {
  watches : gset string;
  processed_once : gset string;
  ready : bool;
  fsroot : string;
  fs : gmap string node;
  zk : gmap string znode;
  data_subs : gset string;
  children_subs : gset string;
  now : Z;
  names : list string;
  faults : list (option fault);
  log : list event
}.

Definition set_watches (f : gset string → gset string) (w : World) : World :=
  mkWorld (f (watches w)) (processed_once w) (ready w) (fsroot w) (fs w)
    (zk w) (data_subs w) (children_subs w) (now w) (names w) (faults w) (log w).

Definition set_processed_once (f : gset string → gset string) (w : World)
    : World :=
  mkWorld (watches w) (f (processed_once w)) (ready w) (fsroot w) (fs w)
    (zk w) (data_subs w) (children_subs w) (now w) (names w) (faults w) (log w).

Definition set_ready (b : bool) (w : World) : World :=
  mkWorld (watches w) (processed_once w) b (fsroot w) (fs w)
    (zk w) (data_subs w) (children_subs w) (now w) (names w) (faults w) (log w).

Definition set_fs (f : gmap string node → gmap string node) (w : World)
    : World :=
  mkWorld (watches w) (processed_once w) (ready w) (fsroot w) (f (fs w))
    (zk w) (data_subs w) (children_subs w) (now w) (names w) (faults w) (log w).

Definition set_data_subs (f : gset string → gset string) (w : World) : World :=
  mkWorld (watches w) (processed_once w) (ready w) (fsroot w) (fs w)
    (zk w) (f (data_subs w)) (children_subs w) (now w) (names w) (faults w)
    (log w).

Definition set_children_subs (f : gset string → gset string) (w : World)
    : World :=
  mkWorld (watches w) (processed_once w) (ready w) (fsroot w) (fs w)
    (zk w) (data_subs w) (f (children_subs w)) (now w) (names w) (faults w)
    (log w).

Definition set_now (t : Z) (w : World) : World :=
  mkWorld (watches w) (processed_once w) (ready w) (fsroot w) (fs w)
    (zk w) (data_subs w) (children_subs w) t (names w) (faults w) (log w).

Definition set_names (l : list string) (w : World) : World :=
  mkWorld (watches w) (processed_once w) (ready w) (fsroot w) (fs w)
    (zk w) (data_subs w) (children_subs w) (now w) l (faults w) (log w).

Definition set_faults (l : list (option fault)) (w : World) : World :=
  mkWorld (watches w) (processed_once w) (ready w) (fsroot w) (fs w)
    (zk w) (data_subs w) (children_subs w) (now w) (names w) l (log w).

Definition set_log (f : list event → list event) (w : World) : World :=
  mkWorld (watches w) (processed_once w) (ready w) (fsroot w) (fs w)
    (zk w) (data_subs w) (children_subs w) (now w) (names w) (faults w)
    (f (log w)).

(** ** Computations: state and exceptions

    A Python call runs in a world and ends in a world, either returning a
    value or raising; what it did before raising stays done. *)

Inductive outcome (A : Type) :=
  | Ok (a : A)
  | Raise (e : exn).
Arguments Ok {A} a.
Arguments Raise {A} e.

Definition M (A : Type) : Type := World → outcome A * World.

Definition ret {A} (a : A) : M A := λ w, (Ok a, w).

Definition bind {A B} (m : M A) (k : A → M B) : M B :=
  λ w, match m w with
       | (Ok a, w') => k a w'
       | (Raise e, w') => (Raise e, w')
       end.

Definition raise {A} (e : exn) : M A := λ w, (Raise e, w).

(** [try: m except <those e with handler e = Some h>: h] *)
Definition try_except {A} (m : M A) (handler : exn → option (M A)) : M A :=
  λ w, match m w with
       | (Ok a, w') => (Ok a, w')
       | (Raise e, w') =>
           match handler e with
           | Some h => h w'
           | None => (Raise e, w')
           end
       end.

Definition gets {A} (f : World → A) : M A := λ w, (Ok (f w), w).
Definition modify (f : World → World) : M unit := λ w, (Ok tt, f w).

Declare Scope zk_scope.
Delimit Scope zk_scope with zk.
Notation "x <- m ;; k" := (bind m (λ x, k))
  (at level 100, m at next level, right associativity) : zk_scope.
Notation "m ;; k" := (bind m (λ _, k))
  (at level 100, right associativity) : zk_scope.
Local Open Scope zk_scope.

Definition when (b : bool) (m : M unit) : M unit := if b then m else ret tt.

(** [for x in l: body(x)] *)
Fixpoint for_each {A} (l : list A) (body : A → M unit) : M unit :=
  match l with
  | [] => ret tt
  | x :: l' => body x ;; for_each l' body
  end.

Definition emit (ev : event) : M unit := modify (set_log (λ l, l ++ [ev])).

Definition result {A} (m : M A) (w : World) : outcome A := (m w).1.
Definition exec {A} (m : M A) (w : World) : World := (m w).2.

(** ** The operating system and the helpers outside [zksync.py] *)

(** [time.time()] *)
Definition time_time : M Z := gets now.

(** [os.path.exists(path)] *)
Definition os_path_exists (path : string) : M bool :=
  gets (λ w, bool_decide (is_Some (fs w !! path))).

(** [os.utime(path, (mtime, mtime))]; a directory's time is not kept. *)
Definition os_utime (path : string) (mtime : Z) : M unit :=
  entry <- gets (λ w, fs w !! path) ;;
  match entry with
  | None => raise OSError
  | Some (File content _ mode) =>
      modify (set_fs <[path := File content mtime mode]>) ;;
      emit (FsUtime path mtime)
  | Some Dir => emit (FsUtime path mtime)
  end.

(** [os.fchmod(fd, mode)] on the open file at [path] *)
Definition os_fchmod (path : string) (mode : N) : M unit :=
  entry <- gets (λ w, fs w !! path) ;;
  match entry with
  | Some (File content mtime _) =>
      modify (set_fs <[path := File content mtime mode]>) ;;
      emit (FsChmod path mode)
  | _ => raise OSError
  end.

(** [os.rename(src, dst)]: replaces a file at [dst] in one step, fails on a
    missing source and on a directory at [dst], and then changes nothing. *)
Definition os_rename (src dst : string) : M unit :=
  s <- gets (λ w, fs w !! src) ;;
  d <- gets (λ w, fs w !! dst) ;;
  match s, d with
  | None, _ => raise OSError
  | Some _, Some Dir => raise OSError
  | Some entry, _ =>
      modify (set_fs (λ m, <[dst := entry]> (delete src m))) ;;
      emit (FsRename src dst)
  end.

(** The search of [tempfile] for an unused name [dir/prefix<name>] among the
    names it draws. *)
Fixpoint mkstemp_inner (dir pre : string) (candidates : list string)
    (m : gmap string node) : option (string * list string) :=
  match candidates with
  | [] => None
  | name :: rest =>
      let file := os_path_join dir (pre +:+ name) in
      if bool_decide (m !! file = None) then Some (file, rest)
      else mkstemp_inner dir pre rest m
  end.

(** [tempfile.NamedTemporaryFile(dir=dir, delete=False, prefix=pre, mode='w')]:
    creates the file, empty, and returns its name. *)
Definition named_temporary_file (dir pre : string) : M string :=
  candidates <- gets names ;;
  m <- gets fs ;;
  t <- time_time ;;
  match mkstemp_inner dir pre candidates m with
  | None => modify (set_names []) ;; raise FileExistsError
  | Some (file, rest) =>
      modify (set_names rest) ;;
      modify (set_fs <[file := File "" t 384%N]>) ;;
      emit (FsCreate file) ;;
      ret file
  end.

(** [temp.write(data)] followed by the flush at the end of the [with] block *)
Definition temp_write (path data : string) : M unit :=
  entry <- gets (λ w, fs w !! path) ;;
  match entry with
  | Some (File _ mtime mode) =>
      modify (set_fs <[path := File data mtime mode]>) ;;
      emit (FsWrite path data)
  | _ => raise OSError
  end.

(** Takes the fault, if any, the environment holds for this call. *)
Definition next_fault : M (option fault) :=
  l <- gets faults ;;
  match l with
  | [] => ret None
  | f :: rest => modify (set_faults rest) ;; ret f
  end.

Definition fail_if (b : bool) : M unit := if b then raise OSError else ret tt.

(** [except OSError] also takes the subclasses of [OSError]. *)
Definition is_OSError (e : exn) : bool :=
  match e with
  | OSError | FileExistsError => true
  | _ => false
  end.

(** Modelled from the spec: [utils.touch] is not among the sources; it bumps
    the time of the sentinel file and creates the file, empty, when it is
    missing. *)
Definition touch (path : string) : M unit :=
  entry <- gets (λ w, fs w !! path) ;;
  t <- time_time ;;
  match entry with
  | Some (File content _ mode) =>
      modify (set_fs <[path := File content t mode]>)
  | Some Dir => ret tt
  | None => modify (set_fs <[path := File "" t 420%N]>)
  end ;;
  emit (FsTouch path).

(** Modelled from the spec: [fs.rm_safe] is not among the sources; it deletes
    the entry, and a missing entry is silently ignored (only that error is). *)
Definition rm_safe (path : string) : M unit :=
  entry <- gets (λ w, fs w !! path) ;;
  match entry with
  | None => ret tt
  | Some Dir => raise OSError
  | Some (File _ _ _) =>
      modify (set_fs (delete path)) ;;
      emit (FsUnlink path)
  end.

(** Modelled from the spec: [fs.mkdir_safe] is not among the sources; it
    ensures that the directory exists. *)
Definition mkdir_safe (path : string) : M unit :=
  entry <- gets (λ w, fs w !! path) ;;
  match entry with
  | None => modify (set_fs <[path := Dir]>) ;; emit (FsMkdir path)
  | Some _ => ret tt
  end.

(** Whether the path [p] is an entry of the directory [dir] (given with its
    closing slash) whose name does not begin with a dot. *)
Definition matches_star (dir p : string) : bool :=
  match strip_prefix dir p with
  | Some name => entry_name name && negb (hidden name)
  | None => false
  end.

(** [glob.glob(os.path.join(fpath, '*'))] for an [fpath] without glob
    characters: the paths of the entries of the directory whose names do not
    begin with a dot. *)
Definition glob_star (fpath : string) (m : gmap string node) : list string :=
  filter (λ p, matches_star (os_path_join fpath "") p) (map_to_list m).*1.

(** [sorted(l)] on names *)
Definition sorted (l : list string) : list string := merge_sort String.le l.

(** ** The kazoo client *)

(** [zkclient.get(path)] *)
Definition zk_get (path : string) : M (option string * stat) :=
  emit (ZkGet path) ;;
  n <- gets (λ w, zk w !! path) ;;
  match n with
  | Some n => ret (zdata n, zstat n)
  | None => raise NoNodeError
  end.

(** [zkclient.get_children(path)] *)
Definition zk_get_children (path : string) : M (list string) :=
  emit (ZkGetChildren path) ;;
  n <- gets (λ w, zk w !! path) ;;
  match n with
  | Some n => ret (zchildren n)
  | None => raise NoNodeError
  end.

(** [exc.exit_on_unhandled]: an exception that leaves the function ends the
    process. *)
Definition exit_on_unhandled {A} (m : M A) : M A :=
  try_except m (λ e,
    Some (emit (Logged ERROR "Unhandled exception - exiting.") ;;
          raise SystemExit)).

(** [@zkclient.DataWatch(path)]: kazoo registers the function and calls it at
    once with the node's data and stat and no event, or with nothing at all
    when the node does not exist; the watch stays armed unless the function
    returns [False]. *)
Definition zk_DataWatch (path : string)
    (func : option string → option stat → option event_type → M bool)
    : M unit :=
  emit (ZkDataWatch path) ;;
  n <- gets (λ w, zk w !! path) ;;
  renew <- match n with
           | Some n => func (zdata n) (Some (zstat n)) None
           | None => func None None None
           end ;;
  if renew : bool then modify (set_data_subs (union {[path]}))
  else modify (set_data_subs (λ s, s ∖ {[path]})).

(** [@zkclient.ChildrenWatch(path)]: kazoo registers the function and calls
    it at once with the node's children; the watch stays armed unless the
    function returns [False].  On a missing node the watch stops without a
    call. *)
Definition zk_ChildrenWatch (path : string) (func : list string → M bool)
    : M unit :=
  emit (ZkChildrenWatch path) ;;
  n <- gets (λ w, zk w !! path) ;;
  match n with
  | None => modify (set_children_subs (λ s, s ∖ {[path]}))
  | Some n =>
      renew <- func (zchildren n) ;;
      if renew : bool then modify (set_children_subs (union {[path]}))
      else modify (set_children_subs (λ s, s ∖ {[path]}))
  end.

(** ** [zksync.py] *)

#[global] Instance fault_eq_dec : EqDecision fault.
Proof. solve_decision. Defined.

(** ['%s' % b] *)
Definition pybool (b : bool) : string := if b then "True" else "False".

(** [write_data(fpath, data, modified, raise_err=True)] *)
Definition write_data (fpath : string) (data : option string) (modified : Z)
    (raise_err : bool) : M unit :=
  flt <- next_fault ;;
  fail_if (bool_decide (flt = Some FailCreate)) ;;
  temp <- named_temporary_file (os_path_dirname fpath) ".tmp" ;;
  match data with
  | Some d =>
      if bool_decide (d = "") then ret tt
      else match flt with
           | Some (FailWrite written) =>
               temp_write temp (String.substring 0 written d) ;; raise OSError
           | _ => temp_write temp d
           end
  | None => ret tt
  end ;;
  fail_if (bool_decide (flt = Some FailChmod)) ;;
  os_fchmod temp 420%N ;;
  fail_if (bool_decide (flt = Some FailUtime)) ;;
  os_utime temp modified ;;
  try_except
    (fail_if (bool_decide (flt = Some FailRename)) ;; os_rename temp fpath)
    (λ e, if is_OSError e then
            Some (emit (Logged ERROR
                    ("Unable to rename: " +:+ temp +:+ " => " +:+ fpath)) ;;
                  if raise_err then raise e else ret tt)
          else None).

(** [Zk2Fs.__init__(zkclient, fsroot)], in an environment [env] whose engine
    fields are overwritten. *)
Definition init (root : string) (env : World) : World :=
  mkWorld ∅ ∅ false root (fs env) (zk env) (data_subs env)
    (children_subs env) (now env) (names env) (faults env) (log env).

(** [Zk2Fs._update_last] *)
Definition _update_last : M unit :=
  r <- gets ready ;;
  if r : bool then
    root <- gets fsroot ;;
    let modified_file := os_path_join root ".modified" in
    touch modified_file ;;
    atime <- time_time ;;
    mtime <- time_time ;;
    os_utime modified_file mtime
  else ret tt.

(** [Zk2Fs.mark_ready] *)
Definition mark_ready : M unit :=
  modify (set_ready true) ;;
  _update_last.

(** [Zk2Fs.fpath] *)
Definition fpath (zkpath : string) : M string :=
  root <- gets fsroot ;;
  ret (os_path_join root (lstrip_slash zkpath)).

(** [Zk2Fs._default_on_del] *)
Definition _default_on_del (zkpath : string) : M unit :=
  p <- fpath zkpath ;;
  rm_safe p.

(** [Zk2Fs._write_data]; [stat.last_modified] on an absent stat raises. *)
Definition _write_data (fpath : string) (data : option string)
    (st : option stat) : M unit :=
  match st with
  | Some st => write_data fpath data (last_modified st) true
  | None => raise AttributeError
  end.

(** [Zk2Fs._data_watch] *)
Definition _data_watch (zkpath : string) (data : option string)
    (st : option stat) (event : option event_type) : M bool :=
  p <- fpath zkpath ;;
  match data, event with
  | None, None =>
      emit (Logged INFO ("Node does not exist: " +:+ zkpath)) ;;
      modify (set_watches (λ s, s ∖ {[zkpath]})) ;;
      rm_safe p
  | _, Some DELETED =>
      emit (Logged INFO ("Node removed: " +:+ zkpath)) ;;
      modify (set_watches (λ s, s ∖ {[zkpath]})) ;;
      rm_safe p
  | _, _ => _write_data p data st
  end ;;
  ws <- gets watches ;;
  let renew := bool_decide (zkpath ∈ ws) in
  emit (Logged INFO
          ("Renew watch on " +:+ zkpath +:+ " - " +:+ pybool renew)) ;;
  ret renew.

(** The function [sync_data] hands to [DataWatch], under
    [exit_on_unhandled]. *)
Definition data_watch_callback (zkpath : string) (data : option string)
    (st : option stat) (event : option event_type) : M bool :=
  exit_on_unhandled
    (renew <- _data_watch zkpath data st event ;;
     _update_last ;;
     ret renew).

(** [Zk2Fs.sync_data] *)
Definition sync_data (zkpath : string) : M unit :=
  ws <- gets watches ;;
  if bool_decide (zkpath ∈ ws) then
    zk_DataWatch zkpath (data_watch_callback zkpath)
  else
    p <- fpath zkpath ;;
    r <- zk_get zkpath ;;
    _write_data p r.1 (Some r.2) ;;
    _update_last.

(** [Zk2Fs._default_on_add] *)
Definition _default_on_add (zknode : string) : M unit := sync_data zknode.

(** The three lists [_children_watch] computes for a parent whose mirror
    directory is [fpath], from the remote children and the local files [m]. *)
Definition children_actions (fpath : string) (children : list string)
    (m : gmap string node) : list string * list string * list string :=
  let sorted_children := sorted children in
  let sorted_filenames := sorted (os_path_basename <$> glob_star fpath m) in
  _filter_children_actions sorted_children sorted_filenames [] [] [].

(** [Zk2Fs._children_watch] *)
Definition _children_watch (zkpath : string) (children : list string)
    (watch_data : bool) (on_add on_del : string → M unit)
    (cont_watch_predicate : option (string → list string → bool)) : M bool :=
  p <- fpath zkpath ;;
  let sorted_children := sorted children in
  m <- gets fs ;;
  let '(add, remove, common) := children_actions p children m in
  for_each remove (λ node,
    emit (Logged INFO ("Delete: " +:+ node)) ;;
    let zknode := join_zookeeper_path zkpath node in
    modify (set_watches (λ s, s ∖ {[zknode]})) ;;
    on_del zknode) ;;
  seen <- gets processed_once ;;
  when (negb (bool_decide (zkpath ∈ seen)))
    (modify (set_processed_once (union {[zkpath]})) ;;
     for_each common (λ node,
       emit (Logged INFO ("Common: " +:+ node)) ;;
       let zknode := join_zookeeper_path zkpath node in
       when watch_data (modify (set_watches (union {[zknode]}))) ;;
       on_add zknode)) ;;
  for_each add (λ node,
    emit (Logged INFO ("Add: " +:+ node)) ;;
    let zknode := join_zookeeper_path zkpath node in
    when watch_data (modify (set_watches (union {[zknode]}))) ;;
    on_add zknode) ;;
  match cont_watch_predicate with
  | Some cont => ret (cont zkpath sorted_children)
  | None => ret true
  end.

(** The function [_make_children_watch] hands to [ChildrenWatch], under
    [exit_on_unhandled]. *)
Definition children_watch_callback (zkpath : string) (watch_data : bool)
    (on_add on_del : string → M unit)
    (cont_watch_predicate : option (string → list string → bool))
    (children : list string) : M bool :=
  exit_on_unhandled
    (renew <- _children_watch zkpath children watch_data on_add on_del
                cont_watch_predicate ;;
     _update_last ;;
     ret renew).

(** [Zk2Fs._make_children_watch] *)
Definition _make_children_watch (zkpath : string) (watch_data : bool)
    (on_add on_del : string → M unit)
    (cont_watch_predicate : option (string → list string → bool)) : M unit :=
  emit (Logged DEBUG ("Establish children watch on: " +:+ zkpath)) ;;
  zk_ChildrenWatch zkpath
    (children_watch_callback zkpath watch_data on_add on_del
       cont_watch_predicate).

(** [Zk2Fs.sync_children], from the defaults of [on_del] and [on_add] on:
    what it does once it has found no done file. *)
Definition sync_children_undone (zkpath : string) (watch_data : bool)
    (on_add on_del : option (string → M unit))
    (need_watch_predicate : option (string → bool))
    (cont_watch_predicate : option (string → list string → bool))
    (done_file : string) : M unit :=
  let on_del := default _default_on_del on_del in
  let on_add := default _default_on_add on_add in
  need_watch <-
    match need_watch_predicate with
    | Some need =>
        let need_watch := need zkpath in
        emit (Logged INFO ("Need watch on " +:+ zkpath +:+ ": "
                           +:+ pybool need_watch)) ;;
        ret need_watch
    | None => ret true
    end ;;
  need_watch <-
    (if need_watch : bool then
       _make_children_watch zkpath watch_data on_add on_del
         cont_watch_predicate ;;
       ret need_watch
     else
       children <- try_except (zk_get_children zkpath)
                     (λ e, if bool_decide (e = NoNodeError)
                           then Some (ret []) else None) ;;
       need_watch <- _children_watch zkpath children watch_data on_add
                       on_del cont_watch_predicate ;;
       when need_watch
         (_make_children_watch zkpath watch_data on_add on_del
            cont_watch_predicate) ;;
       _update_last ;;
       ret need_watch) ;;
  when (negb need_watch) (touch done_file).

(** [Zk2Fs.sync_children] *)
Definition sync_children (zkpath : string) (watch_data : bool)
    (on_add on_del : option (string → M unit))
    (need_watch_predicate : option (string → bool))
    (cont_watch_predicate : option (string → list string → bool)) : M unit :=
  emit (Logged INFO ("sync children: zk = " +:+ zkpath +:+ ", watch_data: "
                     +:+ pybool watch_data)) ;;
  p <- fpath zkpath ;;
  mkdir_safe p ;;
  let done_file := os_path_join p ".done" in
  found <- os_path_exists done_file ;;
  if found : bool then
    emit (Logged INFO ("Found done file: " +:+ done_file
                       +:+ ", nothing to watch."))
  else
    sync_children_undone zkpath watch_data on_add on_del
      need_watch_predicate cont_watch_predicate done_file.

(** What kazoo does with a later event on a watch: an armed watch calls its
    function and stays armed unless the function returns [False]; a stopped
    watch delivers nothing. *)
Definition deliver_data (zkpath : string) (data : option string)
    (st : option stat) (event : option event_type) : M unit :=
  subs <- gets data_subs ;;
  if bool_decide (zkpath ∈ subs) then
    renew <- data_watch_callback zkpath data st event ;;
    when (negb renew) (modify (set_data_subs (λ s, s ∖ {[zkpath]})))
  else ret tt.

Definition deliver_children (zkpath : string) (watch_data : bool)
    (on_add on_del : string → M unit)
    (cont_watch_predicate : option (string → list string → bool))
    (children : list string) : M unit :=
  subs <- gets children_subs ;;
  if bool_decide (zkpath ∈ subs) then
    renew <- children_watch_callback zkpath watch_data on_add on_del
               cont_watch_predicate children ;;
    when (negb renew) (modify (set_children_subs (λ s, s ∖ {[zkpath]})))
  else ret tt.

(** Time passes. *)
Definition advance_clock (d : Z) (w : World) : World :=
  set_now (now w + d)%Z w.

(** An environment to run examples in: an empty disk, the remote namespace
    [z], the clock at [t], a few names for [tempfile] and no fault. *)
Definition env0 (z : gmap string znode) (t : Z) : World :=
  mkWorld ∅ ∅ false "" ∅ z ∅ ∅ t
    ["aaaaaaaa"; "bbbbbbbb"; "cccccccc"; "dddddddd"; "eeeeeeee"; "ffffffff"]
    [] [].

Definition zk_example : gmap string znode :=
  <["/cell/servers" := ZNode None (Stat 5) ["host2"; "host1"]]>
  (<["/cell/servers/host1" := ZNode (Some "A") (Stat 10) []]>
  (<["/cell/servers/host2" := ZNode (Some "B") (Stat 20) []]> ∅)).

(** * Vocabulary of the statements *)

(** What holds each time the [while] condition of the diff is evaluated. *)
Definition diff_inv (sc sf add0 remove0 common0 : list string)
    (st : Diff.state) : Prop :=
  Diff.child_idx st ≤ length sc ∧
  Diff.file_idx st ≤ length sf ∧
  Diff.add st
    = add0 ++ filter (λ x, x ∉ sf) (take (Diff.child_idx st) sc) ∧
  Diff.remove st
    = remove0 ++ filter (λ y, y ∉ sc) (take (Diff.file_idx st) sf) ∧
  Diff.common st
    = common0 ++ filter (λ x, x ∈ sf) (take (Diff.child_idx st) sc) ∧
  (∀ x y, x ∈ take (Diff.child_idx st) sc →
          y ∈ drop (Diff.file_idx st) sf → str_lt x y) ∧
  (∀ x y, y ∈ take (Diff.file_idx st) sf →
          x ∈ drop (Diff.child_idx st) sc → str_lt y x).

Definition trace_ok (Q : bool → string → event → Prop) (w w' : World) : Prop :=
  ready w' = ready w ∧ fsroot w' = fsroot w ∧
  ∃ evs, log w' = log w ++ evs ∧ Forall (Q (ready w) (fsroot w)) evs.

Definition emits (Q : bool → string → event → Prop) {A} (m : M A) : Prop :=
  ∀ w, trace_ok Q w (exec m w).

(** The events of the engine other than a touch and a children watch. *)
Definition benign (ev : event) : Prop :=
  match ev with
  | ZkChildrenWatch _ | FsTouch _ => False
  | _ => True
  end.

Fixpoint str_last (s : string) : option ascii :=
  match s with
  | "" => None
  | String c "" => Some c
  | String _ s' => str_last s'
  end.

Definition quiet (zkpath done_file : string) : bool → string → event → Prop :=
  λ _ _ ev, ev ≠ ZkChildrenWatch zkpath ∧ ev ≠ FsTouch done_file.

Definition need_eff (need : option (string → bool)) (zkpath : string) : bool :=
  from_option (λ f, f zkpath) true need.

Definition cont_eff (cont : option (string → list string → bool))
    (zkpath : string) (children : list string) : bool :=
  from_option (λ c, c zkpath (sorted children)) true cont.

Definition remote_children (w : World) (zkpath : string) : list string :=
  from_option zchildren [] (zk w !! zkpath).

Definition undone_trace (zkpath done_file : string)
    (need_watch cont_watch : bool) (evs : list event) : Prop :=
  let Q := quiet zkpath done_file true "" in
  if need_watch then
    ∃ e1 e2, evs = e1 ++ ZkChildrenWatch zkpath :: e2
      ∧ Forall Q e1 ∧ Forall Q e2
  else
    ∃ e1 e2, evs = e1 ++ ZkGetChildren zkpath :: e2 ∧ Forall Q e1 ∧
      if cont_watch then
        ∃ e3 e4, e2 = e3 ++ ZkChildrenWatch zkpath :: e4
          ∧ Forall Q e3 ∧ Forall Q e4
      else ∃ e3, e2 = e3 ++ [FsTouch done_file] ∧ Forall Q e3.

(** The events a run may leave while the engine is not ready: any but a touch
    of the readiness marker. *)
Definition no_marker_bump : bool → string → event → Prop :=
  λ r root ev, r = false → ev ≠ FsTouch (os_path_join root ".modified").

Definition rename_error (temp fpath : string) : event :=
  Logged ERROR ("Unable to rename: " +:+ temp +:+ " => " +:+ fpath).

(** The fault the environment holds for the coming call of [write_data]. *)
Definition injected (w : World) : option fault :=
  match faults w with
  | flt :: _ => flt
  | [] => None
  end.

(** Whether the environment has a name for the temporary file of a write to
    [fpath]. *)
Definition temp_available (fpath : string) (w : World) : Prop :=
  is_Some (mkstemp_inner (os_path_dirname fpath) ".tmp" (names w) (fs w)).

(** The file system calls of a write that goes through. *)
Definition write_events (temp fpath : string) (data : option string)
    (modified : Z) : list event :=
  FsCreate temp
  :: (if bool_decide (default "" data = "") then []
      else [FsWrite temp (default "" data)])
  ++ [FsChmod temp 420%N; FsUtime temp modified; FsRename temp fpath].

Definition steps (R : relation World) {A} (m : M A) : Prop :=
  ∀ w, R w (exec m w).

(** The engine's sets, the armed watches, the remote namespace, the flag,
    the root and the clock are as they were. *)
Definition engine_frame (w w' : World) : Prop :=
  watches w' = watches w ∧ processed_once w' = processed_once w
  ∧ data_subs w' = data_subs w ∧ children_subs w' = children_subs w
  ∧ zk w' = zk w ∧ ready w' = ready w ∧ fsroot w' = fsroot w
  ∧ now w' = now w.

(** The trace grew by events that [P] admits. *)
Definition log_ext (P : event → Prop) (w w' : World) : Prop :=
  ∃ evs, log w' = log w ++ evs ∧ Forall P evs.

(** Local work: nothing but the files, the names, the faults and the trace
    changes, and the coordination service is not called. *)
Definition local_step (w w' : World) : Prop :=
  engine_frame w w' ∧ log_ext (λ ev, is_zk_call ev = false) w w'.

(** What a touch leaves at a path that held [entry]. *)
Definition touched (entry : option node) (t : Z) : node :=
  match entry with
  | Some (File content _ mode) => File content t mode
  | Some Dir => Dir
  | None => File "" t 420%N
  end.

(** The world after a bump of the readiness marker. *)
Definition bumped (w : World) : World :=
  let marker := os_path_join (fsroot w) ".modified" in
  set_log (λ l, l ++ [FsTouch marker; FsUtime marker (now w)])
    (set_fs <[marker := touched (fs w !! marker) (now w)]> w).

(** A watched path whose mirror file holds the data of its node. *)
Definition w_watched : World :=
  set_data_subs (λ _, {["/cell/servers/host2"]})
    (set_watches (λ _, {["/cell/servers/host2"]})
       (set_fs (λ _, {["/mirror/cell/servers/host2" := File "B" 20 420%N]})
          (init "/mirror" (env0 zk_example 100)))).

(** Whatever the order of its inputs, the diff only moves names: a removal
    is a local name, an addition a remote name, a common name both. *)
Definition diff_sound (sc sf add0 remove0 common0 : list string)
    (st : Diff.state) : Prop :=
  (∀ x, x ∈ Diff.add st → x ∈ add0 ∨ x ∈ sc)
  ∧ (∀ x, x ∈ Diff.remove st → x ∈ remove0 ∨ x ∈ sf)
  ∧ (∀ x, x ∈ Diff.common st → x ∈ common0 ∨ (x ∈ sc ∧ x ∈ sf)).

(** The names of the local files are those of the remote children. *)
Definition in_sync (zkpath : string) (children : list string) (w : World)
    : Prop :=
  sorted children
  = sorted (os_path_basename
              <$> glob_star (os_path_join (fsroot w) (lstrip_slash zkpath))
                    (fs w)).

Definition bump_if_ready (w : World) : World :=
  if ready w then bumped w else w.

Definition watch_log (zkpath : string) : list event :=
  [Logged DEBUG ("Establish children watch on: " +:+ zkpath);
   ZkChildrenWatch zkpath].

(** What a call may change when it finds nothing to do: the armed watches,
    the trace and, in a ready engine, the readiness marker. *)
Definition marker_only (w w' : World) : Prop :=
  let marker := os_path_join (fsroot w) ".modified" in
  processed_once w' = processed_once w ∧ watches w' = watches w
  ∧ zk w' = zk w ∧ ready w' = ready w ∧ fsroot w' = fsroot w
  ∧ (∀ q, q ≠ marker → fs w' !! q = fs w !! q)
  ∧ (ready w = false → fs w' = fs w)
  ∧ ∃ evs, log w' = log w ++ evs
      ∧ Forall (λ ev, is_fs_mutation ev = true →
                      ready w = true
                      ∧ (ev = FsTouch marker ∨ ∃ t, ev = FsUtime marker t))
          evs.

(** A ready engine on the example namespace. *)
Definition w_ready : World :=
  exec mark_ready (init "/mirror" (env0 zk_example 100)).

(** The world after a first call of [sync_children] on the servers. *)
Definition w_synced : World :=
  exec (sync_children "/cell/servers" false None None None None) w_ready.

(** What the loop keeps whatever the order of its inputs: the names the
    cursors have passed are in the three lists, each once and in order. *)
Definition diff_conserves (sc sf add0 remove0 common0 : list string)
    (st : Diff.state) : Prop :=
  Diff.child_idx st ≤ length sc ∧ Diff.file_idx st ≤ length sf
  ∧ ∃ add remove common,
      Diff.add st = add0 ++ add ∧ Diff.remove st = remove0 ++ remove
      ∧ Diff.common st = common0 ++ common
      ∧ add ++ common ≡ₚ take (Diff.child_idx st) sc
      ∧ remove ++ common ≡ₚ take (Diff.file_idx st) sf
      ∧ sublist add (take (Diff.child_idx st) sc)
      ∧ sublist common (take (Diff.child_idx st) sc)
      ∧ sublist remove (take (Diff.file_idx st) sf)
      ∧ sublist common (take (Diff.file_idx st) sf).

(** The state of the loop with the two sides exchanged. *)
Definition diff_swap (st : Diff.state) : Diff.state :=
  Diff.State (Diff.file_idx st) (Diff.child_idx st)
    (Diff.remove st) (Diff.add st) (Diff.common st).

(** What the loop keeps when the local names are sorted without repeats and
    the remote names are sorted, repeats or not: the remote names passed are
    below the local names to come, and no removal is a remote name. *)
Definition diff_guards (sc sf remove0 : list string) (st : Diff.state)
    : Prop :=
  Diff.child_idx st ≤ length sc ∧ Diff.file_idx st ≤ length sf
  ∧ (∀ x y, x ∈ take (Diff.child_idx st) sc →
            y ∈ drop (Diff.file_idx st) sf → str_lt x y)
  ∧ (∀ f, f ∈ Diff.remove st → f ∈ remove0 ∨ f ∉ sc).

(** What a data delivery for [zkpath] may do to the engine: drop [zkpath]
    from [watches], and nothing else; it does not call the coordination
    service. *)
Definition unwatch_step (zkpath : string) (w w' : World) : Prop :=
  (watches w' = watches w ∨ watches w' = watches w ∖ {[zkpath]})
  ∧ processed_once w' = processed_once w
  ∧ data_subs w' = data_subs w ∧ children_subs w' = children_subs w
  ∧ zk w' = zk w ∧ ready w' = ready w ∧ fsroot w' = fsroot w
  ∧ now w' = now w
  ∧ log_ext (λ ev, is_zk_call ev = false) w w'.

(** What kazoo hands to a new data watch: the data and the stat of the node
    or, for a missing node, nothing. *)
Definition first_delivery (w : World) (zkpath : string)
    : option string * option stat :=
  match zk w !! zkpath with
  | Some n => (zdata n, Some (zstat n))
  | None => (None, None)
  end.

(** [processed_once] only grows. *)
Definition records (w w' : World) : Prop :=
  processed_once w ⊆ processed_once w'.

(** Admits every event: [emits any_event m] says that [m] keeps the
    readiness flag and the mirror root. *)
Definition any_event : bool → string → event → Prop := λ _ _ _, True.

(** [steps_from I R m]: from a world in [I], every run of [m] takes the
    world to one that [R] relates to it. *)
Definition steps_from (I : World → Prop) (R : relation World) {A} (m : M A)
    : Prop :=
  ∀ w, I w → R w (exec m w).

(** No data watch is made, and [watches] and the armed data watches stay as
    they are. *)
Definition no_data_watch (w w' : World) : Prop :=
  watches w' = watches w ∧ data_subs w' = data_subs w
  ∧ log_ext (λ ev, ∀ p, ev ≠ ZkDataWatch p) w w'.

Definition unwatched_all (w : World) : Prop := watches w = ∅.

(** The node at [zkpath] exists and holds data. *)
Definition holds_data (w : World) (zkpath : string) : Prop :=
  is_Some (first_delivery w zkpath).1.

(** One round of the loops of [_children_watch] over the names to add, with
    [watch_data] and the default [on_add]. *)
Definition watch_and_sync (zkpath node : string) : M unit :=
  let zknode := join_zookeeper_path zkpath node in
  when true (modify (set_watches (union {[zknode]}))) ;;
  _default_on_add zknode.

(** The trace only grows. *)
Definition appends : relation World := log_ext (λ _, True).

(** The remote namespace and the armed children watches are as they were. *)
Definition remote_frame (w w' : World) : Prop :=
  zk w' = zk w ∧ children_subs w' = children_subs w.

(** * Properties *)

(** ** The order on names *)

Lemma str_lt_le (a b : string) : str_lt a b ↔ String.le a b ∧ a ≠ b.
Proof.
  unfold str_lt, String.le, String.ltb, String.leb.
  destruct (String.compare a b) eqn:E; simpl.
  - apply String.compare_eq_iff in E. naive_solver.
  - split; [intros _|done]. split; [done|]. intros ->.
    assert (String.le b b) as H by reflexivity.
    unfold String.le, String.leb in H.
    rewrite String.compare_antisym, E in H. done.
  - naive_solver.
Qed.

#[global] Instance str_lt_irrefl : Irreflexive str_lt.
Proof. intros a [_ H]%str_lt_le. done. Qed.

#[global] Instance str_lt_trans : Transitive str_lt.
Proof.
  intros a b c [H1 N1]%str_lt_le [H2 N2]%str_lt_le. apply str_lt_le.
  split; [by etrans|]. intros ->. apply N1. by apply (anti_symm String.le).
Qed.

Lemma str_eqb_true (a b : string) : String.eqb a b = true ↔ a = b.
Proof. apply String.eqb_eq. Qed.

Lemma str_trichotomy (a b : string) :
  String.eqb a b = false → String.ltb a b = false → str_lt b a.
Proof.
  intros Hne Hlt. apply str_lt_le.
  assert (a ≠ b) as Hab by (intros ->; by rewrite String.eqb_refl in Hne).
  split; [|done].
  destruct (total String.le a b) as [H|H]; [|done].
  assert (str_lt a b) as Hc by (by apply str_lt_le).
  unfold str_lt in Hc. congruence.
Qed.

Lemma Sorted_le_NoDup_lt (l : list string) :
  Sorted String.le l → NoDup l → StronglySorted str_lt l.
Proof.
  intros Hs%Sorted_StronglySorted Hn; [|apply _].
  induction Hs as [|x l Hs IH Hx]; [constructor|].
  apply NoDup_cons in Hn as [Hnx Hn]. constructor; [by apply IH|].
  rewrite Forall_forall in Hx |- *. intros y Hy. apply str_lt_le.
  split; [by apply Hx|]. intros ->. done.
Qed.

(** ** The children diff *)

Section diff.
Variables sc sf : list string.
Variables add0 remove0 common0 : list string.
Hypothesis sc_sorted : StronglySorted str_lt sc.
Hypothesis sf_sorted : StronglySorted str_lt sf.

Local Notation "'Inv'" := (diff_inv sc sf add0 remove0 common0).

Lemma diff_inv_init : Inv (Diff.State 0 0 add0 remove0 common0).
Proof.
  unfold diff_inv; simpl. rewrite !app_nil_r.
  repeat split; try lia; intros x y; by rewrite ?elem_of_nil.
Qed.

Lemma sorted_before_at (l : list string) i c x :
  StronglySorted str_lt l → l !! i = Some c → x ∈ take i l → str_lt x c.
Proof.
  intros Hs Hi Hx. rewrite <- (take_drop i l) in Hs.
  eapply StronglySorted_app_1_elem_of; [done..|].
  rewrite (drop_S _ _ _ Hi). left.
Qed.

Lemma sorted_at_after (l : list string) i c x :
  StronglySorted str_lt l → l !! i = Some c → x ∈ drop (S i) l → str_lt c x.
Proof.
  intros Hs Hi Hx. rewrite <- (take_drop (S i) l) in Hs.
  eapply StronglySorted_app_1_elem_of; [done| |done].
  rewrite (take_S_r _ _ _ Hi). set_solver.
Qed.

Lemma elem_of_split_at (l : list string) i x :
  x ∈ l ↔ x ∈ take i l ∨ x ∈ drop i l.
Proof. by rewrite <- (take_drop i l) at 1; rewrite elem_of_app. Qed.

(** A remote name below the local cursor's name, or with no local name
    left, is in no local position. *)
Lemma remote_only st c :
  Inv st → sc !! Diff.child_idx st = Some c →
  (∀ f, sf !! Diff.file_idx st = Some f → str_lt c f) →
  c ∉ sf.
Proof.
  intros (_ & Hj & _ & _ & _ & _ & Hlow) Hc Hf.
  rewrite (elem_of_split_at sf (Diff.file_idx st)). intros [Hin|Hin].
  - apply (irreflexivity str_lt c), (Hlow c c Hin).
    rewrite (drop_S _ _ _ Hc). left.
  - destruct (sf !! Diff.file_idx st) as [f|] eqn:Ef.
    + rewrite (drop_S _ _ _ Ef) in Hin. apply elem_of_cons in Hin as [->|Hin].
      * by apply (irreflexivity str_lt f), Hf.
      * apply (irreflexivity str_lt c). etrans; [by apply Hf|].
        by eapply (sorted_at_after sf).
    + apply lookup_ge_None in Ef. rewrite drop_ge in Hin by done.
      by apply elem_of_nil in Hin.
Qed.

Lemma local_only st f :
  Inv st → sf !! Diff.file_idx st = Some f →
  (∀ c, sc !! Diff.child_idx st = Some c → str_lt f c) →
  f ∉ sc.
Proof.
  intros (_ & _ & _ & _ & _ & Hlow & _) Hf Hc.
  rewrite (elem_of_split_at sc (Diff.child_idx st)). intros [Hin|Hin].
  - apply (irreflexivity str_lt f), (Hlow f f Hin).
    rewrite (drop_S _ _ _ Hf). left.
  - destruct (sc !! Diff.child_idx st) as [c|] eqn:Ec.
    + rewrite (drop_S _ _ _ Ec) in Hin. apply elem_of_cons in Hin as [->|Hin].
      * by apply (irreflexivity str_lt c), Hc.
      * apply (irreflexivity str_lt f). etrans; [by apply Hc|].
        by eapply (sorted_at_after sc).
    + apply lookup_ge_None in Ec. rewrite drop_ge in Hin by done.
      by apply elem_of_nil in Hin.
Qed.

Lemma filter_take_S {P : string → Prop} `{!∀ x, Decision (P x)}
    (l : list string) i c :
  l !! i = Some c →
  filter P (take (S i) l)
    = filter P (take i l) ++ (if decide (P c) then [c] else []).
Proof.
  intros Hi. by rewrite (take_S_r _ _ _ Hi), filter_app.
Qed.

(** Advancing the remote cursor past [c]. *)
Lemma inv_advance_child st c :
  Inv st → sc !! Diff.child_idx st = Some c →
  (∀ y, y ∈ drop (Diff.file_idx st) sf → str_lt c y) →
  Inv (Diff.State (S (Diff.child_idx st)) (Diff.file_idx st)
              (Diff.add st ++ [c]) (Diff.remove st) (Diff.common st)).
Proof.
  intros Hinv Hc Hbelow.
  assert (c ∉ sf) as Hnot.
  { eapply remote_only; [done..|]. intros f Hf. apply Hbelow.
    rewrite (drop_S _ _ _ Hf). left. }
  destruct Hinv as (Hi & Hj & Ha & Hr & Hco & Hup & Hlow).
  unfold diff_inv; simpl.
  rewrite !(filter_take_S _ _ _ Hc), !decide_True, decide_False by
    (done || by intros ?).
  rewrite Ha, Hr, Hco, app_nil_r, <- !(assoc (++)).
  split_and!; try done.
  - apply lookup_lt_Some in Hc. lia.
  - intros x y Hx Hy. rewrite (take_S_r _ _ _ Hc) in Hx.
    apply elem_of_app in Hx as [Hx|Hx]; [by apply Hup|].
    apply list_elem_of_singleton in Hx as ->. by apply Hbelow.
  - intros x y Hy Hx. apply Hlow; [done|].
    rewrite (drop_S _ _ _ Hc). by right.
Qed.

(** Advancing the local cursor past [f]. *)
Lemma inv_advance_file st f :
  Inv st → sf !! Diff.file_idx st = Some f →
  (∀ x, x ∈ drop (Diff.child_idx st) sc → str_lt f x) →
  Inv (Diff.State (Diff.child_idx st) (S (Diff.file_idx st))
              (Diff.add st) (Diff.remove st ++ [f]) (Diff.common st)).
Proof.
  intros Hinv Hf Hbelow.
  assert (f ∉ sc) as Hnot.
  { eapply local_only; [done..|]. intros c Hc. apply Hbelow.
    rewrite (drop_S _ _ _ Hc). left. }
  destruct Hinv as (Hi & Hj & Ha & Hr & Hco & Hup & Hlow).
  unfold diff_inv; simpl.
  rewrite !(filter_take_S _ _ _ Hf), !decide_True by done.
  rewrite Ha, Hr, Hco, <- !(assoc (++)).
  split_and!; try done.
  - apply lookup_lt_Some in Hf. lia.
  - intros x y Hx Hy. apply Hup; [done|].
    rewrite (drop_S _ _ _ Hf). by right.
  - intros x y Hy Hx. rewrite (take_S_r _ _ _ Hf) in Hy.
    apply elem_of_app in Hy as [Hy|Hy]; [by apply Hlow|].
    apply list_elem_of_singleton in Hy as ->. by apply Hbelow.
Qed.

(** Advancing both cursors past a name found on both sides. *)
Lemma inv_advance_both st c :
  Inv st → sc !! Diff.child_idx st = Some c →
  sf !! Diff.file_idx st = Some c →
  Inv (Diff.State (S (Diff.child_idx st)) (S (Diff.file_idx st))
              (Diff.add st) (Diff.remove st) (Diff.common st ++ [c])).
Proof.
  intros (Hi & Hj & Ha & Hr & Hco & Hup & Hlow) Hc Hf.
  assert (c ∈ sf) as Hin1 by (by eapply list_elem_of_lookup_2).
  assert (c ∈ sc) as Hin2 by (by eapply list_elem_of_lookup_2).
  unfold diff_inv; simpl.
  rewrite !(filter_take_S _ _ _ Hc), !(filter_take_S _ _ _ Hf).
  rewrite decide_False, decide_False, decide_True by (done || by intros ?).
  rewrite Ha, Hr, Hco, !app_nil_r, <- !(assoc (++)).
  split_and!; try done.
  - apply lookup_lt_Some in Hc. lia.
  - apply lookup_lt_Some in Hf. lia.
  - intros x y Hx Hy. rewrite (take_S_r _ _ _ Hc) in Hx.
    apply elem_of_app in Hx as [Hx|Hx].
    + apply Hup; [done|]. rewrite (drop_S _ _ _ Hf). by right.
    + apply list_elem_of_singleton in Hx as ->.
      by eapply (sorted_at_after sf).
  - intros x y Hy Hx. rewrite (take_S_r _ _ _ Hf) in Hy.
    apply elem_of_app in Hy as [Hy|Hy].
    + apply Hlow; [done|]. rewrite (drop_S _ _ _ Hc). by right.
    + apply list_elem_of_singleton in Hy as ->.
      by eapply (sorted_at_after sc).
Qed.

Lemma below_drop (l : list string) i a b :
  StronglySorted str_lt l → l !! i = Some a → str_lt b a →
  ∀ x, x ∈ drop i l → str_lt b x.
Proof.
  intros Hs Hi Hba x Hx. rewrite (drop_S _ _ _ Hi) in Hx.
  apply elem_of_cons in Hx as [->|Hx]; [done|].
  etrans; [done|]. by eapply (sorted_at_after l).
Qed.

(** One iteration keeps the invariant and moves a cursor forward. *)
Lemma step_inv st st' :
  Inv st → Diff.step sc sf st = Some st' →
  Inv st' ∧
  (length sc - Diff.child_idx st') + (length sf - Diff.file_idx st')
    < (length sc - Diff.child_idx st) + (length sf - Diff.file_idx st).
Proof.
  intros Hinv. pose proof Hinv as (Hi & Hj & _).
  unfold Diff.step. case_decide as Hcond; [|done].
  destruct (decide (Diff.child_idx st < length sc)) as [Hci|Hci];
    destruct (decide (Diff.file_idx st < length sf)) as [Hfi|Hfi].
  - destruct (lookup_lt_is_Some_2 _ _ Hci) as [c Hc].
    destruct (lookup_lt_is_Some_2 _ _ Hfi) as [f Hf].
    rewrite Hc, Hf.
    destruct (String.eqb c f) eqn:Eeq; [|destruct (String.ltb c f) eqn:Elt];
      intros [= <-]; simpl.
    + apply str_eqb_true in Eeq as <-.
      split; [by apply inv_advance_both|lia].
    + split; [|lia]. apply inv_advance_child; [done..|].
      by eapply (below_drop sf).
    + split; [|lia]. apply inv_advance_file; [done..|].
      eapply (below_drop sc); [done..|]. by apply str_trichotomy.
  - destruct (lookup_lt_is_Some_2 _ _ Hci) as [c Hc]. rewrite Hc.
    intros [= <-]; simpl. split; [|lia].
    apply inv_advance_child; [done..|].
    intros y. rewrite drop_ge by lia. by rewrite elem_of_nil.
  - destruct (lookup_lt_is_Some_2 _ _ Hfi) as [f Hf]. rewrite Hf.
    intros [= <-]; simpl. split; [|lia].
    apply inv_advance_file; [done..|].
    intros y. rewrite drop_ge by lia. by rewrite elem_of_nil.
  - lia.
Qed.

Lemma step_exit st :
  Inv st → Diff.step sc sf st = None →
  Diff.child_idx st = length sc ∧ Diff.file_idx st = length sf.
Proof.
  intros (Hi & Hj & _). unfold Diff.step.
  case_decide as Hcond; [|lia].
  destruct (decide (Diff.child_idx st < length sc)) as [Hci|Hci];
    destruct (decide (Diff.file_idx st < length sf)) as [Hfi|Hfi]; try lia.
  - destruct (lookup_lt_is_Some_2 _ _ Hci) as [c ->].
    destruct (lookup_lt_is_Some_2 _ _ Hfi) as [f ->].
    by repeat case_match.
  - by destruct (lookup_lt_is_Some_2 _ _ Hci) as [c ->].
  - by destruct (lookup_lt_is_Some_2 _ _ Hfi) as [f ->].
Qed.

(** With fuel for every remaining position the loop runs to its exit. *)
Lemma loop_inv fuel st :
  Inv st →
  (length sc - Diff.child_idx st) + (length sf - Diff.file_idx st) ≤ fuel →
  Inv (Diff.loop sc sf fuel st) ∧
  Diff.step sc sf (Diff.loop sc sf fuel st) = None.
Proof.
  revert st. induction fuel as [|fuel IH]; intros st Hinv Hfuel; simpl.
  - split; [done|]. unfold Diff.step. case_decide; [lia|done].
  - destruct (Diff.step sc sf st) as [st'|] eqn:Est; [|done].
    destruct (step_inv _ _ Hinv Est) as [Hinv' Hlt].
    apply IH; [done|lia].
Qed.

Lemma run_spec :
  _filter_children_actions sc sf add0 remove0 common0
    = (add0 ++ filter (λ x, x ∉ sf) sc,
       remove0 ++ filter (λ y, y ∉ sc) sf,
       common0 ++ filter (λ x, x ∈ sf) sc)
  ∧ Diff.step sc sf (Diff.run sc sf add0 remove0 common0) = None.
Proof.
  unfold _filter_children_actions, Diff.run.
  destruct (loop_inv (length sc + length sf) _ diff_inv_init) as [Hinv Hexit];
    [simpl; lia|].
  split; [|done].
  destruct (step_exit _ Hinv Hexit) as [Hi Hj].
  destruct Hinv as (_ & _ & -> & -> & -> & _).
  by rewrite Hi, Hj, !firstn_all.
Qed.
End diff.

(** Why the lists are taken without a repeated name: on sorted lists that
    repeat one, the first [a] of the remote list meets the local [a] and is
    common, the second finds no local name left and is an addition, although
    [a] is a local name.  [_children_watch] passes no such lists: the names
    of one node's children, and of one directory's entries, are distinct. *)
Lemma filter_children_actions_repeated_name :
  Sorted String.le ["a"; "a"] ∧ Sorted String.le ["a"]
  ∧ _filter_children_actions ["a"; "a"] ["a"] [] [] [] = (["a"], [], ["a"])
  ∧ filter (λ x, x ∉ ["a"]) ["a"; "a"] = [].
Proof. split_and!; [repeat constructor..|reflexivity|reflexivity]. Qed.



(** ** Running a computation *)

Ltac run_unfold :=
  cbv beta delta [bind ret raise gets modify emit when try_except result exec
                  fail_if time_time].

Lemma bind_run {A B} (m : M A) (k : A → M B) w :
  bind m k w = match m w with
               | (Ok a, w') => k a w'
               | (Raise e, w') => (Raise e, w')
               end.
Proof. reflexivity. Qed.

Lemma exec_bind {A B} (m : M A) (k : A → M B) w :
  exec (bind m k) w = match result m w with
                      | Ok a => exec (k a) (exec m w)
                      | Raise _ => exec m w
                      end.
Proof. unfold exec, result, bind. by destruct (m w) as [[a|e] w']. Qed.

Lemma result_bind {A B} (m : M A) (k : A → M B) w :
  result (bind m k) w = match result m w with
                        | Ok a => result (k a) (exec m w)
                        | Raise e => Raise e
                        end.
Proof. unfold exec, result, bind. by destruct (m w) as [[a|e] w']. Qed.

Lemma run_eta {A} (m : M A) w : m w = (result m w, exec m w).
Proof. unfold result, exec. by destruct (m w). Qed.

(** ** What a computation may leave in the trace

    [trace_ok Q w w'] relates the worlds before and after a computation that
    keeps the readiness flag and the mirror root, and only appends to the
    trace events that [Q] admits for that flag and that root. *)

Section emits.
Variable Q : bool → string → event → Prop.

#[global] Instance trace_ok_refl : Reflexive (trace_ok Q).
Proof. intros w. split_and!; [done..|]. exists []. by rewrite app_nil_r. Qed.

#[global] Instance trace_ok_trans : Transitive (trace_ok Q).
Proof.
  intros w1 w2 w3 (Hr1 & Hf1 & evs1 & Hl1 & HQ1) (Hr2 & Hf2 & evs2 & Hl2 & HQ2).
  split_and!; [congruence..|]. exists (evs1 ++ evs2).
  rewrite Hl2, Hl1, (assoc (++)). split; [done|].
  apply Forall_app. split; [done|]. by rewrite <- Hr1, <- Hf1.
Qed.

Lemma emits_ret {A} (a : A) : emits Q (ret a).
Proof. intros w. reflexivity. Qed.

Lemma emits_raise {A} e : emits Q (@raise A e).
Proof. intros w. reflexivity. Qed.

Lemma emits_gets {A} (f : World → A) : emits Q (gets f).
Proof. intros w. reflexivity. Qed.

Lemma emits_bind {A B} (m : M A) (k : A → M B) :
  emits Q m → (∀ a, emits Q (k a)) → emits Q (bind m k).
Proof.
  intros Hm Hk w. rewrite exec_bind. destruct (result m w); [|apply Hm].
  etrans; [apply Hm|apply Hk].
Qed.

Lemma emits_try_except {A} (m : M A) handler :
  emits Q m → (∀ e h, handler e = Some h → emits Q h) →
  emits Q (try_except m handler).
Proof.
  intros Hm Hh w. specialize (Hm w). unfold exec, try_except in *.
  destruct (m w) as [[a|e] w']; simpl in *; [done|].
  destruct (handler e) as [h|] eqn:Eh; [|done].
  etrans; [done|]. by apply (Hh e h Eh w').
Qed.

Lemma emits_when b (m : M unit) : emits Q m → emits Q (when b m).
Proof. destruct b; [done|]. intros _. apply emits_ret. Qed.

Lemma emits_for_each {A} (l : list A) (body : A → M unit) :
  (∀ x, emits Q (body x)) → emits Q (for_each l body).
Proof.
  intros Hb. induction l as [|x l IH]; simpl; [apply emits_ret|].
  apply emits_bind; [apply Hb|done].
Qed.

Lemma emits_modify (f : World → World) :
  (∀ w, ready (f w) = ready w) → (∀ w, fsroot (f w) = fsroot w) →
  (∀ w, log (f w) = log w) → emits Q (modify f).
Proof.
  intros Hr Hf Hl w. split_and!; [apply Hr|apply Hf|].
  exists []. unfold exec, modify; simpl. by rewrite Hl, app_nil_r.
Qed.

Lemma emits_emit ev : (∀ r root, Q r root ev) → emits Q (emit ev).
Proof.
  intros HQ w. split_and!; [done..|]. exists [ev]. split; [done|].
  by constructor.
Qed.

Lemma emits_exit_on_unhandled {A} (m : M A) :
  (∀ r root ev, benign ev → Q r root ev) →
  emits Q m → emits Q (exit_on_unhandled m).
Proof.
  intros HQ Hm. apply emits_try_except; [done|]. intros e h [= <-].
  apply emits_bind; [|intros; apply emits_raise].
  apply emits_emit. intros. by apply HQ.
Qed.
End emits.

(** Proves [emits Q m] for a computation built from the primitives, given
    [HQ : ∀ r root ev, benign ev → Q r root ev] in the context. *)
Ltac emits_step :=
  lazymatch goal with
  | |- emits _ (bind _ _) => apply emits_bind; [|intros ?]
  | |- emits _ (ret _) => apply emits_ret
  | |- emits _ (raise _) => apply emits_raise
  | |- emits _ (gets _) => apply emits_gets
  | |- emits _ (when _ _) => apply emits_when
  | |- emits _ (for_each _ _) => apply emits_for_each; intros ?
  | |- emits _ (modify _) => apply emits_modify; reflexivity
  | |- emits _ (emit _) =>
      apply emits_emit; intros;
      first [ match goal with
              | HQ : ∀ r root ev, benign ev → _ r root ev |- _ =>
                  apply HQ; exact I
              end
            | solve [auto] ]
  | |- emits _ (fail_if ?b) => destruct b; simpl
  | |- emits _ (time_time) => apply emits_gets
  | |- emits _ (match ?x with _ => _ end) => destruct x
  | |- emits _ (if ?x then _ else _) => destruct x
  | |- emits _ (let _ := _ in _) => cbv zeta
  end.

Ltac emits_auto := repeat emits_step; try solve [auto].

Section emits_primitives.
Variable Q : bool → string → event → Prop.
Hypothesis HQ : ∀ r root ev, benign ev → Q r root ev.

Lemma emits_os_utime p t : emits Q (os_utime p t).
Proof. unfold os_utime. emits_auto. Qed.

Lemma emits_os_fchmod p m : emits Q (os_fchmod p m).
Proof. unfold os_fchmod. emits_auto. Qed.

Lemma emits_os_rename a b : emits Q (os_rename a b).
Proof. unfold os_rename. emits_auto. Qed.

Lemma emits_named_temporary_file d p : emits Q (named_temporary_file d p).
Proof. unfold named_temporary_file. emits_auto. Qed.

Lemma emits_temp_write p d : emits Q (temp_write p d).
Proof. unfold temp_write. emits_auto. Qed.

Lemma emits_next_fault : emits Q next_fault.
Proof. unfold next_fault. emits_auto. Qed.

Lemma emits_rm_safe p : emits Q (rm_safe p).
Proof. unfold rm_safe. emits_auto. Qed.

Lemma emits_mkdir_safe p : emits Q (mkdir_safe p).
Proof. unfold mkdir_safe. emits_auto. Qed.

Lemma emits_zk_get p : emits Q (zk_get p).
Proof. unfold zk_get. emits_auto. Qed.

Lemma emits_zk_get_children p : emits Q (zk_get_children p).
Proof. unfold zk_get_children. emits_auto. Qed.

Lemma emits_fpath p : emits Q (fpath p).
Proof. unfold fpath. emits_auto. Qed.

Lemma emits_write_data p d t r : emits Q (write_data p d t r).
Proof.
  unfold write_data.
  apply emits_bind; [apply emits_next_fault|intros flt].
  apply emits_bind; [emits_auto|intros _].
  apply emits_bind; [apply emits_named_temporary_file|intros temp].
  apply emits_bind.
  { destruct d as [d|]; [|apply emits_ret].
    case_bool_decide; [apply emits_ret|].
    destruct flt as [[]|]; try apply emits_temp_write.
    apply emits_bind; [apply emits_temp_write|intros; apply emits_raise]. }
  intros _. apply emits_bind; [emits_auto|intros _].
  apply emits_bind; [apply emits_os_fchmod|intros _].
  apply emits_bind; [emits_auto|intros _].
  apply emits_bind; [apply emits_os_utime|intros _].
  apply emits_try_except.
  - apply emits_bind; [emits_auto|intros _]. apply emits_os_rename.
  - intros e h. destruct (is_OSError e); [|done]. intros [= <-]. emits_auto.
Qed.

Lemma emits__write_data p d st : emits Q (_write_data p d st).
Proof.
  unfold _write_data. destruct st; [apply emits_write_data|apply emits_raise].
Qed.

Lemma emits__default_on_del p : emits Q (_default_on_del p).
Proof.
  unfold _default_on_del. apply emits_bind; [apply emits_fpath|intros].
  apply emits_rm_safe.
Qed.

Lemma touch_trace_ok p w :
  Q (ready w) (fsroot w) (FsTouch p) → trace_ok Q w (exec (touch p) w).
Proof.
  intros Hp. unfold touch, exec. run_unfold. simpl.
  destruct (fs w !! p) as [[]|]; simpl;
    (split_and!; [done..|]; exists [FsTouch p]; split; [done|]);
    by constructor.
Qed.

Lemma emits_touch p : (∀ r root, Q r root (FsTouch p)) → emits Q (touch p).
Proof. intros Hp w. by apply touch_trace_ok. Qed.

(** The marker is touched by a ready engine only. *)
Hypothesis HQ_marker :
  ∀ root, Q true root (FsTouch (os_path_join root ".modified")).

Lemma emits__update_last : emits Q _update_last.
Proof.
  intros w. unfold _update_last. rewrite exec_bind. simpl.
  destruct (ready w) eqn:Er; [|reflexivity]. unfold exec at 2; simpl.
  rewrite exec_bind. simpl. unfold exec at 2; simpl. rewrite exec_bind.
  assert (trace_ok Q w (exec (touch (os_path_join (fsroot w) ".modified")) w))
    as Htouch by (apply touch_trace_ok; rewrite Er; apply HQ_marker).
  destruct (result _ w); [|done]. etrans; [done|].
  assert (emits Q (atime <- time_time ;; mtime <- time_time ;;
      os_utime (os_path_join (fsroot w) ".modified") mtime)) as Hrest;
    [|apply Hrest].
  emits_auto. apply emits_os_utime.
Qed.

Lemma emits__data_watch p d st ev : emits Q (_data_watch p d st ev).
Proof.
  unfold _data_watch.
  apply emits_bind; [apply emits_fpath|intros fp].
  apply emits_bind; [|intros _; emits_auto].
  destruct d, ev as [[]|]; emits_auto;
    first [apply emits_rm_safe|apply emits__write_data].
Qed.

Lemma emits_data_watch_callback p d st ev :
  emits Q (data_watch_callback p d st ev).
Proof.
  unfold data_watch_callback. apply emits_exit_on_unhandled; [done|].
  apply emits_bind; [apply emits__data_watch|intros].
  apply emits_bind; [apply emits__update_last|intros; apply emits_ret].
Qed.

Lemma emits_zk_DataWatch p func :
  (∀ d st ev, emits Q (func d st ev)) → emits Q (zk_DataWatch p func).
Proof. intros Hf. unfold zk_DataWatch. emits_auto; apply Hf. Qed.

Lemma emits_sync_data p : emits Q (sync_data p).
Proof.
  unfold sync_data. apply emits_bind; [apply emits_gets|intros ws].
  case_bool_decide.
  - apply emits_zk_DataWatch. intros. apply emits_data_watch_callback.
  - apply emits_bind; [apply emits_fpath|intros fp].
    apply emits_bind; [apply emits_zk_get|intros r].
    apply emits_bind; [apply emits__write_data|intros _].
    apply emits__update_last.
Qed.

Lemma emits_deliver_data p d st ev : emits Q (deliver_data p d st ev).
Proof.
  unfold deliver_data. apply emits_bind; [apply emits_gets|intros subs].
  case_bool_decide; [|apply emits_ret].
  apply emits_bind; [apply emits_data_watch_callback|intros].
  emits_auto.
Qed.

(** A children watch and a done file are what [sync_children] adds. *)
Hypothesis HQ_watch : ∀ r root p, Q r root (ZkChildrenWatch p).
Hypothesis HQ_done :
  ∀ r root p, Q r root (FsTouch (os_path_join p ".done")).

Section callbacks.
Variables on_add on_del : string → M unit.
Hypothesis on_add_emits : ∀ zknode, emits Q (on_add zknode).
Hypothesis on_del_emits : ∀ zknode, emits Q (on_del zknode).

Lemma emits__children_watch p children wd cont :
  emits Q (_children_watch p children wd on_add on_del cont).
Proof.
  unfold _children_watch.
  apply emits_bind; [apply emits_fpath|intros fp].
  apply emits_bind; [apply emits_gets|intros m].
  destruct (children_actions fp children m) as [[add remove] common].
  apply emits_bind; [emits_auto|intros _].
  apply emits_bind; [apply emits_gets|intros seen].
  apply emits_bind; [emits_auto|intros _].
  apply emits_bind; [emits_auto|intros _].
  destruct cont; apply emits_ret.
Qed.

Lemma emits_children_watch_callback p wd cont children :
  emits Q (children_watch_callback p wd on_add on_del cont children).
Proof.
  unfold children_watch_callback. apply emits_exit_on_unhandled; [done|].
  apply emits_bind; [apply emits__children_watch|intros].
  apply emits_bind; [apply emits__update_last|intros; apply emits_ret].
Qed.

Lemma emits_deliver_children p wd cont children :
  emits Q (deliver_children p wd on_add on_del cont children).
Proof.
  unfold deliver_children. apply emits_bind; [apply emits_gets|intros subs].
  case_bool_decide; [|apply emits_ret].
  apply emits_bind; [apply emits_children_watch_callback|intros].
  emits_auto.
Qed.

Lemma emits__make_children_watch p wd cont :
  emits Q (_make_children_watch p wd on_add on_del cont).
Proof.
  unfold _make_children_watch, zk_ChildrenWatch. emits_auto.
  apply emits_children_watch_callback.
Qed.
End callbacks.

Lemma emits_sync_children p wd on_add on_del need cont :
  (∀ zknode, emits Q (default _default_on_add on_add zknode)) →
  (∀ zknode, emits Q (default _default_on_del on_del zknode)) →
  emits Q (sync_children p wd on_add on_del need cont).
Proof.
  intros Ha Hd. unfold sync_children.
  apply emits_bind; [emits_auto|intros _].
  apply emits_bind; [apply emits_fpath|intros fp].
  apply emits_bind; [apply emits_mkdir_safe|intros _].
  cbv zeta. apply emits_bind; [apply emits_gets|intros found].
  destruct found; [emits_auto|].
  unfold sync_children_undone.
  apply emits_bind; [emits_auto|intros nw].
  apply emits_bind; [|intros nw'; apply emits_when, emits_touch; auto].
  destruct nw.
  - apply emits_bind; [|intros; apply emits_ret].
    by apply emits__make_children_watch.
  - apply emits_bind.
    { apply emits_try_except; [apply emits_zk_get_children|].
      intros e h. case_bool_decide; [|done]. intros [= <-]. apply emits_ret. }
    intros children.
    apply emits_bind; [by apply emits__children_watch|intros r].
    apply emits_bind;
      [by apply emits_when, emits__make_children_watch|intros _].
    apply emits_bind; [apply emits__update_last|intros; apply emits_ret].
Qed.
End emits_primitives.

(** ** Paths *)

Lemma str_app_nil_l (s : string) : "" +:+ s = s.
Proof. reflexivity. Qed.

Lemma str_app_cons c (s t : string) : String c s +:+ t = String c (s +:+ t).
Proof. reflexivity. Qed.

Lemma str_app_nil_r (s : string) : s +:+ "" = s.
Proof. induction s as [|c s IH]; [done|]. by rewrite str_app_cons, IH. Qed.

Lemma str_app_assoc (a b c : string) : (a +:+ b) +:+ c = a +:+ (b +:+ c).
Proof. induction a as [|x a IH]; [done|]. by rewrite !str_app_cons, IH. Qed.

Lemma str_length_app (a b : string) :
  String.length (a +:+ b) = String.length a + String.length b.
Proof.
  induction a as [|x a IH]; [done|]. rewrite str_app_cons. simpl.
  by rewrite IH.
Qed.

(** Joining a relative name puts it after the directory and its slash. *)
Lemma os_path_join_dir (a b : string) :
  starts_with_slash b = false → os_path_join a b = os_path_join a "" +:+ b.
Proof.
  intros Hb. unfold os_path_join. rewrite Hb. simpl.
  destruct (bool_decide (a = "") || ends_with_slash a).
  - by rewrite str_app_nil_r.
  - by rewrite !str_app_assoc.
Qed.

Lemma os_path_join_longer (a b : string) :
  starts_with_slash b = false → b ≠ "" → os_path_join a b ≠ a.
Proof.
  intros Hb Hne Heq. apply (f_equal String.length) in Heq.
  unfold os_path_join in Heq. rewrite Hb in Heq.
  destruct b as [|c b]; [done|].
  destruct (bool_decide (a = "") || ends_with_slash a);
    rewrite ?str_length_app in Heq; simpl in Heq; lia.
Qed.

Lemma str_last_app (a b : string) : b ≠ "" → str_last (a +:+ b) = str_last b.
Proof.
  intros Hb. induction a as [|c a IH]; [done|].
  rewrite str_app_cons. simpl. rewrite IH.
  destruct (a +:+ b) eqn:E; [|done].
  destruct a; [by rewrite str_app_nil_l in E|done].
Qed.

(** No done file is the readiness marker. *)
Lemma done_file_not_marker (a b : string) :
  os_path_join a ".done" ≠ os_path_join b ".modified".
Proof.
  rewrite (os_path_join_dir a ".done"), (os_path_join_dir b ".modified")
    by done.
  intros Heq.
  apply (f_equal str_last) in Heq. by rewrite !str_last_app in Heq.
Qed.

(** ** The done marker short circuit *)

(** C4. When the mirror directory of a path holds the done file,
    [sync_children] returns at once: it calls the coordination service not
    once (no listing, no subscription, no synchronisation of a child), and
    leaves the engine's sets, the armed watches and the files as they are,
    but for the mirror directory it has made sure of. *)
Theorem sync_children_done_marker (w : World) (zkpath : string)
    (watch_data : bool) (on_add on_del : option (string → M unit))
    (need : option (string → bool))
    (cont : option (string → list string → bool)) :
  let p := os_path_join (fsroot w) (lstrip_slash zkpath) in
  let w' := exec (sync_children zkpath watch_data on_add on_del need cont) w in
  is_Some (fs w !! os_path_join p ".done") →
  result (sync_children zkpath watch_data on_add on_del need cont) w = Ok tt
  ∧ (∃ evs, log w' = log w ++ evs ∧ filter is_zk_call evs = [])
  ∧ data_subs w' = data_subs w ∧ children_subs w' = children_subs w
  ∧ watches w' = watches w ∧ processed_once w' = processed_once w
  ∧ ∀ q, q ≠ p → fs w' !! q = fs w !! q.
Proof.
  intros p w' Hdone. subst w'.
  unfold sync_children, result, exec, fpath, mkdir_safe, os_path_exists.
  run_unfold. simpl. fold p.
  destruct (fs w !! p) as [n|] eqn:Ep; simpl.
  - rewrite bool_decide_true by done. simpl.
    split_and!; try done. eexists. rewrite <- (assoc (++)). by split.
  - rewrite bool_decide_true; simpl.
    + split_and!; try done.
      * eexists. rewrite <- !(assoc (++)). by split.
      * intros q Hq. by rewrite lookup_insert_ne.
    + destruct Hdone as [n Hn]. rewrite lookup_insert_ne; [by rewrite Hn|].
      intros Heq. rewrite <- Heq in Hn. congruence.
Qed.

Lemma sync_children_done_marker_witness :
  let w := set_fs (λ _, {[ "/mirror/a" := Dir;
                           "/mirror/a/.done" := File "" 1 420%N ]})
             (init "/mirror" (env0 zk_example 100)) in
  let run := sync_children "/a" true None None None None in
  result run w = Ok tt
  ∧ ∃ evs, log (exec run w) = log w ++ evs ∧ filter is_zk_call evs = [].
Proof.
  intros w run. subst run.
  destruct (sync_children_done_marker w "/a" true None None None None)
    as (Hres & Hlog & _).
  - exists (File "" 1 420%N). vm_compute. reflexivity.
  - split; [exact Hres|exact Hlog].
Defined.

(** ** The subscription decision of [sync_children] *)

Lemma bind_Ok_inv {A B} (m : M A) (k : A → M B) w b w'' :
  bind m k w = (Ok b, w'') →
  ∃ a w', m w = (Ok a, w') ∧ k a w' = (Ok b, w'').
Proof. unfold bind. destruct (m w) as [[a|e] w']; [eauto|done]. Qed.

Lemma run_exec {A} (m : M A) w o w' : m w = (o, w') → exec m w = w'.
Proof. unfold exec. by intros ->. Qed.

Lemma run_result {A} (m : M A) w o w' : m w = (o, w') → result m w = o.
Proof. unfold result. by intros ->. Qed.

Lemma quiet_benign zkpath done_file r root ev :
  benign ev → quiet zkpath done_file r root ev.
Proof. by destruct ev. Qed.

Lemma quiet_marker zkpath p root :
  quiet zkpath (os_path_join p ".done") true root
    (FsTouch (os_path_join root ".modified")).
Proof.
  split; [done|]. intros [= Heq]. symmetry in Heq.
  by apply done_file_not_marker in Heq.
Qed.

Lemma make_children_watch_trace Q zkpath wd on_add on_del cont w :
  (∀ r root ev, benign ev → Q r root ev) →
  (∀ root, Q true root (FsTouch (os_path_join root ".modified"))) →
  (∀ n, emits Q (on_add n)) → (∀ n, emits Q (on_del n)) →
  let w' := exec (_make_children_watch zkpath wd on_add on_del cont) w in
  ready w' = ready w ∧ fsroot w' = fsroot w ∧
  ∃ evs, log w' = log w ++
           Logged DEBUG ("Establish children watch on: " +:+ zkpath)
           :: ZkChildrenWatch zkpath :: evs
         ∧ Forall (Q (ready w) (fsroot w)) evs.
Proof.
  intros HQ HQm Ha Hd w'. subst w'.
  unfold _make_children_watch, zk_ChildrenWatch.
  rewrite exec_bind. simpl. rewrite exec_bind. simpl.
  match goal with |- context [exec ?m (exec (emit ?cw) (exec (emit ?l) w))] =>
    assert (emits Q m) as Hrest
  end.
  { emits_auto. by apply emits_children_watch_callback. }
  destruct (Hrest (exec (emit (ZkChildrenWatch zkpath))
              (exec (emit (Logged DEBUG
                 ("Establish children watch on: " +:+ zkpath))) w)))
    as (Hr & Hf & evs & Hl & Hevs).
  split_and!; [done..|]. exists evs. split; [|done].
  rewrite Hl. unfold exec; simpl. by rewrite <- !(assoc (++)).
Qed.

Lemma children_watch_result zkpath children wd on_add on_del cont w r :
  result (_children_watch zkpath children wd on_add on_del cont) w = Ok r →
  r = from_option (λ c, c zkpath (sorted children)) true cont.
Proof.
  unfold _children_watch, result, fpath. run_unfold. simpl.
  repeat case_match; simpl; intros; simplify_eq; done.
Qed.

Section decision.
Variables (zkpath : string) (watch_data : bool).
Variables (on_add on_del : option (string → M unit)).
Variables (need : option (string → bool)).
Variables (cont : option (string → list string → bool)).
Variable done_file : string.
Hypothesis done_not_marker : ∀ root, done_file ≠ os_path_join root ".modified".
Hypothesis on_add_quiet :
  ∀ n, emits (quiet zkpath done_file) (default _default_on_add on_add n).
Hypothesis on_del_quiet :
  ∀ n, emits (quiet zkpath done_file) (default _default_on_del on_del n).

Lemma quiet_emits_log {A} (m : M A) w :
  emits (quiet zkpath done_file) m →
  ∃ evs, log (exec m w) = log w ++ evs
         ∧ Forall (quiet zkpath done_file true "") evs.
Proof.
  intros Hm. destruct (Hm w) as (_ & _ & evs & Hl & Hevs). by exists evs.
Qed.

Lemma quiet_marker_ok root :
  quiet zkpath done_file true root (FsTouch (os_path_join root ".modified")).
Proof. split; [done|]. intros [= Heq]. by apply (done_not_marker root). Qed.

Lemma make_children_watch_quiet w :
  ∃ evs,
    log (exec (_make_children_watch zkpath watch_data
                 (default _default_on_add on_add)
                 (default _default_on_del on_del) cont) w)
      = log w ++ Logged DEBUG ("Establish children watch on: " +:+ zkpath)
          :: ZkChildrenWatch zkpath :: evs
    ∧ Forall (quiet zkpath done_file true "") evs.
Proof.
  destruct (make_children_watch_trace (quiet zkpath done_file) zkpath
              watch_data (default _default_on_add on_add)
              (default _default_on_del on_del) cont w)
    as (_ & _ & evs & Hl & Hevs);
    [apply quiet_benign|apply quiet_marker_ok|done..|].
  by exists evs.
Qed.

Lemma touch_log p w : log (exec (touch p) w) = log w ++ [FsTouch p].
Proof.
  unfold touch, exec. run_unfold. simpl. by destruct (fs w !! p) as [[]|].
Qed.

Lemma touch_result p w : result (touch p) w = Ok tt.
Proof.
  unfold touch, result. run_unfold. simpl. by destruct (fs w !! p) as [[]|].
Qed.

Lemma fetch_children_run w :
  try_except (zk_get_children zkpath)
    (λ e, if bool_decide (e = NoNodeError) then Some (ret []) else None) w
  = (Ok (remote_children w zkpath),
     set_log (λ l, l ++ [ZkGetChildren zkpath]) w).
Proof.
  unfold try_except, zk_get_children, remote_children. run_unfold. simpl.
  by destruct (zk w !! zkpath).
Qed.

Lemma sync_children_undone_trace w :
  result (sync_children_undone zkpath watch_data on_add on_del need cont
            done_file) w = Ok tt →
  ∃ evs,
    log (exec (sync_children_undone zkpath watch_data on_add on_del need cont
                 done_file) w) = log w ++ evs
    ∧ undone_trace zkpath done_file (need_eff need zkpath)
        (cont_eff cont zkpath (remote_children w zkpath)) evs.
Proof.
  intros Hres.
  pose proof (run_eta (sync_children_undone zkpath watch_data on_add on_del
                         need cont done_file) w) as Hrun.
  rewrite Hres in Hrun.
  set (wf := exec _ w) in *. clearbody wf. clear Hres.
  unfold sync_children_undone in Hrun.
  apply bind_Ok_inv in Hrun as (nw & w1 & Hneed & Hrun).
  assert (nw = need_eff need zkpath ∧ zk w1 = zk w ∧
          ∃ pre, log w1 = log w ++ pre
                 ∧ Forall (quiet zkpath done_file true "") pre)
    as (-> & Hzk & pre & Hl1 & Hpre).
  { unfold need_eff. destruct need as [f|].
    - unfold bind, emit, modify, ret in Hneed. simplify_eq. simpl.
      split_and!; [done..|]. eexists. split; [done|]. by repeat constructor.
    - unfold ret in Hneed. simplify_eq. simpl.
      split_and!; [done..|]. exists []. by rewrite app_nil_r. }
  apply bind_Ok_inv in Hrun as (nw' & w2 & Hbr & Htouch).
  destruct (need_eff need zkpath).
  - apply bind_Ok_inv in Hbr as ([] & w2' & Hmcw & Hret).
    unfold ret in Hret. simplify_eq. simpl in Htouch. unfold ret in Htouch.
    simplify_eq.
    destruct (make_children_watch_quiet w1) as (evs & Hl & Hevs).
    rewrite (run_exec _ _ _ _ Hmcw), Hl1, <- (assoc (++)) in Hl.
    eexists. split; [done|]. simpl.
    exists (pre ++ [Logged DEBUG ("Establish children watch on: " +:+ zkpath)]),
      evs.
    rewrite <- (assoc (++)). split_and!; [done| |done].
    apply Forall_app. split; [done|]. by repeat constructor.
  - apply bind_Ok_inv in Hbr as (children & w3 & Hfetch & Hbr).
    rewrite fetch_children_run in Hfetch. simplify_eq.
    apply bind_Ok_inv in Hbr as (r & w4 & Hcw & Hbr).
    destruct (quiet_emits_log _
                (set_log (λ l, l ++ [ZkGetChildren zkpath]) w1)
                (emits__children_watch (quiet zkpath done_file)
                   (quiet_benign zkpath done_file)
                   _ _ on_add_quiet on_del_quiet zkpath
                   (remote_children w1 zkpath) watch_data cont))
      as (e4 & Hl4 & He4).
    rewrite (run_exec _ _ _ _ Hcw) in Hl4. simpl in Hl4.
    apply (f_equal fst) in Hcw as Hr. apply children_watch_result in Hr.
    apply bind_Ok_inv in Hbr as ([] & w5 & Hwhen & Hbr).
    apply bind_Ok_inv in Hbr as ([] & w6 & Hul & Hret).
    unfold ret in Hret. simplify_eq.
    destruct (quiet_emits_log _ w5
                (emits__update_last (quiet zkpath done_file)
                   (quiet_benign zkpath done_file) quiet_marker_ok))
      as (e6 & Hl6 & He6).
    rewrite (run_exec _ _ _ _ Hul) in Hl6.
    assert (remote_children w1 zkpath = remote_children w zkpath) as Hch
      by (unfold remote_children; by rewrite Hzk).
    rewrite Hch in *. unfold cont_eff.
    destruct (from_option _ true cont); simpl in *.
    + unfold ret in Htouch. simplify_eq.
      destruct (make_children_watch_quiet w4) as (e5 & Hl5 & He5).
      rewrite (run_exec _ _ _ _ Hwhen) in Hl5.
      eexists. split.
      { rewrite Hl6, Hl5, Hl4, Hl1, <- !(assoc (++)). done. }
      simpl. exists pre, (e4 ++ Logged DEBUG ("Establish children watch on: "
                           +:+ zkpath) :: ZkChildrenWatch zkpath :: e5 ++ e6).
      split_and!; [done..|].
      exists (e4 ++ [Logged DEBUG ("Establish children watch on: "
                       +:+ zkpath)]), (e5 ++ e6).
      rewrite <- (assoc (++)). split_and!; [done|..].
      * apply Forall_app. split; [done|]. by repeat constructor.
      * by apply Forall_app.
    + unfold ret in Hwhen. simplify_eq.
      pose proof (touch_log done_file w2) as Hlt.
      rewrite (run_exec _ _ _ _ Htouch) in Hlt.
      eexists. split.
      { rewrite Hlt, Hl6, Hl4, Hl1, <- !(assoc (++)). done. }
      simpl. exists pre, (e4 ++ e6 ++ [FsTouch done_file]).
      split_and!; [done..|].
      exists (e4 ++ e6). rewrite <- (assoc (++)). split; [done|].
      by apply Forall_app.
Qed.
End decision.

Lemma default_on_add_quiet zkpath p n :
  emits (quiet zkpath (os_path_join p ".done")) (_default_on_add n).
Proof.
  apply emits_sync_data; [apply quiet_benign|intros; apply quiet_marker].
Qed.

Lemma default_on_del_quiet zkpath done_file n :
  emits (quiet zkpath done_file) (_default_on_del n).
Proof. apply emits__default_on_del, quiet_benign. Qed.

Lemma undone_trace_decision zkpath done_file n c pre evs :
  undone_trace zkpath done_file n c evs →
  Forall (quiet zkpath done_file true "") pre →
  (ZkChildrenWatch zkpath ∈ pre ++ evs ↔ n || c = true) ∧
  (FsTouch done_file ∈ pre ++ evs ↔ n || c = false).
Proof.
  intros Htr Hpre.
  assert (∀ l, Forall (quiet zkpath done_file true "") l →
               (ZkChildrenWatch zkpath ∉ l) ∧ FsTouch done_file ∉ l) as Hq.
  { intros l Hl. rewrite Forall_forall in Hl.
    split; intros Hin; by destruct (Hl _ Hin). }
  destruct (Hq _ Hpre) as [Hp1 Hp2]. unfold undone_trace in Htr.
  destruct n; simpl.
  - destruct Htr as (e1 & e2 & -> & [H1 H1']%Hq & [H2 H2']%Hq).
    rewrite !elem_of_app, !elem_of_cons. naive_solver.
  - destruct Htr as (e1 & e2 & -> & [H1 H1']%Hq & Htr). destruct c.
    + destruct Htr as (e3 & e4 & -> & [H3 H3']%Hq & [H4 H4']%Hq).
      rewrite !elem_of_app, !elem_of_cons, !elem_of_app, !elem_of_cons.
      naive_solver.
    + destruct Htr as (e3 & -> & [H3 H3']%Hq).
      rewrite !elem_of_app, !elem_of_cons, !elem_of_app, !elem_of_cons,
        !elem_of_nil.
      naive_solver.
Qed.

(** What [sync_children] does before it looks for the done file. *)
Lemma sync_children_found_none w zkpath wd on_add on_del need cont :
  let p := os_path_join (fsroot w) (lstrip_slash zkpath) in
  let done_file := os_path_join p ".done" in
  fs w !! done_file = None →
  ∃ w1 pre,
    sync_children zkpath wd on_add on_del need cont w
      = sync_children_undone zkpath wd on_add on_del need cont done_file w1
    ∧ log w1 = log w ++ pre ∧ Forall benign pre
    ∧ Forall (λ ev, is_zk_call ev = false) pre
    ∧ zk w1 = zk w ∧ ready w1 = ready w ∧ fsroot w1 = fsroot w
    ∧ watches w1 = watches w ∧ processed_once w1 = processed_once w
    ∧ children_subs w1 = children_subs w ∧ data_subs w1 = data_subs w
    ∧ now w1 = now w ∧ names w1 = names w ∧ faults w1 = faults w
    ∧ fs w1 = (if fs w !! p is None then <[p := Dir]> (fs w) else fs w)
    ∧ (is_Some (fs w !! p) → Forall (λ ev, is_fs_mutation ev = false) pre).
Proof.
  intros p done_file Hdone.
  assert (done_file ≠ p) as Hne by (by apply os_path_join_longer).
  unfold sync_children, fpath, mkdir_safe, os_path_exists. run_unfold. simpl.
  fold p. fold done_file.
  destruct (fs w !! p) as [n|] eqn:Ep; simpl.
  - rewrite bool_decide_false by (rewrite Hdone; by intros [??]).
    eexists _, [_]. split_and!; try done; try (by repeat constructor).
  - rewrite bool_decide_false
      by (rewrite lookup_insert_ne, Hdone by done; by intros [??]).
    eexists _, [_; _]. split_and!; try done.
    + simpl. by rewrite <- (assoc (++)).
    + by repeat constructor.
    + by repeat constructor.
Qed.

(** ** The readiness marker *)

Lemma no_marker_bump_benign r root ev : benign ev → no_marker_bump r root ev.
Proof. by destruct ev. Qed.

Lemma no_marker_bump_done r root p :
  no_marker_bump r root (FsTouch (os_path_join p ".done")).
Proof. intros _ [= Heq]. by apply done_file_not_marker in Heq. Qed.

Lemma mark_ready_run w :
  let marker := os_path_join (fsroot w) ".modified" in
  let w' := exec mark_ready w in
  result mark_ready w = Ok tt
  ∧ ready w' = true
  ∧ log w' = log w ++ [FsTouch marker; FsUtime marker (now w)]
  ∧ match fs w !! marker with
    | Some Dir => fs w' = fs w
    | Some (File content _ mode) =>
        fs w' !! marker = Some (File content (now w) mode)
    | None => fs w' !! marker = Some (File "" (now w) 420%N)
    end.
Proof.
  intros marker w'. subst w'.
  unfold mark_ready, _update_last, touch, os_utime, result, exec.
  run_unfold. simpl. fold marker.
  destruct (fs w !! marker) as [[content mtime mode|]|] eqn:Em; simpl.
  - rewrite lookup_insert_eq. simpl. rewrite lookup_insert_eq.
    by rewrite <- (assoc (++)).
  - rewrite Em. simpl. by rewrite <- (assoc (++)).
  - rewrite lookup_insert_eq. simpl. rewrite lookup_insert_eq.
    by rewrite <- (assoc (++)).
Qed.

Lemma update_last_not_ready w : ready w = false → _update_last w = (Ok tt, w).
Proof. intros Hr. unfold _update_last. run_unfold. by rewrite Hr. Qed.

(** C7. [mark_ready] sets the readiness flag and bumps the marker file, to
    the current time, whatever else happened; and as long as the engine is
    not ready no operation bumps it: [_update_last] does nothing, and the
    marker is touched neither by [sync_data], by a data delivery, by
    [sync_children] nor by a children delivery, whose callbacks are any that
    do not touch it themselves. *)
Theorem mark_ready_bumps_marker (w : World) (on_add on_del : string → M unit) :
  (∀ n, emits no_marker_bump (on_add n)) →
  (∀ n, emits no_marker_bump (on_del n)) →
  let marker := os_path_join (fsroot w) ".modified" in
  (result mark_ready w = Ok tt
   ∧ ready (exec mark_ready w) = true
   ∧ log (exec mark_ready w)
       = log w ++ [FsTouch marker; FsUtime marker (now w)]
   ∧ match fs w !! marker with
     | Some Dir => fs (exec mark_ready w) = fs w
     | Some (File content _ mode) =>
         fs (exec mark_ready w) !! marker = Some (File content (now w) mode)
     | None =>
         fs (exec mark_ready w) !! marker = Some (File "" (now w) 420%N)
     end)
  ∧ (ready w = false → _update_last w = (Ok tt, w))
  ∧ (∀ zkpath, emits no_marker_bump (sync_data zkpath))
  ∧ (∀ zkpath data st event,
       emits no_marker_bump (deliver_data zkpath data st event))
  ∧ (∀ zkpath watch_data need cont,
       emits no_marker_bump
         (sync_children zkpath watch_data (Some on_add) (Some on_del) need
            cont)
       ∧ emits no_marker_bump
           (sync_children zkpath watch_data None None need cont))
  ∧ (∀ zkpath watch_data cont children,
       emits no_marker_bump
         (deliver_children zkpath watch_data on_add on_del cont children)).
Proof.
  intros Ha Hd marker.
  assert (∀ root, no_marker_bump true root
                    (FsTouch (os_path_join root ".modified"))) as Hm
    by (by intros root ?).
  split; [apply mark_ready_run|].
  split; [apply update_last_not_ready|].
  split; [intros; by apply emits_sync_data; [apply no_marker_bump_benign|]|].
  split; [intros; by apply emits_deliver_data; [apply no_marker_bump_benign|]|].
  split.
  - intros. split;
      (apply emits_sync_children;
       [apply no_marker_bump_benign|done|by intros ????
       |intros; apply no_marker_bump_done|simpl..]); try done.
    + intros. by apply emits_sync_data; [apply no_marker_bump_benign|].
    + intros. apply emits__default_on_del, no_marker_bump_benign.
  - intros. by apply emits_deliver_children; [apply no_marker_bump_benign|..].
Qed.

Lemma mark_ready_bumps_marker_witness :
  let w := init "/mirror" (env0 zk_example 100) in
  ready (exec mark_ready w) = true
  ∧ fs (exec mark_ready w) !! "/mirror/.modified" = Some (File "" 100 420%N)
  ∧ emits no_marker_bump
      (sync_children "/cell/servers" true (Some _default_on_add)
         (Some _default_on_del) None None).
Proof.
  intros w.
  destruct (mark_ready_bumps_marker w _default_on_add _default_on_del)
    as ((_ & Hr & _ & Hfs) & _ & _ & _ & Hsc & _).
  - intros n. unfold _default_on_add.
    apply emits_sync_data; [apply no_marker_bump_benign|by intros root ?].
  - intros n. apply emits__default_on_del, no_marker_bump_benign.
  - split; [exact Hr|]. split; [exact Hfs|]. apply Hsc.
Defined.

(** ** The atomic writer *)

Lemma mkstemp_inner_fresh dir pre candidates m file rest :
  mkstemp_inner dir pre candidates m = Some (file, rest) → m !! file = None.
Proof.
  induction candidates as [|name l IH]; simpl; [done|].
  case_bool_decide; [|done]. by intros [= <- <-].
Qed.

(** The three ways a call of [write_data] can go, over an existing entry
    [old]: it replaces the entry; it raises before the rename; the rename
    fails. *)
Lemma write_data_cases w fpath data modified raise_err old :
  fs w !! fpath = Some old →
  let r := result (write_data fpath data modified raise_err) w in
  let w' := exec (write_data fpath data modified raise_err) w in
  let written := File (default "" data) modified 420%N in
  ∃ evs, log w' = log w ++ evs ∧
  ((r = Ok tt ∧ fs w' !! fpath = Some written
    ∧ Forall (λ ev, is_fs_mutation ev = true) evs
    ∧ old ≠ Dir
    ∧ match injected w with
      | None => True
      | Some (FailWrite _) => default "" data = ""
      | Some _ => False
      end)
   ∨ (∃ e, r = Raise e ∧ is_OSError e = true ∧ fs w' !! fpath = Some old
      ∧ Forall (λ ev, is_fs_mutation ev = true) evs
      ∧ (¬ temp_available fpath w
         ∨ ∃ flt, injected w = Some flt ∧ flt ≠ FailRename))
   ∨ (∃ temp evs', evs = evs' ++ [rename_error temp fpath]
      ∧ Forall (λ ev, is_fs_mutation ev = true) evs'
      ∧ r = (if raise_err then Raise OSError else Ok tt)
      ∧ fs w' !! fpath = Some old
      ∧ (injected w = Some FailRename ∨ old = Dir))).
Proof.
  intros Hold r w' written. subst r w' written.
  unfold write_data, next_fault, named_temporary_file, temp_write, os_fchmod,
    os_utime, os_rename, result, exec, rename_error, injected, temp_available.
  run_unfold. simpl.
  destruct (faults w) as [|[flt|] faults']; simpl;
    try (destruct flt; simpl);
    try (eexists []; rewrite app_nil_r; split; [done|]; right; left;
         eexists; split_and!; [done..|]; right; by eexists);
    (destruct (mkstemp_inner _ _ _ _) as [[temp rest]|] eqn:Etemp; simpl;
     [assert (temp ≠ fpath) as Hne
        by (intros ->; apply mkstemp_inner_fresh in Etemp; congruence)
     |eexists []; rewrite app_nil_r; split; [done|]; right; left;
      eexists; split_and!; [done..|]; left; by intros [??]]);
    (destruct data as [d|]; simpl; [case_bool_decide; simpl; subst|]);
    repeat (rewrite ?lookup_insert_eq; simpl);
    rewrite ?lookup_insert_ne, ?Hold by done;
    try (destruct old as [c0 t0 m0|]; simpl);
    try (destruct raise_err; simpl);
    rewrite ?lookup_insert_eq, ?lookup_insert_ne by done;
    repeat rewrite <- app_assoc; simpl;
    (eexists; split; [reflexivity|]).
  all: try (left; split_and!; [done..| |done|done]; by repeat constructor).
  all: try (right; left; eexists; split_and!; [done..| |];
            [by repeat constructor|right; by eexists]).
  all: right; right; eexists _, _;
       (split; [first [exact (eq_refl ([_; _; _] ++ [_]))
                      |exact (eq_refl ([_; _; _; _] ++ [_]))]|]);
       split_and!; try done; [by repeat constructor|auto].
Qed.

(** C6. [write_data] over an existing entry never leaves the destination
    partial: it holds what it held or the whole new file.  Every failure,
    raised or swallowed, leaves it as it was, and so does a failure the
    environment injects before the rename, in the middle of the write, or at
    the rename.  A failing rename is logged; the call then raises when
    [raise_err] is true, as by default, and returns when it is false.
    Without a failure the new file, with its time and mode, is in place. *)
Theorem write_data_atomic (w : World) (fpath : string) (data : option string)
    (modified : Z) (raise_err : bool) (old : node) :
  fs w !! fpath = Some old →
  let r := result (write_data fpath data modified raise_err) w in
  let w' := exec (write_data fpath data modified raise_err) w in
  let written := File (default "" data) modified 420%N in
  ∃ evs, log w' = log w ++ evs
  ∧ (fs w' !! fpath = Some old ∨ fs w' !! fpath = Some written)
  ∧ ((r ≠ Ok tt ∨ ∃ temp, rename_error temp fpath ∈ evs) →
     fs w' !! fpath = Some old)
  ∧ (∀ flt, injected w = Some flt →
       (∀ n, flt = FailWrite n → default "" data ≠ "") →
       r ≠ Ok tt ∨ ∃ temp, rename_error temp fpath ∈ evs)
  ∧ (injected w = Some FailRename ∨ (injected w = None ∧ old = Dir) →
     temp_available fpath w →
     ∃ temp, rename_error temp fpath ∈ evs)
  ∧ (∀ temp, rename_error temp fpath ∈ evs →
     r = if raise_err then Raise OSError else Ok tt)
  ∧ (injected w = None → temp_available fpath w → old ≠ Dir →
     r = Ok tt ∧ fs w' !! fpath = Some written).
Proof.
  intros Hold r w' written.
  destruct (write_data_cases w fpath data modified raise_err old Hold)
    as (evs & Hl & Hcases).
  fold r w' written in Hl, Hcases. exists evs. split; [done|].
  assert (∀ l temp, Forall (λ ev, is_fs_mutation ev = true) l →
                    rename_error temp fpath ∉ l) as Hnolog.
  { intros l temp Hall Hin. rewrite Forall_forall in Hall.
    by apply Hall in Hin. }
  destruct Hcases as [(Hr & Hfs & Hevs & Hold' & Hflt)
                     |[(e & Hr & He & Hfs & Hevs & Hwhy)
                      |(temp & evs' & -> & Hevs & Hr & Hfs & Hwhy)]].
  - split_and!.
    + by right.
    + intros [?|[temp Hin]]; [done|]. by apply Hnolog in Hin.
    + intros flt Hinj Hdata. rewrite Hinj in Hflt.
      destruct flt; try done. by apply (Hdata written0) in Hflt.
    + intros [Hinj|[Hinj ->]]; [by rewrite Hinj in Hflt|done].
    + intros temp Hin. by apply Hnolog in Hin.
    + done.
  - split_and!.
    + by left.
    + done.
    + intros. left. by rewrite Hr.
    + intros [Hinj|[Hinj ->]] Hav; destruct Hwhy as [?|(flt & ? & ?)];
        congruence.
    + intros temp Hin. by apply Hnolog in Hin.
    + intros Hinj Hav. destruct Hwhy as [?|(flt & ? & ?)]; congruence.
  - assert (rename_error temp fpath ∈ evs' ++ [rename_error temp fpath])
      as Hin by (apply elem_of_app; right; left).
    split_and!.
    + by left.
    + done.
    + intros. right. by exists temp.
    + intros. by exists temp.
    + done.
    + intros Hinj Hav Hdir. destruct Hwhy; congruence.
Qed.

Lemma write_data_atomic_witness :
  let w := set_faults [Some (FailWrite 1)]
             (set_fs (λ _, {[ "/mirror/f" := File "old" 1 420%N ]})
                (init "/mirror" (env0 ∅ 100))) in
  let run := write_data "/mirror/f" (Some "new") 7 true in
  result run w = Raise OSError
  ∧ fs (exec run w) !! "/mirror/f" = Some (File "old" 1 420%N).
Proof.
  intros w run. split; [vm_compute; reflexivity|].
  destruct (write_data_atomic w "/mirror/f" (Some "new") 7 true
              (File "old" 1 420%N))
    as (evs & _ & _ & Hkeep & Hflt & _).
  - vm_compute. reflexivity.
  - apply Hkeep, (Hflt (FailWrite 1)); [reflexivity|]. by intros n _.
Defined.

(** Reduces the projections of the updated worlds, and nothing else. *)
Ltac world_simpl :=
  cbn [watches processed_once ready fsroot fs zk data_subs children_subs now
       names faults log set_watches set_processed_once set_ready set_fs
       set_data_subs set_children_subs set_now set_names set_faults set_log]
    in *.

Lemma world_ext (w1 w2 : World) :
  watches w1 = watches w2 → processed_once w1 = processed_once w2 →
  ready w1 = ready w2 → fsroot w1 = fsroot w2 → fs w1 = fs w2 →
  zk w1 = zk w2 → data_subs w1 = data_subs w2 →
  children_subs w1 = children_subs w2 → now w1 = now w2 →
  names w1 = names w2 → faults w1 = faults w2 → log w1 = log w2 →
  w1 = w2.
Proof. destruct w1, w2; cbn; intros; by subst. Qed.

(** Two worlds that agree outside the files and the trace are equal once
    [tac_fs] shows their files and [tac_log] their traces equal. *)
Ltac world_eq tac_fs tac_log :=
  apply world_ext; world_simpl;
  [reflexivity|reflexivity|reflexivity|reflexivity|tac_fs|reflexivity
  |reflexivity|reflexivity|reflexivity|reflexivity|reflexivity|tac_log].

Lemma next_fault_run w :
  next_fault w = (Ok (injected w), set_faults (tail (faults w)) w).
Proof.
  destruct w as [? ? ? ? ? ? ? ? ? ? fl ?].
  unfold next_fault, injected. run_unfold. simpl. by destruct fl.
Qed.

Lemma fail_if_inv b w wf : fail_if b w = (Ok tt, wf) → b = false ∧ wf = w.
Proof. destruct b; unfold fail_if, ret, raise; naive_solver. Qed.

Lemma named_temporary_file_inv w dir pre file w1 :
  named_temporary_file dir pre w = (Ok file, w1) →
  ∃ rest, mkstemp_inner dir pre (names w) (fs w) = Some (file, rest)
    ∧ w1 = set_log (λ l, l ++ [FsCreate file])
             (set_fs <[file := File "" (now w) 384%N]> (set_names rest w)).
Proof.
  unfold named_temporary_file. run_unfold. simpl.
  destruct (mkstemp_inner dir pre (names w) (fs w)) as [[f rest]|]; simpl;
    [|done].
  intros [= <- <-]. by exists rest.
Qed.

Lemma temp_write_run w p c t m d :
  fs w !! p = Some (File c t m) →
  temp_write p d w
  = (Ok tt, set_log (λ l, l ++ [FsWrite p d]) (set_fs <[p := File d t m]> w)).
Proof. intros Hp. unfold temp_write. run_unfold. simpl. by rewrite Hp. Qed.

Lemma os_fchmod_run w p c t m mode :
  fs w !! p = Some (File c t m) →
  os_fchmod p mode w
  = (Ok tt, set_log (λ l, l ++ [FsChmod p mode])
              (set_fs <[p := File c t mode]> w)).
Proof. intros Hp. unfold os_fchmod. run_unfold. simpl. by rewrite Hp. Qed.

Lemma os_utime_run w p c t m mtime :
  fs w !! p = Some (File c t m) →
  os_utime p mtime w
  = (Ok tt, set_log (λ l, l ++ [FsUtime p mtime])
              (set_fs <[p := File c mtime m]> w)).
Proof. intros Hp. unfold os_utime. run_unfold. simpl. by rewrite Hp. Qed.

Lemma os_rename_inv w src dst wf :
  os_rename src dst w = (Ok tt, wf) →
  ∃ entry, fs w !! src = Some entry
    ∧ wf = set_log (λ l, l ++ [FsRename src dst])
             (set_fs (λ m, <[dst := entry]> (delete src m)) w).
Proof.
  unfold os_rename. run_unfold. simpl.
  destruct (fs w !! src) as [entry|]; [|done].
  destruct (fs w !! dst) as [[]|]; simpl; intros [= <-]; by exists entry.
Qed.

(** A write that returns, errors not being swallowed, has put the whole file
    with its time in place and left nothing else behind. *)
Lemma write_data_ok w fpath data modified :
  result (write_data fpath data modified true) w = Ok tt →
  ∃ temp rest,
    mkstemp_inner (os_path_dirname fpath) ".tmp" (names w) (fs w)
      = Some (temp, rest)
    ∧ exec (write_data fpath data modified true) w
      = set_log (λ l, l ++ write_events temp fpath data modified)
          (set_fs <[fpath := File (default "" data) modified 420%N]>
             (set_names rest (set_faults (tail (faults w)) w))).
Proof.
  intros Hres.
  pose proof (run_eta (write_data fpath data modified true) w) as Hrun.
  rewrite Hres in Hrun. set (wf := exec _ w) in *. clearbody wf. clear Hres.
  unfold write_data in Hrun.
  apply bind_Ok_inv in Hrun as (flt & w0 & Hflt & Hrun).
  rewrite next_fault_run in Hflt. injection Hflt as <- <-.
  apply bind_Ok_inv in Hrun as ([] & ? & [_ ->]%fail_if_inv & Hrun).
  apply bind_Ok_inv in Hrun as (temp & w1 & Htemp & Hrun).
  apply named_temporary_file_inv in Htemp as (rest & Hmk & ->).
  pose proof (mkstemp_inner_fresh _ _ _ _ _ _ Hmk) as Hfresh.
  world_simpl.
  exists temp, rest. split; [done|].
  apply bind_Ok_inv in Hrun as ([] & w2 & Hwrite & Hrun).
  assert (w2 = set_log (λ l, l ++ (if bool_decide (default "" data = "") then []
                                   else [FsWrite temp (default "" data)]))
                 (set_fs <[temp := File (default "" data) (now w) 384%N]>
                    (set_log (λ l, l ++ [FsCreate temp])
                       (set_names rest (set_faults (tail (faults w)) w)))))
    as ->.
  { destruct data as [d|]; cbn [default from_option] in *.
    - destruct (decide (d = "")) as [->|Hd];
        [rewrite bool_decide_true in * by done
        |rewrite bool_decide_false in * by done].
      + unfold ret in Hwrite. injection Hwrite as <-.
        world_eq ltac:(rewrite ?insert_insert_eq; reflexivity)
                 ltac:(by rewrite app_nil_r).
      + destruct (injected w) as [[]|];
          try (rewrite (temp_write_run _ _ "" (now w) 384%N) in Hwrite
                 by apply lookup_insert_eq;
               injection Hwrite as <-;
               world_eq ltac:(rewrite ?insert_insert_eq; reflexivity)
                        ltac:(reflexivity)).
        apply bind_Ok_inv in Hwrite as (? & ? & _ & Hraise). done.
    - unfold ret in Hwrite. injection Hwrite as <-.
      world_eq ltac:(rewrite ?insert_insert_eq; reflexivity)
               ltac:(by rewrite app_nil_r). }
  apply bind_Ok_inv in Hrun as ([] & ? & [_ ->]%fail_if_inv & Hrun).
  apply bind_Ok_inv in Hrun as ([] & w3 & Hchmod & Hrun).
  rewrite (os_fchmod_run _ _ (default "" data) (now w) 384%N) in Hchmod
    by apply lookup_insert_eq.
  injection Hchmod as <-.
  apply bind_Ok_inv in Hrun as ([] & ? & [_ ->]%fail_if_inv & Hrun).
  apply bind_Ok_inv in Hrun as ([] & w4 & Hutime & Hrun).
  rewrite (os_utime_run _ _ (default "" data) (now w) 420%N) in Hutime
    by apply lookup_insert_eq.
  injection Hutime as <-.
  unfold try_except in Hrun.
  match type of Hrun with
  | match ?m ?w4 with _ => _ end = _ =>
      destruct (m w4) as [[[]|e] w5] eqn:Hren
  end.
  2:{ destruct (is_OSError e); cbv iota beta in Hrun; [|done].
      unfold bind, emit, modify, raise in Hrun. done. }
  injection Hrun as <-.
  apply bind_Ok_inv in Hren as ([] & ? & [_ ->]%fail_if_inv & Hren).
  apply os_rename_inv in Hren as (entry & Hentry & ->).
  world_simpl. rewrite lookup_insert_eq in Hentry. injection Hentry as <-.
  world_eq
    ltac:(by rewrite !insert_insert_eq, delete_insert_eq, delete_id)
    ltac:(unfold write_events; by rewrite <- !app_assoc).
Qed.

(** ** What a computation keeps

    [steps R m]: every run of [m] takes a world to one that [R] relates to
    it, whether it returns or raises. *)

Section steps.
Context (R : relation World) `{!PreOrder R}.

Lemma steps_ret {A} (a : A) : steps R (ret a).
Proof. intros w. reflexivity. Qed.

Lemma steps_raise {A} e : steps R (@raise A e).
Proof. intros w. reflexivity. Qed.

Lemma steps_gets {A} (f : World → A) : steps R (gets f).
Proof. intros w. reflexivity. Qed.

Lemma steps_modify (f : World → World) : (∀ w, R w (f w)) → steps R (modify f).
Proof. intros Hf w. apply Hf. Qed.

Lemma steps_bind {A B} (m : M A) (k : A → M B) :
  steps R m → (∀ a, steps R (k a)) → steps R (bind m k).
Proof.
  intros Hm Hk w. rewrite exec_bind. destruct (result m w); [|apply Hm].
  etrans; [apply Hm|apply Hk].
Qed.

Lemma steps_try_except {A} (m : M A) handler :
  steps R m → (∀ e h, handler e = Some h → steps R h) →
  steps R (try_except m handler).
Proof.
  intros Hm Hh w. specialize (Hm w). unfold exec, try_except in *.
  destruct (m w) as [[a|e] w']; simpl in *; [done|].
  destruct (handler e) as [h|] eqn:Eh; [|done].
  etrans; [done|]. by apply (Hh e h Eh w').
Qed.

Lemma steps_when b (m : M unit) : steps R m → steps R (when b m).
Proof. destruct b; [done|]. intros _. apply steps_ret. Qed.

Lemma steps_for_each {A} (l : list A) (body : A → M unit) :
  (∀ x, steps R (body x)) → steps R (for_each l body).
Proof.
  intros Hb. induction l as [|x l IH]; simpl; [apply steps_ret|].
  apply steps_bind; [apply Hb|done].
Qed.
End steps.

(** Takes a computation built from the primitives apart; [leaf] proves
    [∀ w, R w (f w)] for each update [f] it makes. *)
Ltac steps_step leaf :=
  lazymatch goal with
  | |- steps _ (bind _ _) => apply steps_bind; [exact _| |intros ?]
  | |- steps _ (ret _) => apply steps_ret; exact _
  | |- steps _ (raise _) => apply steps_raise; exact _
  | |- steps _ (gets _) => apply steps_gets; exact _
  | |- steps _ time_time => apply steps_gets; exact _
  | |- steps _ (when _ _) => apply steps_when; [exact _|]
  | |- steps _ (for_each _ _) => apply steps_for_each; [exact _|intros ?]
  | |- steps _ (modify _) => apply steps_modify; leaf
  | |- steps _ (emit _) => apply steps_modify; leaf
  | |- steps _ (fail_if ?b) => destruct b; simpl
  | |- steps _ (try_except _ _) =>
      apply steps_try_except;
      [exact _|
      |let e := fresh "e" in let h := fresh "h" in
       intros e h; repeat case_match; intros [= <-]]
  | |- steps _ (match ?x with _ => _ end) => destruct x
  | |- steps _ (if ?x then _ else _) => destruct x
  | |- steps _ (let _ := _ in _) => cbv zeta
  | |- steps _ (exit_on_unhandled _) => unfold exit_on_unhandled
  | |- steps _ (os_utime _ _) => unfold os_utime
  | |- steps _ (os_fchmod _ _) => unfold os_fchmod
  | |- steps _ (os_rename _ _) => unfold os_rename
  | |- steps _ (named_temporary_file _ _) => unfold named_temporary_file
  | |- steps _ (temp_write _ _) => unfold temp_write
  | |- steps _ next_fault => unfold next_fault
  | |- steps _ (touch _) => unfold touch
  | |- steps _ (rm_safe _) => unfold rm_safe
  | |- steps _ (mkdir_safe _) => unfold mkdir_safe
  | |- steps _ (zk_get _) => unfold zk_get
  | |- steps _ (zk_get_children _) => unfold zk_get_children
  | |- steps _ (fpath _) => unfold fpath
  | |- steps _ (write_data _ _ _ _) => unfold write_data
  | |- steps _ (_write_data _ _ _) => unfold _write_data
  | |- steps _ _update_last => unfold _update_last
  | |- steps _ (_default_on_del _) => unfold _default_on_del
  end.

Ltac steps_auto leaf := repeat steps_step leaf.

#[global] Instance engine_frame_preorder : PreOrder engine_frame.
Proof.
  split; [by intros w|].
  intros w1 w2 w3. unfold engine_frame. naive_solver congruence.
Qed.

#[global] Instance log_ext_preorder P : PreOrder (log_ext P).
Proof.
  split.
  - intros w. exists []. by rewrite app_nil_r.
  - intros w1 w2 w3 (e1 & H1 & ?) (e2 & H2 & ?). exists (e1 ++ e2).
    rewrite H2, H1, (assoc (++)). split; [done|]. by apply Forall_app.
Qed.

#[global] Instance local_step_preorder : PreOrder local_step.
Proof.
  split; [by intros w|].
  intros w1 w2 w3 [??] [??]. split; by etrans.
Qed.

Ltac local_leaf :=
  let w := fresh "w" in
  intros w; split; [done|];
  first [by exists []; rewrite app_nil_r
        |by eexists [_]; split; [|repeat constructor]].

Lemma local_write_data p d t r : steps local_step (write_data p d t r).
Proof. steps_auto local_leaf. Qed.

Lemma local__update_last : steps local_step _update_last.
Proof. steps_auto local_leaf. Qed.

Lemma local_rm_safe p : steps local_step (rm_safe p).
Proof. steps_auto local_leaf. Qed.

(** ** The snapshot synchronisation of an unwatched path *)

Lemma update_last_run w :
  _update_last w = (Ok tt, if ready w then bumped w else w).
Proof.
  unfold _update_last, touch, os_utime, bumped, touched. run_unfold.
  cbv beta iota. destruct (ready w); [|done].
  destruct (fs w !! os_path_join (fsroot w) ".modified") as [[c t m|]|] eqn:Em;
    world_simpl; rewrite ?lookup_insert_eq, ?Em; cbv beta iota; f_equal.
  - world_eq ltac:(by rewrite insert_insert_eq) ltac:(by rewrite <- app_assoc).
  - world_eq ltac:(by rewrite insert_id) ltac:(by rewrite <- app_assoc).
  - world_eq ltac:(by rewrite insert_insert_eq) ltac:(by rewrite <- app_assoc).
Qed.

Lemma sync_data_unwatched_run w zkpath :
  zkpath ∉ watches w →
  sync_data zkpath w
  = (r <- zk_get zkpath ;;
     _write_data (os_path_join (fsroot w) (lstrip_slash zkpath)) r.1
       (Some r.2) ;;
     _update_last) w.
Proof.
  intros Hw. unfold sync_data, fpath. rewrite bind_run. unfold gets at 1.
  cbv beta iota. rewrite bool_decide_false by done. done.
Qed.

Lemma zk_get_run w zkpath :
  zk_get zkpath w
  = (match zk w !! zkpath with
     | Some n => Ok (zdata n, zstat n)
     | None => Raise NoNodeError
     end, set_log (λ l, l ++ [ZkGet zkpath]) w).
Proof.
  unfold zk_get. run_unfold. world_simpl. by destruct (zk w !! zkpath).
Qed.

(** C8. [sync_data] on a path that is not watched fetches the node once,
    synchronously, and calls the coordination service for nothing else; it
    installs no subscription and leaves [watches] and [processed_once] as
    they are.  When the node exists and the call returns, it has made one
    atomic write (a temporary file, stamped with the remote
    [last_modified], renamed over the mirror file) and, in a ready engine,
    bumped the marker; the mirror file then carries the remote data and the
    remote time. *)
Theorem sync_data_unwatched (w : World) (zkpath : string) :
  zkpath ∉ watches w →
  let p := os_path_join (fsroot w) (lstrip_slash zkpath) in
  let marker := os_path_join (fsroot w) ".modified" in
  let r := result (sync_data zkpath) w in
  let w' := exec (sync_data zkpath) w in
  watches w' = watches w ∧ processed_once w' = processed_once w
  ∧ data_subs w' = data_subs w ∧ children_subs w' = children_subs w
  ∧ ∃ evs, log w' = log w ++ ZkGet zkpath :: evs
    ∧ Forall (λ ev, is_zk_call ev = false) evs
    ∧ match zk w !! zkpath with
      | None => r = Raise NoNodeError ∧ evs = [] ∧ fs w' = fs w
      | Some n =>
          r = Ok tt →
          (∃ temp,
             evs = write_events temp p (zdata n) (last_modified (zstat n))
                   ++ (if ready w
                       then [FsTouch marker; FsUtime marker (now w)]
                       else []))
          ∧ (p ≠ marker ∨ ready w = false →
             fs w' !! p = Some (File (default "" (zdata n))
                                  (last_modified (zstat n)) 420%N))
      end.
Proof.
  intros Hw p marker r w'. subst r w'. unfold result, exec.
  rewrite sync_data_unwatched_run by done. fold p.
  rewrite bind_run, zk_get_run.
  set (w1 := set_log (λ l, l ++ [ZkGet zkpath]) w).
  destruct (zk w !! zkpath) as [n|] eqn:En; cbv beta iota.
  2:{ split_and!; try done. exists []. by split_and!. }
  cbn [fst snd].
  set (rest := (_write_data p (zdata n) (Some (zstat n)) ;; _update_last)).
  assert (steps local_step rest) as Hlocal.
  { subst rest. steps_auto local_leaf. }
  destruct (Hlocal w1) as [(Hw1 & Hp1 & Hd1 & Hc1 & _) (evs & Hl & Hevs)].
  unfold exec in *. split_and!; try done.
  change (log w1) with (log w ++ [ZkGet zkpath]) in Hl.
  exists evs. split; [by rewrite Hl, <- app_assoc|]. split; [done|].
  intros Hres. subst rest. rewrite bind_run in *.
  unfold _write_data in *.
  destruct (write_data p (zdata n) (last_modified (zstat n)) true w1)
    as [[[]|e] w2] eqn:Hwrite; [|done].
  destruct (write_data_ok w1 p (zdata n) (last_modified (zstat n)))
    as (temp & rest & Hmk & Hw2); [by rewrite (run_result _ _ _ _ Hwrite)|].
  rewrite (run_exec _ _ _ _ Hwrite) in Hw2.
  rewrite update_last_run in *. cbn [fst snd] in *.
  assert (ready w2 = ready w ∧ fsroot w2 = fsroot w ∧ now w2 = now w)
    as (Hr2 & Hf2 & Hn2) by (by rewrite Hw2).
  rewrite Hr2 in *. split.
  - exists temp. apply (inj (app (log w ++ [ZkGet zkpath]))).
    rewrite <- Hl. destruct (ready w).
    + unfold bumped. world_simpl. rewrite Hf2, Hn2, Hw2. world_simpl.
      fold marker. change (log w1) with (log w ++ [ZkGet zkpath]).
      by rewrite <- !app_assoc.
    + rewrite Hw2. world_simpl. change (log w1) with (log w ++ [ZkGet zkpath]).
      by rewrite app_nil_r.
  - intros Hcase. destruct (ready w) eqn:Er.
    + destruct Hcase as [Hne|?]; [|done]. unfold bumped. world_simpl.
      rewrite Hf2. fold marker. rewrite lookup_insert_ne by done.
      rewrite Hw2. world_simpl. by rewrite lookup_insert_eq.
    + rewrite Hw2. world_simpl. by rewrite lookup_insert_eq.
Qed.

Lemma sync_data_unwatched_witness :
  let w := set_fs (λ _, {[ "/mirror/cell/servers" := Dir ]})
             (init "/mirror" (env0 zk_example 100)) in
  let w' := exec (sync_data "/cell/servers/host1") w in
  watches w' = watches w ∧ processed_once w' = processed_once w
  ∧ data_subs w' = data_subs w ∧ children_subs w' = children_subs w
  ∧ fs w' !! "/mirror/cell/servers/host1" = Some (File "A" 10 420%N).
Proof.
  intros w w'.
  destruct (sync_data_unwatched w "/cell/servers/host1")
    as (Hw & Hp & Hd & Hc & evs & _ & _ & Hfs).
  - by apply (bool_decide_unpack _); vm_compute.
  - split; [exact Hw|]. split; [exact Hp|]. split; [exact Hd|].
    split; [exact Hc|].
    change (zk w !! "/cell/servers/host1")
      with (Some (ZNode (Some "A") (Stat 10) [])) in Hfs.
    destruct Hfs as [_ Hfs]; [vm_compute; reflexivity|].
    apply Hfs. by right.
Defined.

(** ** Deletion on a data watch *)

Lemma rm_safe_run w p :
  fs w !! p ≠ Some Dir →
  rm_safe p w
  = (Ok tt, if fs w !! p is Some _
            then set_log (λ l, l ++ [FsUnlink p]) (set_fs (delete p) w)
            else w).
Proof.
  intros Hp. unfold rm_safe. run_unfold. world_simpl.
  by destruct (fs w !! p) as [[]|].
Qed.

Lemma rm_safe_fs w p :
  fs w !! p ≠ Some Dir → fs (exec (rm_safe p) w) = delete p (fs w).
Proof.
  intros Hp. unfold exec. rewrite rm_safe_run by done.
  destruct (fs w !! p) eqn:E; cbn [snd]; world_simpl; [done|].
  by rewrite delete_id.
Qed.

Lemma update_last_frame w :
  engine_frame w (exec _update_last w).
Proof. apply local__update_last. Qed.

Lemma deliver_data_stopped w zkpath data st event :
  zkpath ∉ data_subs w → deliver_data zkpath data st event w = (Ok tt, w).
Proof.
  intros Hs. unfold deliver_data. rewrite bind_run. unfold gets at 1.
  cbv beta iota. by rewrite bool_decide_false.
Qed.

(** The run of [_data_watch] on a delivery that deletes. *)
Lemma data_watch_delete_run w zkpath data st event :
  let p := os_path_join (fsroot w) (lstrip_slash zkpath) in
  fs w !! p ≠ Some Dir →
  (data = None ∧ event = None) ∨ event = Some DELETED →
  ∃ w', _data_watch zkpath data st event w = (Ok false, w')
    ∧ watches w' = watches w ∖ {[zkpath]}
    ∧ fs w' = delete p (fs w)
    ∧ data_subs w' = data_subs w ∧ ready w' = ready w
    ∧ fsroot w' = fsroot w.
Proof.
  intros p Hp Hdel.
  assert (∀ msg,
    (emit (Logged INFO msg) ;;
     modify (set_watches (λ s, s ∖ {[zkpath]})) ;;
     rm_safe p) w
    = (Ok tt, exec (rm_safe p)
                (set_watches (λ s, s ∖ {[zkpath]})
                   (set_log (λ l, l ++ [Logged INFO msg]) w)))) as Hrun.
  { intros msg. rewrite bind_run. unfold emit at 1, modify at 1.
    cbv beta iota. rewrite bind_run. unfold modify at 1. cbv beta iota.
    rewrite (run_eta (rm_safe p)). f_equal.
    unfold result. by rewrite rm_safe_run. }
  unfold _data_watch, fpath. rewrite bind_run. unfold bind at 1, gets at 1,
    ret at 1. cbv beta iota. fold p. rewrite bind_run.
  assert (∃ msg,
    match data, event with
    | None, None =>
        emit (Logged INFO ("Node does not exist: " +:+ zkpath)) ;;
        modify (set_watches (λ s, s ∖ {[zkpath]})) ;; rm_safe p
    | _, Some DELETED =>
        emit (Logged INFO ("Node removed: " +:+ zkpath)) ;;
        modify (set_watches (λ s, s ∖ {[zkpath]})) ;; rm_safe p
    | _, _ => _write_data p data st
    end = (emit (Logged INFO msg) ;;
           modify (set_watches (λ s, s ∖ {[zkpath]})) ;; rm_safe p))
    as [msg ->].
  { destruct Hdel as [[-> ->]| ->]; [by eexists|]. destruct data; by eexists. }
  rewrite Hrun. cbv beta iota.
  set (w1 := set_watches _ _).
  assert (fs w1 !! p ≠ Some Dir) as Hp1 by done.
  pose proof (rm_safe_fs w1 p Hp1) as Hfs.
  pose proof (local_rm_safe p w1) as [(Hw & _ & Hd & _ & _ & Hr & Hf & _) _].
  set (w2 := exec (rm_safe p) w1) in *.
  rewrite bind_run. unfold gets at 1. cbv beta iota.
  rewrite bool_decide_false by (rewrite Hw; subst w1; world_simpl; set_solver).
  rewrite bind_run. unfold emit at 1, modify at 1. cbv beta iota.
  unfold ret. eexists. split; [done|]. world_simpl.
  by rewrite Hw, Hfs, Hd, Hr, Hf.
Qed.

Lemma data_watch_callback_run w zkpath data st event renew w1 :
  _data_watch zkpath data st event w = (Ok renew, w1) →
  data_watch_callback zkpath data st event w
  = (Ok renew, if ready w1 then bumped w1 else w1).
Proof.
  intros Hrun. unfold data_watch_callback, exit_on_unhandled, try_except.
  rewrite bind_run, Hrun. cbv beta iota.
  rewrite bind_run, update_last_run. by cbv beta iota.
Qed.

Lemma deliver_data_run w zkpath data st event renew w1 :
  zkpath ∈ data_subs w →
  _data_watch zkpath data st event w = (Ok renew, w1) →
  deliver_data zkpath data st event w
  = (Ok tt,
     let w2 := if ready w1 then bumped w1 else w1 in
     if renew then w2 else set_data_subs (λ s, s ∖ {[zkpath]}) w2).
Proof.
  intros Hsub Hrun. unfold deliver_data. rewrite bind_run. unfold gets at 1.
  cbv beta iota. rewrite bool_decide_true by done.
  rewrite bind_run, (data_watch_callback_run _ _ _ _ _ _ _ Hrun).
  cbv beta iota zeta. by destruct renew.
Qed.

(** C3 as stated fails: on a deletion event that comes with data the code
    deletes all the same; its second test does not look at the data. *)
Lemma data_watch_deletes_present_data :
  let run := _data_watch "/cell/servers/host2" (Some "B") (Some (Stat 20))
               (Some DELETED) in
  "/cell/servers/host2" ∈ watches w_watched
  ∧ fs w_watched !! "/mirror/cell/servers/host2" = Some (File "B" 20 420%N)
  ∧ result run w_watched = Ok false
  ∧ fs (exec run w_watched) !! "/mirror/cell/servers/host2" = None
  ∧ "/cell/servers/host2" ∉ watches (exec run w_watched).
Proof.
  split_and!; try (vm_compute; reflexivity);
    by apply (bool_decide_unpack _); vm_compute.
Qed.

(** C3, as the code has it.  A data watch delivery deletes when data is
    absent and there is no event, and when the event is a deletion, with
    data or without: it then deletes the mirrored file (a file, or nothing),
    removes the path from [watches] and returns [False]; kazoo stops the
    watch, and no later delivery for the path reaches the engine.  Any other
    delivery leaves [watches] as it is and an existing mirror file in
    place. *)
Theorem data_watch_deletion (w : World) (zkpath : string)
    (data : option string) (st : option stat) (event : option event_type) :
  let p := os_path_join (fsroot w) (lstrip_slash zkpath) in
  let w' := exec (_data_watch zkpath data st event) w in
  let wd := exec (deliver_data zkpath data st event) w in
  fs w !! p ≠ Some Dir →
  ((data = None ∧ event = None) ∨ event = Some DELETED →
   result (_data_watch zkpath data st event) w = Ok false
   ∧ watches w' = watches w ∖ {[zkpath]}
   ∧ fs w' = delete p (fs w)
   ∧ (zkpath ∈ data_subs w →
      result (deliver_data zkpath data st event) w = Ok tt
      ∧ (zkpath ∉ data_subs wd) ∧ (zkpath ∉ watches wd)
      ∧ ∀ data' st' event',
          deliver_data zkpath data' st' event' wd = (Ok tt, wd)))
  ∧ (¬ ((data = None ∧ event = None) ∨ event = Some DELETED) →
     watches w' = watches w
     ∧ (is_Some (fs w !! p) → is_Some (fs w' !! p))).
Proof.
  intros p w' wd Hp. split.
  - intros Hdel.
    destruct (data_watch_delete_run w zkpath data st event Hp Hdel)
      as (w1 & Hrun & Hw1 & Hfs1 & Hd1 & Hr1 & Hf1).
    subst w' wd. unfold result, exec. rewrite Hrun. cbn [fst snd].
    split_and!; [done..|]. intros Hsub.
    rewrite (deliver_data_run _ _ _ _ _ _ _ Hsub Hrun). cbn [fst snd].
    cbv zeta.
    set (w2 := if ready w1 then bumped w1 else w1).
    assert (watches w2 = watches w1 ∧ data_subs w2 = data_subs w1)
      as [Hw2 Hd2] by (subst w2; by destruct (ready w1)).
    world_simpl. rewrite Hw2, Hw1.
    split_and!; [done|set_solver..|].
    intros. apply deliver_data_stopped. world_simpl. set_solver.
  - intros Hnot. subst w' wd.
    assert (_data_watch zkpath data st event w
            = (_write_data p data st ;;
               ws <- gets watches ;;
               let renew := bool_decide (zkpath ∈ ws) in
               emit (Logged INFO ("Renew watch on " +:+ zkpath +:+ " - "
                                  +:+ pybool renew)) ;;
               ret renew) w) as Hrun.
    { unfold _data_watch, fpath. rewrite bind_run. unfold bind at 1,
        gets at 1, ret at 1. cbv beta iota. fold p.
      destruct data, event as [[]|]; try done; destruct Hnot; auto. }
    unfold exec. rewrite Hrun. rewrite bind_run.
    assert (steps local_step (_write_data p data st)) as Hlocal
      by steps_auto local_leaf.
    destruct (Hlocal w) as [(Hw & _) _]. unfold exec in Hw.
    assert (is_Some (fs w !! p) →
            is_Some (fs (_write_data p data st w).2 !! p)) as Hkeep.
    { intros [old Hold]. unfold _write_data.
      destruct st as [st|]; [|by eexists].
      destruct (write_data_cases w p data (last_modified st) true old Hold)
        as (evs & _ & [(_ & Hfs & _)|[(e & _ & _ & Hfs & _)
                                     |(? & ? & _ & _ & _ & Hfs & _)]]);
        unfold exec in Hfs; by rewrite Hfs. }
    destruct (_write_data p data st w) as [[[]|e] w1]; cbn [fst snd] in *;
      [|done].
    unfold bind, gets, emit, modify, ret. by world_simpl.
Qed.

Lemma data_watch_deletion_witness :
  let run := _data_watch "/cell/servers/host2" None None (Some DELETED) in
  result run w_watched = Ok false
  ∧ watches (exec run w_watched)
    = watches w_watched ∖ {["/cell/servers/host2"]}
  ∧ fs (exec run w_watched)
    = delete "/mirror/cell/servers/host2" (fs w_watched).
Proof.
  intros run.
  destruct (data_watch_deletion w_watched "/cell/servers/host2" None None
              (Some DELETED)) as [Hdel _].
  - vm_compute. congruence.
  - destruct Hdel as (Hres & Hw & Hfs & _); [by right|].
    split; [exact Hres|]. split; [exact Hw|exact Hfs].
Defined.

(** ** Names in the mirror directory *)

Lemma strip_prefix_Some pre s name :
  strip_prefix pre s = Some name → s = pre +:+ name.
Proof.
  revert s. induction pre as [|a pre IH]; intros s; simpl; [by intros [= ->]|].
  destruct s as [|b s]; [done|].
  destruct (Ascii.eqb a b) eqn:E; [|done]. apply Ascii.eqb_eq in E as ->.
  intros ->%IH. done.
Qed.

Lemma strip_prefix_app pre name : strip_prefix pre (pre +:+ name) = Some name.
Proof.
  induction pre as [|a pre IH]; [done|]. rewrite str_app_cons. simpl.
  by rewrite Ascii.eqb_refl.
Qed.

Lemma slash_in_app (a b : string) :
  slash_in (a +:+ b) = slash_in a || slash_in b.
Proof.
  induction a as [|c a IH]; [done|]. rewrite str_app_cons. simpl.
  by rewrite IH, orb_assoc.
Qed.

Lemma ends_with_slash_in (d : string) :
  ends_with_slash d = true → slash_in d = true.
Proof.
  induction d as [|c d IH]; [done|]. simpl. destruct d as [|c' d'].
  - intros ->. done.
  - intros H. rewrite (IH H). by rewrite orb_true_r.
Qed.

Lemma basename_no_slash (name : string) :
  slash_in name = false → os_path_basename name = name.
Proof.
  destruct name as [|c name]; [done|]. simpl.
  intros [Hc Hn]%orb_false_elim. by rewrite Hn, Hc.
Qed.

(** The base name of a name put after a directory and its slash. *)
Lemma basename_in_dir (d name : string) :
  d = "" ∨ ends_with_slash d = true → slash_in name = false →
  os_path_basename (d +:+ name) = name.
Proof.
  intros Hd Hname. induction d as [|c d IH].
  - by apply basename_no_slash.
  - destruct Hd as [?|Hd]; [done|]. rewrite str_app_cons. simpl.
    rewrite slash_in_app, Hname, orb_false_r.
    destruct d as [|c' d'].
    + simpl in *. by rewrite Hd.
    + rewrite (ends_with_slash_in (String c' d')) by done.
      apply IH. by right.
Qed.

Lemma ends_with_slash_app (a : string) : ends_with_slash (a +:+ "/") = true.
Proof.
  induction a as [|c a IH]; [done|]. rewrite str_app_cons. simpl.
  rewrite IH. by destruct (a +:+ "/").
Qed.

Lemma os_path_join_empty_dir (a : string) :
  os_path_join a "" = "" ∨ ends_with_slash (os_path_join a "") = true.
Proof.
  unfold os_path_join. simpl. case_bool_decide as Ha; simpl.
  - subst. by left.
  - destruct (ends_with_slash a) eqn:E; right.
    + by rewrite str_app_nil_r.
    + apply ends_with_slash_app.
Qed.

(** What [glob] lists in a directory: the entries' names, none hidden. *)
Lemma elem_of_glob_star fpath m q :
  q ∈ glob_star fpath m ↔
  is_Some (m !! q) ∧
  ∃ name, q = os_path_join fpath "" +:+ name
          ∧ entry_name name = true ∧ hidden name = false.
Proof.
  unfold glob_star. rewrite list_elem_of_filter, list_elem_of_fmap.
  unfold matches_star. split.
  - intros [Hmatch ((q' & n) & -> & Hin%elem_of_map_to_list)]. simpl in *.
    split; [by eexists|].
    destruct (strip_prefix _ q') as [name|] eqn:E; [|done].
    apply strip_prefix_Some in E. exists name.
    apply Is_true_true, andb_true_iff in Hmatch as [? ?%negb_true_iff]. done.
  - intros [[n Hn] (name & -> & He & Hh)]. split.
    + rewrite strip_prefix_app, He, Hh. done.
    + exists (os_path_join fpath "" +:+ name, n). split; [done|].
      by apply elem_of_map_to_list.
Qed.

Lemma entry_name_spec name :
  entry_name name = true ↔ name ≠ "" ∧ slash_in name = false.
Proof.
  unfold entry_name. rewrite andb_true_iff, !negb_true_iff.
  by rewrite bool_decide_eq_false.
Qed.

(** The names [_children_watch] finds in the mirror directory. *)
Lemma elem_of_local_names fpath m name :
  name ∈ sorted (os_path_basename <$> glob_star fpath m) ↔
  is_Some (m !! (os_path_join fpath "" +:+ name))
  ∧ entry_name name = true ∧ hidden name = false.
Proof.
  unfold sorted. rewrite merge_sort_Permutation, list_elem_of_fmap. split.
  - intros (q & Hname & [Hq (name' & -> & He & Hh)]%elem_of_glob_star).
    apply entry_name_spec in He as He'. destruct He' as [_ Hs].
    rewrite basename_in_dir in Hname
      by (done || apply os_path_join_empty_dir).
    by subst name'.
  - intros (Hq & He & Hh). exists (os_path_join fpath "" +:+ name).
    apply entry_name_spec in He as He'. destruct He' as [_ Hs].
    rewrite basename_in_dir by (done || apply os_path_join_empty_dir).
    split; [done|]. apply elem_of_glob_star. split; [done|]. by exists name.
Qed.

Lemma diff_step_sound sc sf add0 remove0 common0 st st' :
  diff_sound sc sf add0 remove0 common0 st →
  Diff.step sc sf st = Some st' →
  diff_sound sc sf add0 remove0 common0 st'.
Proof.
  intros (Ha & Hr & Hc). unfold Diff.step. case_decide; [|done].
  destruct (decide (Diff.child_idx st < length sc)) as [Hci|Hci];
    destruct (decide (Diff.file_idx st < length sf)) as [Hfi|Hfi];
    try (destruct (sc !! Diff.child_idx st) as [c|] eqn:Ec);
    try (destruct (sf !! Diff.file_idx st) as [f|] eqn:Ef);
    try done;
    try (apply list_elem_of_lookup_2 in Ec);
    try (apply list_elem_of_lookup_2 in Ef);
    try (destruct (String.eqb c f) eqn:Eeq;
         [apply String.eqb_eq in Eeq as <-|destruct (String.ltb c f)]);
    intros [= <-]; unfold diff_sound; simpl;
    split_and!; intros x; rewrite ?elem_of_app, ?list_elem_of_singleton;
    naive_solver.
Qed.

Lemma diff_loop_sound sc sf add0 remove0 common0 fuel st :
  diff_sound sc sf add0 remove0 common0 st →
  diff_sound sc sf add0 remove0 common0 (Diff.loop sc sf fuel st).
Proof.
  revert st. induction fuel as [|fuel IH]; intros st Hst; simpl; [done|].
  destruct (Diff.step sc sf st) as [st'|] eqn:E; [|done].
  eapply IH, diff_step_sound; done.
Qed.

Lemma filter_children_actions_sound sc sf add remove common :
  _filter_children_actions sc sf [] [] [] = (add, remove, common) →
  (∀ x, x ∈ add → x ∈ sc) ∧ (∀ x, x ∈ remove → x ∈ sf)
  ∧ (∀ x, x ∈ common → x ∈ sc ∧ x ∈ sf).
Proof.
  unfold _filter_children_actions, Diff.run. intros [= <- <- <-].
  destruct (diff_loop_sound sc sf [] [] [] (length sc + length sf)
              (Diff.State 0 0 [] [] [])) as (Ha & Hr & Hc).
  { split_and!; intros x Hx; by apply elem_of_nil in Hx. }
  split_and!; intros x Hx.
  - destruct (Ha x Hx) as [?%elem_of_nil|?]; done.
  - destruct (Hr x Hx) as [?%elem_of_nil|?]; done.
  - destruct (Hc x Hx) as [?%elem_of_nil|?]; done.
Qed.

Lemma for_each_ext {A} (l : list A) (body1 body2 : A → M unit) :
  (∀ x, x ∈ l → body1 x = body2 x) → for_each l body1 = for_each l body2.
Proof.
  induction l as [|x l IH]; intros Hb; simpl; [done|].
  rewrite (Hb x) by left. rewrite IH; [done|].
  intros y Hy. apply Hb. by right.
Qed.

(** C10. The local listing the children diff works on holds no name that
    begins with a dot; so no removal is such a name: not the done file, not
    the readiness marker, not a temporary file of the atomic writer (their
    names begin with [.tmp]).  And [on_del] is not called for such a name: a
    reconciliation runs the same with any two [on_del] that agree on the
    children whose names do not begin with a dot. *)
Theorem local_listing_excludes_hidden (w : World) (zkpath : string)
    (children : list string) (add remove common : list string) :
  let p := os_path_join (fsroot w) (lstrip_slash zkpath) in
  children_actions p children (fs w) = (add, remove, common) →
  (∀ name, name ∈ sorted (os_path_basename <$> glob_star p (fs w)) →
           hidden name = false)
  ∧ (∀ node, node ∈ remove →
       node ∈ sorted (os_path_basename <$> glob_star p (fs w))
       ∧ hidden node = false
       ∧ node ≠ ".done" ∧ node ≠ ".modified" ∧ ∀ s, node ≠ ".tmp" +:+ s)
  ∧ (∀ node, node ∈ common → hidden node = false)
  ∧ (∀ watch_data on_add on_del1 on_del2 cont,
       (∀ node, hidden node = false →
                on_del1 (join_zookeeper_path zkpath node)
                = on_del2 (join_zookeeper_path zkpath node)) →
       _children_watch zkpath children watch_data on_add on_del1 cont w
       = _children_watch zkpath children watch_data on_add on_del2 cont w).
Proof.
  intros p Hact.
  assert (∀ name, name ∈ sorted (os_path_basename <$> glob_star p (fs w)) →
                  hidden name = false) as Hlist.
  { intros name Hin. by apply elem_of_local_names in Hin as (_ & _ & ?). }
  pose proof Hact as Hact'.
  apply filter_children_actions_sound in Hact as (_ & Hr & Hc).
  split_and!; [done| | |].
  - intros node Hin%Hr. pose proof (Hlist _ Hin) as Hh.
    split_and!; [done..| | |]; try (by intros ->). by intros s ->.
  - intros node [_ Hin]%Hc. by apply Hlist.
  - intros watch_data on_add on_del1 on_del2 cont Hagree.
    assert (∀ on_del,
      _children_watch zkpath children watch_data on_add on_del cont w
      = (for_each remove (λ node,
           emit (Logged INFO ("Delete: " +:+ node)) ;;
           let zknode := join_zookeeper_path zkpath node in
           modify (set_watches (λ s, s ∖ {[zknode]})) ;;
           on_del zknode) ;;
         seen <- gets processed_once ;;
         when (negb (bool_decide (zkpath ∈ seen)))
           (modify (set_processed_once (union {[zkpath]})) ;;
            for_each common (λ node,
              emit (Logged INFO ("Common: " +:+ node)) ;;
              let zknode := join_zookeeper_path zkpath node in
              when watch_data (modify (set_watches (union {[zknode]}))) ;;
              on_add zknode)) ;;
         for_each add (λ node,
           emit (Logged INFO ("Add: " +:+ node)) ;;
           let zknode := join_zookeeper_path zkpath node in
           when watch_data (modify (set_watches (union {[zknode]}))) ;;
           on_add zknode) ;;
         match cont with
         | Some cont => ret (cont zkpath (sorted children))
         | None => ret true
         end) w) as Hrun.
    { intros on_del. unfold _children_watch, fpath.
      unfold bind at 1. unfold bind at 1, gets at 1, ret at 1.
      cbv beta iota. unfold bind at 1, gets at 1. cbv beta iota. fold p.
      by rewrite Hact'. }
    rewrite !Hrun.
    rewrite (for_each_ext remove _
               (λ node,
                  emit (Logged INFO ("Delete: " +:+ node)) ;;
                  let zknode := join_zookeeper_path zkpath node in
                  modify (set_watches (λ s, s ∖ {[zknode]})) ;;
                  on_del2 zknode)); [done|].
    intros node Hin. cbv zeta. rewrite Hagree; [done|]. by apply Hlist, Hr.
Qed.

Lemma local_listing_excludes_hidden_witness :
  let w := set_fs (λ _, {[ "/mirror/a/.done" := File "" 1 420%N;
                           "/mirror/a/.tmpabc" := File "x" 1 384%N;
                           "/mirror/a/old" := File "o" 1 420%N ]})
             (init "/mirror" (env0 ∅ 0)) in
  children_actions "/mirror/a" ["new"] (fs w) = (["new"], ["old"], [])
  ∧ hidden "old" = false.
Proof.
  intros w. split; [vm_compute; reflexivity|].
  destruct (local_listing_excludes_hidden w "/a" ["new"]
              ["new"] ["old"] [] eq_refl) as (_ & Hr & _).
  destruct (Hr "old") as (_ & Hh & _); [left|exact Hh].
Defined.

(** ** Reconciling a mirror that is in sync *)

Lemma diff_loop_same (l : list string) fuel i common0 :
  i ≤ length l → length l - i ≤ fuel →
  Diff.loop l l fuel (Diff.State i i [] [] (common0 ++ take i l))
  = Diff.State (length l) (length l) [] [] (common0 ++ l).
Proof.
  revert i. induction fuel as [|fuel IH]; intros i Hi Hfuel; simpl.
  - assert (i = length l) as -> by lia. by rewrite firstn_all.
  - unfold Diff.step. simpl. case_decide as Hc.
    + assert (i < length l) as Hlt by lia.
      rewrite !decide_True by done.
      destruct (lookup_lt_is_Some_2 _ _ Hlt) as [c Hc'].
      rewrite Hc', String.eqb_refl.
      rewrite <- (assoc (++)), <- (take_S_r _ _ _ Hc'). apply IH; lia.
    + assert (i = length l) as -> by lia. by rewrite firstn_all.
Qed.

(** A list against itself: every name is common. *)
Lemma filter_children_actions_same (l : list string) :
  _filter_children_actions l l [] [] [] = ([], [], l).
Proof.
  unfold _filter_children_actions, Diff.run.
  change (Diff.State 0 0 [] [] []) with (Diff.State 0 0 [] [] ([] ++ take 0 l)).
  by rewrite (diff_loop_same l (length l + length l) 0 []) by lia.
Qed.

Lemma children_watch_run w zkpath children watch_data on_add on_del cont
    add remove common :
  children_actions (os_path_join (fsroot w) (lstrip_slash zkpath)) children
    (fs w) = (add, remove, common) →
  _children_watch zkpath children watch_data on_add on_del cont w
  = (for_each remove (λ node,
       emit (Logged INFO ("Delete: " +:+ node)) ;;
       let zknode := join_zookeeper_path zkpath node in
       modify (set_watches (λ s, s ∖ {[zknode]})) ;;
       on_del zknode) ;;
     seen <- gets processed_once ;;
     when (negb (bool_decide (zkpath ∈ seen)))
       (modify (set_processed_once (union {[zkpath]})) ;;
        for_each common (λ node,
          emit (Logged INFO ("Common: " +:+ node)) ;;
          let zknode := join_zookeeper_path zkpath node in
          when watch_data (modify (set_watches (union {[zknode]}))) ;;
          on_add zknode)) ;;
     for_each add (λ node,
       emit (Logged INFO ("Add: " +:+ node)) ;;
       let zknode := join_zookeeper_path zkpath node in
       when watch_data (modify (set_watches (union {[zknode]}))) ;;
       on_add zknode) ;;
     match cont with
     | Some cont => ret (cont zkpath (sorted children))
     | None => ret true
     end) w.
Proof.
  intros Hact. unfold _children_watch, fpath.
  unfold bind at 1. unfold bind at 1, gets at 1, ret at 1.
  cbv beta iota. unfold bind at 1, gets at 1. cbv beta iota.
  by rewrite Hact.
Qed.

(** A reconciliation of a parent seen before, with a mirror in sync, calls
    no callback and changes nothing. *)
Lemma children_watch_in_sync w zkpath children watch_data on_add on_del cont :
  zkpath ∈ processed_once w → in_sync zkpath children w →
  _children_watch zkpath children watch_data on_add on_del cont w
  = (Ok (cont_eff cont zkpath children), w).
Proof.
  intros Hseen Hsync.
  rewrite (children_watch_run _ _ _ _ _ _ _ [] []
             (sorted children)).
  - unfold for_each at 1 3. rewrite bind_run. unfold ret at 1. cbv beta iota.
    rewrite bind_run. unfold gets at 1. cbv beta iota.
    rewrite bool_decide_true by done. unfold negb, when.
    rewrite bind_run. unfold ret at 1. cbv beta iota.
    rewrite bind_run. unfold ret at 1. cbv beta iota.
    unfold cont_eff. by destruct cont.
  - unfold children_actions. rewrite <- Hsync.
    apply filter_children_actions_same.
Qed.

(** A reconciliation of a parent seen before skips the common children:
    [on_add] is called for the additions only. *)
Lemma children_watch_seen w zkpath children watch_data on_add on_del cont
    add remove common :
  children_actions (os_path_join (fsroot w) (lstrip_slash zkpath)) children
    (fs w) = (add, remove, common) →
  (∀ node w0, zkpath ∈ processed_once w0 →
     zkpath ∈ processed_once (exec (on_del node) w0)) →
  zkpath ∈ processed_once w →
  _children_watch zkpath children watch_data on_add on_del cont w
  = (for_each remove (λ node,
       emit (Logged INFO ("Delete: " +:+ node)) ;;
       let zknode := join_zookeeper_path zkpath node in
       modify (set_watches (λ s, s ∖ {[zknode]})) ;;
       on_del zknode) ;;
     for_each add (λ node,
       emit (Logged INFO ("Add: " +:+ node)) ;;
       let zknode := join_zookeeper_path zkpath node in
       when watch_data (modify (set_watches (union {[zknode]}))) ;;
       on_add zknode) ;;
     match cont with
     | Some cont => ret (cont zkpath (sorted children))
     | None => ret true
     end) w.
Proof.
  intros Hact Hdel Hseen. rewrite (children_watch_run _ _ _ _ _ _ _ _ _ _ Hact).
  set (body := λ node : string, _).
  assert (∀ l w0, zkpath ∈ processed_once w0 →
            zkpath ∈ processed_once (exec (for_each l body) w0)) as Hkeep.
  { induction l as [|x l IH]; intros w0 Hw0; [done|].
    simpl. rewrite exec_bind. subst body. cbv beta.
    set (m := (emit _ ;; _)).
    assert (zkpath ∈ processed_once (exec m w0)) as Hm.
    { subst m. rewrite exec_bind. unfold emit at 1, modify at 1, result at 1.
      cbv beta iota. cbn [fst]. unfold emit at 1, modify at 1, exec at 2.
      cbn [snd]. cbv zeta. rewrite exec_bind.
      unfold modify at 1, result at 1. cbn [fst]. cbv beta iota.
      unfold modify at 1, exec at 2. cbn [snd]. by apply Hdel. }
    destruct (result m w0); [by apply IH|done]. }
  rewrite !bind_run. specialize (Hkeep remove w Hseen). unfold exec in Hkeep.
  destruct (for_each remove body w) as [[[]|e] w1]; [|done].
  cbn [snd] in Hkeep. unfold bind at 1, gets at 1. cbv beta iota.
  rewrite bool_decide_true by done. unfold negb, when.
  unfold bind at 1, ret at 1. by cbv beta iota.
Qed.

(** The readiness marker is not among the names [glob] lists. *)
Lemma marker_not_listed (root p name : string) :
  entry_name name = true → hidden name = false →
  os_path_join p "" +:+ name ≠ os_path_join root ".modified".
Proof.
  intros [_ Hs]%entry_name_spec Hh Heq.
  apply (f_equal os_path_basename) in Heq.
  rewrite (os_path_join_dir root ".modified") in Heq by done.
  rewrite !basename_in_dir in Heq by (done || apply os_path_join_empty_dir).
  by subst name.
Qed.

Lemma NoDup_local_names fpath m :
  NoDup (os_path_basename <$> glob_star fpath m).
Proof.
  apply NoDup_fmap_2_strong.
  - intros q1 q2 [_ (n1 & -> & [_ H1]%entry_name_spec & _)]%elem_of_glob_star
      [_ (n2 & -> & [_ H2]%entry_name_spec & _)]%elem_of_glob_star.
    rewrite !basename_in_dir by (done || apply os_path_join_empty_dir).
    by intros ->.
  - unfold glob_star. apply NoDup_filter, NoDup_fst_map_to_list.
Qed.

Lemma sorted_unique (l1 l2 : list string) :
  NoDup l1 → NoDup l2 → (∀ x, x ∈ l1 ↔ x ∈ l2) → sorted l1 = sorted l2.
Proof.
  intros H1 H2 Heq. unfold sorted.
  apply (StronglySorted_unique String.le);
    [apply StronglySorted_merge_sort; apply _..|].
  rewrite !merge_sort_Permutation. by apply NoDup_Permutation.
Qed.

(** Two file systems with the same visible entries in a directory give the
    same local names. *)
Lemma local_names_agree fpath (m1 m2 : gmap string node) :
  (∀ name, entry_name name = true → hidden name = false →
     is_Some (m1 !! (os_path_join fpath "" +:+ name))
     ↔ is_Some (m2 !! (os_path_join fpath "" +:+ name))) →
  sorted (os_path_basename <$> glob_star fpath m1)
  = sorted (os_path_basename <$> glob_star fpath m2).
Proof.
  intros Hagree. apply sorted_unique; [apply NoDup_local_names..|].
  intros x.
  pose proof (elem_of_local_names fpath m1 x) as E1.
  pose proof (elem_of_local_names fpath m2 x) as E2.
  unfold sorted in E1, E2. rewrite merge_sort_Permutation in E1, E2.
  rewrite E1, E2. naive_solver.
Qed.

Lemma in_sync_ext zkpath children w w' :
  fsroot w' = fsroot w → fs w' = fs w →
  in_sync zkpath children w → in_sync zkpath children w'.
Proof. unfold in_sync. by intros -> ->. Qed.

Lemma in_sync_bump zkpath children w :
  in_sync zkpath children w → in_sync zkpath children (bump_if_ready w).
Proof.
  unfold in_sync, bump_if_ready. intros ->. destruct (ready w); [|done].
  unfold bumped. world_simpl. apply local_names_agree.
  intros name He Hh. rewrite lookup_insert_ne; [done|].
  intros Heq. symmetry in Heq. by apply marker_not_listed in Heq.
Qed.

(** The callback of the children watch, on a parent seen before whose mirror
    is in sync: nothing but the bump of the marker in a ready engine. *)
Lemma children_watch_callback_in_sync w zkpath watch_data on_add on_del cont
    children :
  zkpath ∈ processed_once w → in_sync zkpath children w →
  children_watch_callback zkpath watch_data on_add on_del cont children w
  = (Ok (cont_eff cont zkpath children), bump_if_ready w).
Proof.
  intros Hseen Hsync.
  unfold children_watch_callback, exit_on_unhandled, try_except.
  rewrite bind_run, children_watch_in_sync by done. cbv beta iota.
  rewrite bind_run, update_last_run. by cbv beta iota.
Qed.

(** Installing the children watch on such a parent. *)
Lemma make_children_watch_in_sync w zkpath watch_data on_add on_del cont :
  let children := remote_children w zkpath in
  (is_Some (zk w !! zkpath) →
   zkpath ∈ processed_once w ∧ in_sync zkpath children w) →
  _make_children_watch zkpath watch_data on_add on_del cont w
  = (Ok tt,
     let w1 := set_log (λ l, l ++ watch_log zkpath) w in
     match zk w !! zkpath with
     | None => set_children_subs (λ s, s ∖ {[zkpath]}) w1
     | Some _ =>
         set_children_subs
           (if cont_eff cont zkpath children then union {[zkpath]}
            else λ s, s ∖ {[zkpath]})
           (bump_if_ready w1)
     end).
Proof.
  intros children Hsync. unfold _make_children_watch, zk_ChildrenWatch.
  rewrite bind_run. unfold emit at 1, modify at 1. cbv beta iota zeta.
  rewrite bind_run. unfold emit at 1, modify at 1. cbv beta iota.
  rewrite bind_run. unfold gets at 1. cbv beta iota. world_simpl.
  assert (set_log (λ l, l ++ [ZkChildrenWatch zkpath])
            (set_log (λ l, l ++ [Logged DEBUG ("Establish children watch on: "
                                   +:+ zkpath)]) w)
          = set_log (λ l, l ++ watch_log zkpath) w) as ->.
  { unfold set_log, watch_log. world_simpl. f_equal. by rewrite <- app_assoc. }
  subst children. unfold remote_children in *.
  destruct (zk w !! zkpath) as [n|] eqn:En; [|done]. cbn [from_option] in *.
  destruct Hsync as [Hseen Hsync]; [done|].
  rewrite bind_run, children_watch_callback_in_sync by done.
  cbv beta iota. by destruct (cont_eff cont zkpath (zchildren n)).
Qed.

#[global] Instance marker_only_preorder : PreOrder marker_only.
Proof.
  split.
  - intros w. unfold marker_only. split_and!; try done.
    exists []. by rewrite app_nil_r.
  - intros w1 w2 w3 (Hp1 & Hw1 & Hz1 & Hr1 & Hf1 & Ho1 & Hn1 & e1 & Hl1 & He1)
      (Hp2 & Hw2 & Hz2 & Hr2 & Hf2 & Ho2 & Hn2 & e2 & Hl2 & He2).
    unfold marker_only. rewrite Hr1, Hf1 in *.
    split_and!; try congruence.
    + intros q Hq. by rewrite Ho2, Ho1.
    + intros Hr. by rewrite Hn2, Hn1.
    + exists (e1 ++ e2). rewrite Hl2, Hl1, (assoc (++)). split; [done|].
      by apply Forall_app.
Qed.

Lemma marker_only_log w evs :
  Forall (λ ev, is_fs_mutation ev = false) evs →
  marker_only w (set_log (λ l, l ++ evs) w).
Proof.
  intros Hevs. unfold marker_only. world_simpl. split_and!; try done.
  exists evs. split; [done|]. eapply Forall_impl; [done|].
  intros ev ->. done.
Qed.

Lemma marker_only_subs w f : marker_only w (set_children_subs f w).
Proof.
  unfold marker_only. world_simpl. split_and!; try done.
  exists []. by rewrite app_nil_r.
Qed.

Lemma marker_only_bump w : marker_only w (bump_if_ready w).
Proof.
  unfold bump_if_ready. destruct (ready w) eqn:Er; [|reflexivity].
  unfold marker_only, bumped. world_simpl. split_and!; try done.
  - intros q Hq. by rewrite lookup_insert_ne.
  - by rewrite Er.
  - exists [FsTouch (os_path_join (fsroot w) ".modified");
            FsUtime (os_path_join (fsroot w) ".modified") (now w)].
    split; [done|].
    repeat (apply Forall_cons; split; [intros _; split; [done|eauto]|]).
    by apply Forall_nil.
Qed.

Lemma marker_only_in_sync zkpath children w w' :
  marker_only w w' → in_sync zkpath children w → in_sync zkpath children w'.
Proof.
  intros (_ & _ & _ & _ & Hf & Ho & _). unfold in_sync. intros ->.
  rewrite Hf. apply local_names_agree. intros name He Hh.
  rewrite Ho; [done|]. intros Heq. by apply marker_not_listed in Heq.
Qed.

Section again.
Variables (zkpath : string) (watch_data : bool).
Variables (on_add on_del : option (string → M unit)).
Variables (need : option (string → bool)).
Variables (cont : option (string → list string → bool)).

(** Past the done file check, on a parent seen before whose mirror is in
    sync, when a watch is wanted. *)
Lemma sync_children_undone_in_sync w done_file :
  let children := remote_children w zkpath in
  (is_Some (zk w !! zkpath) ∨ need_eff need zkpath = false →
   zkpath ∈ processed_once w ∧ in_sync zkpath children w) →
  need_eff need zkpath || cont_eff cont zkpath children = true →
  ∃ w', sync_children_undone zkpath watch_data on_add on_del need cont
          done_file w = (Ok tt, w')
        ∧ marker_only w w'.
Proof.
  intros children Hsync Hdec.
  assert (∃ wn,
    match need with
    | Some f =>
        emit (Logged INFO ("Need watch on " +:+ zkpath +:+ ": "
                           +:+ pybool (f zkpath))) ;;
        ret (f zkpath)
    | None => ret true
    end w = (Ok (need_eff need zkpath), wn)
    ∧ marker_only w wn ∧ zk wn = zk w ∧ fs wn = fs w
    ∧ processed_once wn = processed_once w ∧ fsroot wn = fsroot w)
    as (wn & Hneed & Hmn & Hzn & Hfn & Hpn & Hrn).
  { unfold need_eff. destruct need as [f|]; cbn [from_option].
    - eexists. split; [reflexivity|]. split_and!; try done.
      apply (marker_only_log w [_]). by repeat constructor.
    - exists w. by split_and!. }
  assert (∀ w0, marker_only w w0 →
            (is_Some (zk w0 !! zkpath) ∨ need_eff need zkpath = false →
             zkpath ∈ processed_once w0
             ∧ in_sync zkpath (remote_children w0 zkpath) w0)
            ∧ remote_children w0 zkpath = children) as Hinv.
  { intros w0 Hm. pose proof Hm as (Hp0 & _ & Hz0 & _).
    assert (remote_children w0 zkpath = children) as Hch
      by (unfold children, remote_children; by rewrite Hz0).
    split; [|done]. rewrite Hch, Hz0, Hp0. intros [Hseen Hs]%Hsync.
    split; [done|]. by eapply marker_only_in_sync. }
  unfold sync_children_undone. cbv zeta. rewrite bind_run, Hneed.
  cbv beta iota.
  destruct (need_eff need zkpath) eqn:En.
  - destruct (Hinv wn Hmn) as [Hsn Hcn].
    rewrite bind_run, bind_run, make_children_watch_in_sync
      by (intros ?; apply Hsn; by left).
    cbv beta iota zeta. unfold ret at 1. cbv beta iota.
    unfold negb, when, ret. eexists. split; [done|].
    etrans; [done|]. etrans.
    { apply (marker_only_log wn (watch_log zkpath)). by repeat constructor. }
    destruct (zk wn !! zkpath); [|apply marker_only_subs].
    etrans; [apply marker_only_bump|apply marker_only_subs].
  - simpl in Hdec.
    rewrite bind_run, bind_run, fetch_children_run. cbv beta iota.
    set (w3 := set_log (λ l, l ++ [ZkGetChildren zkpath]) wn).
    assert (marker_only w w3) as Hm3.
    { etrans; [done|]. apply (marker_only_log wn [_]). by repeat constructor. }
    destruct (Hinv w3 Hm3) as [Hs3 Hc3].
    assert (remote_children wn zkpath = children) as Hcn
      by (by destruct (Hinv wn Hmn)).
    rewrite Hcn. destruct Hs3 as [Hseen3 Hsync3]; [by right|].
    rewrite Hc3 in Hsync3.
    rewrite bind_run, children_watch_in_sync by done.
    cbv beta iota. rewrite Hdec. unfold when.
    rewrite bind_run, make_children_watch_in_sync
      by (intros _; by rewrite Hc3).
    cbv beta iota zeta.
    rewrite bind_run, update_last_run. cbv beta iota.
    unfold ret at 1. cbv beta iota. unfold negb, ret.
    eexists. split; [done|].
    etrans; [done|]. etrans.
    { apply (marker_only_log w3 (watch_log zkpath)). by repeat constructor. }
    etrans; [|apply marker_only_bump].
    destruct (zk w3 !! zkpath); [|apply marker_only_subs].
    etrans; [apply marker_only_bump|apply marker_only_subs].
Qed.
End again.

Lemma sync_children_found_done w zkpath wd on_add on_del need cont :
  let p := os_path_join (fsroot w) (lstrip_slash zkpath) in
  let done_file := os_path_join p ".done" in
  is_Some (fs w !! p) → is_Some (fs w !! done_file) →
  sync_children zkpath wd on_add on_del need cont w
  = (Ok tt,
     set_log (λ l, l ++ [Logged INFO ("sync children: zk = " +:+ zkpath
                           +:+ ", watch_data: " +:+ pybool wd);
                         Logged INFO ("Found done file: " +:+ done_file
                           +:+ ", nothing to watch.")]) w).
Proof.
  intros p done_file [n Hp] Hdone.
  unfold sync_children, fpath, mkdir_safe, os_path_exists. run_unfold.
  world_simpl. fold p. rewrite Hp. cbv beta iota. world_simpl.
  fold done_file. rewrite bool_decide_true by done. cbv beta iota.
  f_equal. unfold set_log. world_simpl. f_equal. by rewrite <- app_assoc.
Qed.

(** C2, as the code has it.  A call of [sync_children] on a parent that was
    reconciled before and whose mirror lists the remote children, as a first
    call leaves it (with the done file in place when no watch is wanted),
    returns and changes no file but, in a ready engine, the readiness marker,
    which every reconciliation bumps: the common children are skipped.  For
    a parent in [processed_once], [on_add] is called for the additions
    only. *)
Theorem sync_children_again (w : World) (zkpath : string) (watch_data : bool)
    (on_add on_del : option (string → M unit))
    (need : option (string → bool))
    (cont : option (string → list string → bool)) :
  let p := os_path_join (fsroot w) (lstrip_slash zkpath) in
  let done_file := os_path_join p ".done" in
  let children := remote_children w zkpath in
  let run := sync_children zkpath watch_data on_add on_del need cont in
  is_Some (fs w !! p) →
  zkpath ∈ processed_once w →
  in_sync zkpath children w →
  (fs w !! done_file = None →
   need_eff need zkpath || cont_eff cont zkpath children = true) →
  result run w = Ok tt
  ∧ marker_only w (exec run w)
  ∧ (∀ w0 children0 add remove common add_cb del_cb,
       children_actions (os_path_join (fsroot w0) (lstrip_slash zkpath))
         children0 (fs w0) = (add, remove, common) →
       (∀ node w1, zkpath ∈ processed_once w1 →
                   zkpath ∈ processed_once (exec (del_cb node) w1)) →
       zkpath ∈ processed_once w0 →
       _children_watch zkpath children0 watch_data add_cb del_cb cont w0
       = (for_each remove (λ node,
            emit (Logged INFO ("Delete: " +:+ node)) ;;
            let zknode := join_zookeeper_path zkpath node in
            modify (set_watches (λ s, s ∖ {[zknode]})) ;;
            del_cb zknode) ;;
          for_each add (λ node,
            emit (Logged INFO ("Add: " +:+ node)) ;;
            let zknode := join_zookeeper_path zkpath node in
            when watch_data (modify (set_watches (union {[zknode]}))) ;;
            add_cb zknode) ;;
          match cont with
          | Some cont => ret (cont zkpath (sorted children0))
          | None => ret true
          end) w0).
Proof.
  intros p done_file children run Hp Hseen Hsync Hdec. subst run.
  split_and!; [| |intros; by eapply children_watch_seen].
  - unfold result. destruct (fs w !! done_file) as [n|] eqn:Ed.
    + by rewrite sync_children_found_done.
    + destruct (sync_children_found_none w zkpath watch_data on_add on_del
                  need cont Ed)
        as (w1 & pre & -> & Hl & _ & Hpre & Hz & Hr & Hf & _ & Hpo & _ & _
            & _ & _ & _ & Hfs & _).
      fold p done_file. destruct Hp as [n Hp]. fold p in Hfs.
      rewrite Hp in Hfs.
      destruct (sync_children_undone_in_sync zkpath watch_data on_add on_del
                  need cont w1 done_file) as (w' & -> & _); [| |done].
      * intros _. rewrite Hpo. split; [done|].
        assert (remote_children w1 zkpath = children) as ->
          by (unfold children, remote_children; by rewrite Hz).
        by apply (in_sync_ext _ _ w).
      * assert (remote_children w1 zkpath = children) as ->
          by (unfold children, remote_children; by rewrite Hz).
        by apply Hdec.
  - unfold exec. destruct (fs w !! done_file) as [n|] eqn:Ed.
    + rewrite sync_children_found_done by done. cbn [snd].
      apply marker_only_log. by repeat constructor.
    + destruct (sync_children_found_none w zkpath watch_data on_add on_del
                  need cont Ed)
        as (w1 & pre & -> & Hl & _ & _ & Hz & Hr & Hf & Hwa & Hpo & _ & _
            & _ & _ & _ & Hfs & Hpre).
      fold p done_file. specialize (Hpre Hp). destruct Hp as [n Hp].
      fold p in Hfs. rewrite Hp in Hfs.
      assert (marker_only w w1) as Hm1.
      { unfold marker_only. rewrite Hpo, Hwa, Hz, Hr, Hf, Hfs.
        split_and!; try done. exists pre. split; [done|].
        eapply Forall_impl; [done|]. by intros ev -> ?. }
      destruct (sync_children_undone_in_sync zkpath watch_data on_add on_del
                  need cont w1 done_file) as (w' & -> & Hm); [| |by etrans].
      * intros _. rewrite Hpo. split; [done|].
        assert (remote_children w1 zkpath = children) as ->
          by (unfold children, remote_children; by rewrite Hz).
        by apply (in_sync_ext _ _ w).
      * assert (remote_children w1 zkpath = children) as ->
          by (unfold children, remote_children; by rewrite Hz).
        by apply Hdec.
Qed.

(** C2 as stated fails in a ready engine: a second call of [sync_children],
    with nothing changed on either side but the clock, touches the readiness
    marker and sets its time. *)
Lemma sync_children_twice_bumps_marker :
  let second := sync_children "/cell/servers" false None None None None in
  let w2 := exec second (advance_clock 1 w_synced) in
  result second (advance_clock 1 w_synced) = Ok tt
  ∧ filter (λ ev, is_fs_mutation ev) (drop (length (log w_synced)) (log w2))
    = [FsTouch "/mirror/.modified"; FsUtime "/mirror/.modified" 101]
  ∧ fs w_synced !! "/mirror/.modified" = Some (File "" 100 420%N)
  ∧ fs w2 !! "/mirror/.modified" = Some (File "" 101 420%N).
Proof. vm_compute. done. Qed.

Lemma sync_children_again_witness :
  let w := advance_clock 1 w_synced in
  result (sync_children "/cell/servers" false None None None None) w = Ok tt
  ∧ marker_only w
      (exec (sync_children "/cell/servers" false None None None None) w).
Proof.
  intros w.
  destruct (sync_children_again w "/cell/servers" false None None None None)
    as (Hres & Hm & _).
  - eexists. vm_compute. reflexivity.
  - by apply (bool_decide_unpack _); vm_compute.
  - vm_compute. reflexivity.
  - intros _. reflexivity.
  - by split.
Defined.

(** ** The children diff on any two lists *)

Lemma sublist_snoc {A} (l k : list A) x : sublist l k → sublist (l ++ [x]) (k ++ [x]).
Proof. intros H. apply sublist_app; [done|]. by apply sublist_skip. Qed.

Lemma sublist_snoc_r {A} (l k : list A) x : sublist l k → sublist l (k ++ [x]).
Proof. intros H. by apply sublist_inserts_r. Qed.

Lemma diff_step_conserves sc sf add0 remove0 common0 st st' :
  diff_conserves sc sf add0 remove0 common0 st →
  Diff.step sc sf st = Some st' →
  diff_conserves sc sf add0 remove0 common0 st'
  ∧ (length sc - Diff.child_idx st') + (length sf - Diff.file_idx st')
    < (length sc - Diff.child_idx st) + (length sf - Diff.file_idx st).
Proof.
  intros (Hi & Hj & add & remove & common & Ha & Hr & Hc & Hpa & Hpr
          & Hsa & Hsc & Hsr & Hsf).
  unfold Diff.step. case_decide as Hcond; [|done].
  destruct (decide (Diff.child_idx st < length sc)) as [Hci|Hci];
    destruct (decide (Diff.file_idx st < length sf)) as [Hfi|Hfi];
    try (destruct (lookup_lt_is_Some_2 _ _ Hci) as [c Ec]; rewrite Ec);
    try (destruct (lookup_lt_is_Some_2 _ _ Hfi) as [f Ef]; rewrite Ef);
    try lia;
    try (destruct (String.eqb c f) eqn:Eeq;
         [apply String.eqb_eq in Eeq as <-|destruct (String.ltb c f)]);
    intros [= <-]; (split; [|simpl; lia]); unfold diff_conserves; simpl;
    rewrite ?(take_S_r _ _ _ Ec), ?(take_S_r _ _ _ Ef);
    (split; [lia|]); (split; [lia|]).
  - exists add, remove, (common ++ [c]).
    rewrite Ha, Hr, Hc, <- !(assoc (++)).
    split_and!; try done; try (by apply sublist_snoc);
      try (by apply sublist_snoc_r).
    + by rewrite (assoc (++)), Hpa.
    + by rewrite (assoc (++)), Hpr.
  - exists (add ++ [c]), remove, common.
    rewrite Ha, Hr, Hc, <- !(assoc (++)).
    split_and!; try done; try (by apply sublist_snoc);
      try (by apply sublist_snoc_r).
    rewrite <- Hpa. by rewrite (comm (++) [c] common), (assoc (++)).
  - exists add, (remove ++ [f]), common.
    rewrite Ha, Hr, Hc, <- !(assoc (++)).
    split_and!; try done; try (by apply sublist_snoc);
      try (by apply sublist_snoc_r).
    rewrite <- Hpr. by rewrite (comm (++) [f] common), (assoc (++)).
  - exists (add ++ [c]), remove, common.
    rewrite Ha, Hr, Hc, <- !(assoc (++)).
    split_and!; try done; try (by apply sublist_snoc);
      try (by apply sublist_snoc_r).
    rewrite <- Hpa. by rewrite (comm (++) [c] common), (assoc (++)).
  - exists add, (remove ++ [f]), common.
    rewrite Ha, Hr, Hc, <- !(assoc (++)).
    split_and!; try done; try (by apply sublist_snoc);
      try (by apply sublist_snoc_r).
    rewrite <- Hpr. by rewrite (comm (++) [f] common), (assoc (++)).
Qed.

Lemma diff_step_exit sc sf st :
  Diff.child_idx st ≤ length sc → Diff.file_idx st ≤ length sf →
  Diff.step sc sf st = None →
  Diff.child_idx st = length sc ∧ Diff.file_idx st = length sf.
Proof.
  intros Hi Hj. unfold Diff.step. case_decide as Hcond; [|lia].
  destruct (decide (Diff.child_idx st < length sc)) as [Hci|Hci];
    destruct (decide (Diff.file_idx st < length sf)) as [Hfi|Hfi];
    try (destruct (lookup_lt_is_Some_2 _ _ Hci) as [c ->]);
    try (destruct (lookup_lt_is_Some_2 _ _ Hfi) as [f ->]);
    try lia; by repeat case_match.
Qed.

Lemma diff_loop_conserves sc sf add0 remove0 common0 fuel st :
  diff_conserves sc sf add0 remove0 common0 st →
  (length sc - Diff.child_idx st) + (length sf - Diff.file_idx st) ≤ fuel →
  diff_conserves sc sf add0 remove0 common0 (Diff.loop sc sf fuel st)
  ∧ Diff.step sc sf (Diff.loop sc sf fuel st) = None.
Proof.
  revert st. induction fuel as [|fuel IH]; intros st Hinv Hfuel; simpl.
  - split; [done|]. unfold Diff.step. case_decide; [lia|done].
  - destruct (Diff.step sc sf st) as [st'|] eqn:Est; [|done].
    destruct (diff_step_conserves _ _ _ _ _ _ _ Hinv Est) as [Hinv' Hlt].
    apply IH; [done|lia].
Qed.

(** X1. On any two lists, sorted or not, the children diff loses and
    invents nothing: it appends to the three lists it is given; what it
    appends to [add] and [common] is, together, the remote list up to
    order, and what it appends to [remove] and [common] the local list;
    each of the three keeps the order of the list it is taken from; and the
    loop reaches its exit within as many iterations as the two lists have
    positions. *)
Theorem filter_children_actions_conserves
    (sc sf add0 remove0 common0 : list string) :
  ∃ add remove common,
    _filter_children_actions sc sf add0 remove0 common0
      = (add0 ++ add, remove0 ++ remove, common0 ++ common)
    ∧ add ++ common ≡ₚ sc ∧ remove ++ common ≡ₚ sf
    ∧ sublist add sc ∧ sublist common sc
    ∧ sublist remove sf ∧ sublist common sf
    ∧ Diff.step sc sf (Diff.run sc sf add0 remove0 common0) = None.
Proof.
  unfold _filter_children_actions, Diff.run.
  destruct (diff_loop_conserves sc sf add0 remove0 common0
              (length sc + length sf) (Diff.State 0 0 add0 remove0 common0))
    as [(Hi & Hj & add & remove & common & Ha & Hr & Hc & Hpa & Hpr
         & Hsa & Hsc & Hsr & Hsf) Hexit].
  { unfold diff_conserves; simpl. split; [lia|]. split; [lia|].
    exists [], [], []. by rewrite !app_nil_r. }
  { simpl. lia. }
  destruct (diff_step_exit _ _ _ Hi Hj Hexit) as [Ei Ej].
  rewrite Ei, Ej, !firstn_all in *.
  exists add, remove, common. by rewrite Ha, Hr, Hc.
Qed.

Lemma str_ltb_swap (a b : string) :
  String.eqb a b = false → String.ltb b a = negb (String.ltb a b).
Proof.
  intros Hne. destruct (String.ltb a b) eqn:Hab; simpl.
  - destruct (String.ltb b a) eqn:Hba; [|done].
    destruct (irreflexivity str_lt a). by trans b.
  - by apply str_trichotomy.
Qed.

Lemma diff_step_swap sc sf st :
  Diff.step sf sc (diff_swap st) = diff_swap <$> Diff.step sc sf st.
Proof.
  unfold Diff.step, diff_swap; simpl.
  destruct (decide (Diff.child_idx st < length sc)) as [Hci|Hci];
    destruct (decide (Diff.file_idx st < length sf)) as [Hfi|Hfi];
    repeat case_decide; try lia; try done;
    try (destruct (lookup_lt_is_Some_2 _ _ Hci) as [c ->]);
    try (destruct (lookup_lt_is_Some_2 _ _ Hfi) as [f ->]);
    try done.
  rewrite (String.eqb_sym f c).
  destruct (String.eqb c f) eqn:Eeq.
  - apply String.eqb_eq in Eeq as ->. done.
  - rewrite (str_ltb_swap c f Eeq). by destruct (String.ltb c f).
Qed.

Lemma diff_loop_swap sc sf fuel st :
  Diff.loop sf sc fuel (diff_swap st) = diff_swap (Diff.loop sc sf fuel st).
Proof.
  revert st. induction fuel as [|fuel IH]; intros st; simpl; [done|].
  rewrite diff_step_swap. destruct (Diff.step sc sf st) as [st'|]; simpl; [|done].
  apply IH.
Qed.

(** X2. The diff is symmetric: with the two lists exchanged, the additions
    and the removals change places and the common names stay. *)
Theorem filter_children_actions_swap
    (sc sf add0 remove0 common0 : list string) :
  _filter_children_actions sf sc remove0 add0 common0
  = ((_filter_children_actions sc sf add0 remove0 common0).1.2,
     (_filter_children_actions sc sf add0 remove0 common0).1.1,
     (_filter_children_actions sc sf add0 remove0 common0).2).
Proof.
  unfold _filter_children_actions, Diff.run.
  rewrite (Nat.add_comm (length sf)).
  change (Diff.State 0 0 remove0 add0 common0)
    with (diff_swap (Diff.State 0 0 add0 remove0 common0)).
  by rewrite diff_loop_swap.
Qed.

Lemma diff_loop_no_children sf fuel j add0 remove0 common0 :
  j ≤ length sf → length sf - j ≤ fuel →
  Diff.loop [] sf fuel (Diff.State 0 j add0 (remove0 ++ take j sf) common0)
  = Diff.State 0 (length sf) add0 (remove0 ++ sf) common0.
Proof.
  revert j. induction fuel as [|fuel IH]; intros j Hj Hfuel; simpl.
  - assert (j = length sf) as -> by lia. by rewrite firstn_all.
  - unfold Diff.step. simpl. case_decide as Hc.
    + assert (j < length sf) as Hlt by lia.
      destruct (lookup_lt_is_Some_2 _ _ Hlt) as [f Hf].
      rewrite decide_True, Hf by done.
      rewrite <- (assoc (++)), <- (take_S_r _ _ _ Hf). apply IH; lia.
    + assert (j = length sf) as -> by lia. by rewrite firstn_all.
Qed.

(** X3. With no remote child every local name is a removal, and with no
    local file every remote child is an addition, each in the order given
    and for any list; nothing is common. *)
Theorem filter_children_actions_empty_side
    (l add0 remove0 common0 : list string) :
  _filter_children_actions [] l add0 remove0 common0
    = (add0, remove0 ++ l, common0)
  ∧ _filter_children_actions l [] add0 remove0 common0
    = (add0 ++ l, remove0, common0).
Proof.
  assert (∀ a r c, Diff.run [] l a r c
                   = Diff.State 0 (length l) a (r ++ l) c) as Hrun.
  { intros a r c. unfold Diff.run.
    rewrite <- (app_nil_r r) at 1.
    by apply (diff_loop_no_children l _ 0); simpl; lia. }
  split.
  - unfold _filter_children_actions. by rewrite Hrun.
  - unfold _filter_children_actions, Diff.run.
    change (Diff.State 0 0 add0 remove0 common0)
      with (diff_swap (Diff.State 0 0 remove0 add0 common0)).
    rewrite diff_loop_swap. rewrite (Nat.add_comm (length l)).
    fold (Diff.run [] l remove0 add0 common0). by rewrite Hrun.
Qed.

(** ** The diff as [_children_watch] calls it *)

Lemma sorted_le_at_after (l : list string) i c x :
  StronglySorted String.le l → l !! i = Some c → x ∈ drop i l →
  String.le c x.
Proof.
  intros Hs Hi Hx. rewrite (drop_S _ _ _ Hi) in Hx.
  apply elem_of_cons in Hx as [->|Hx]; [done|].
  rewrite <- (take_drop (S i) l) in Hs.
  eapply StronglySorted_app_1_elem_of; [done| |done].
  rewrite (take_S_r _ _ _ Hi). set_solver.
Qed.

Lemma str_lt_le_ne (a b c : string) : str_lt a b → String.le b c → a ≠ c.
Proof.
  intros [Hab Hne]%str_lt_le Hbc ->. apply Hne.
  by apply (anti_symm String.le).
Qed.

Section guards.
Variables sc sf remove0 : list string.
Hypothesis sc_sorted : StronglySorted String.le sc.
Hypothesis sf_sorted : StronglySorted str_lt sf.

Lemma passed_not_at st f :
  diff_guards sc sf remove0 st → sf !! Diff.file_idx st = Some f →
  f ∉ take (Diff.child_idx st) sc.
Proof.
  intros (_ & _ & Hlow & _) Hf Hin.
  apply (irreflexivity str_lt f), Hlow; [done|].
  rewrite (drop_S _ _ _ Hf). left.
Qed.

Lemma guards_remove st f :
  diff_guards sc sf remove0 st → sf !! Diff.file_idx st = Some f →
  (∀ c, sc !! Diff.child_idx st = Some c → str_lt f c) →
  diff_guards sc sf remove0
    (Diff.State (Diff.child_idx st) (S (Diff.file_idx st))
       (Diff.add st) (Diff.remove st ++ [f]) (Diff.common st)).
Proof.
  intros Hinv Hf Hc. pose proof (passed_not_at _ _ Hinv Hf) as Hpassed.
  destruct Hinv as (Hi & Hj & Hlow & Hrem).
  unfold diff_guards; simpl. split_and!; [done| | |].
  - apply lookup_lt_Some in Hf. lia.
  - intros x y Hx Hy. apply Hlow; [done|].
    rewrite (drop_S _ _ _ Hf). by right.
  - intros g [Hg|Hg%list_elem_of_singleton]%elem_of_app; [by apply Hrem|].
    subst g. right. rewrite (elem_of_split_at sc (Diff.child_idx st)).
    intros [Hin|Hin]; [done|].
    destruct (sc !! Diff.child_idx st) as [c|] eqn:Ec.
    + eapply (str_lt_le_ne f c f); [by apply Hc| |done].
      by eapply sorted_le_at_after.
    + apply lookup_ge_None in Ec. rewrite drop_ge in Hin by done.
      by apply elem_of_nil in Hin.
Qed.

Lemma guards_add st c add' :
  diff_guards sc sf remove0 st → sc !! Diff.child_idx st = Some c →
  (∀ y, y ∈ drop (Diff.file_idx st) sf → str_lt c y) →
  diff_guards sc sf remove0
    (Diff.State (S (Diff.child_idx st)) (Diff.file_idx st)
       add' (Diff.remove st) (Diff.common st)).
Proof.
  intros (Hi & Hj & Hlow & Hrem) Hc Hbelow.
  unfold diff_guards; simpl. split_and!; [|done| |done].
  - apply lookup_lt_Some in Hc. lia.
  - intros x y Hx Hy. rewrite (take_S_r _ _ _ Hc) in Hx.
    apply elem_of_app in Hx as [Hx|Hx%list_elem_of_singleton];
      [by apply Hlow|subst x; by apply Hbelow].
Qed.

Lemma guards_common st c :
  diff_guards sc sf remove0 st → sc !! Diff.child_idx st = Some c →
  sf !! Diff.file_idx st = Some c →
  diff_guards sc sf remove0
    (Diff.State (S (Diff.child_idx st)) (S (Diff.file_idx st))
       (Diff.add st) (Diff.remove st) (Diff.common st ++ [c])).
Proof.
  intros (Hi & Hj & Hlow & Hrem) Hc Hf.
  unfold diff_guards; simpl. split_and!; [| | |done].
  - apply lookup_lt_Some in Hc. lia.
  - apply lookup_lt_Some in Hf. lia.
  - intros x y Hx Hy. rewrite (take_S_r _ _ _ Hc) in Hx.
    apply elem_of_app in Hx as [Hx|Hx%list_elem_of_singleton].
    + apply Hlow; [done|]. rewrite (drop_S _ _ _ Hf). by right.
    + subst x. by eapply (sorted_at_after sf).
Qed.

Lemma diff_step_guards st st' :
  diff_guards sc sf remove0 st → Diff.step sc sf st = Some st' →
  diff_guards sc sf remove0 st'.
Proof.
  intros Hinv. pose proof Hinv as (Hi & Hj & _).
  unfold Diff.step. case_decide as Hcond; [|done].
  destruct (decide (Diff.child_idx st < length sc)) as [Hci|Hci];
    destruct (decide (Diff.file_idx st < length sf)) as [Hfi|Hfi].
  - destruct (lookup_lt_is_Some_2 _ _ Hci) as [c Hc].
    destruct (lookup_lt_is_Some_2 _ _ Hfi) as [f Hf].
    rewrite Hc, Hf.
    destruct (String.eqb c f) eqn:Eeq; [|destruct (String.ltb c f) eqn:Elt];
      intros [= <-].
    + apply str_eqb_true in Eeq as <-. by apply guards_common.
    + eapply guards_add; [done..|]. by eapply (below_drop sf).
    + apply guards_remove; [done..|]. intros c' Hc'.
      assert (c' = c) as -> by congruence. by apply str_trichotomy.
  - destruct (lookup_lt_is_Some_2 _ _ Hci) as [c Hc]. rewrite Hc.
    intros [= <-]. eapply guards_add; [done..|].
    intros y. rewrite drop_ge by lia. by rewrite elem_of_nil.
  - destruct (lookup_lt_is_Some_2 _ _ Hfi) as [f Hf]. rewrite Hf.
    intros [= <-]. apply guards_remove; [done..|].
    intros c Hc. apply lookup_lt_Some in Hc. lia.
  - lia.
Qed.

Lemma diff_loop_guards fuel st :
  diff_guards sc sf remove0 st →
  diff_guards sc sf remove0 (Diff.loop sc sf fuel st).
Proof.
  revert st. induction fuel as [|fuel IH]; intros st Hinv; simpl; [done|].
  destruct (Diff.step sc sf st) as [st'|] eqn:Est; [|done].
  eapply IH, diff_step_guards; done.
Qed.
End guards.

Lemma StronglySorted_sublist {A} (R : relation A) (l k : list A) :
  sublist l k → StronglySorted R k → StronglySorted R l.
Proof.
  induction 1 as [|x l k Hlk IH|x l k Hlk IH]; intros Hk; [done|..].
  - apply StronglySorted_inv in Hk as [Hk Hx]. constructor; [by apply IH|].
    rewrite Forall_forall in Hx |- *. intros y Hy. apply Hx.
    by eapply sublist_subseteq.
  - apply StronglySorted_inv in Hk as [Hk _]. by apply IH.
Qed.

(** The removals of a diff of sorted remote names against sorted local names
    without repeats are no remote names. *)
Lemma filter_children_actions_removals sc sf add remove common :
  Sorted String.le sc → Sorted String.le sf → NoDup sf →
  _filter_children_actions sc sf [] [] [] = (add, remove, common) →
  ∀ f, f ∈ remove → f ∉ sc.
Proof.
  intros Hsc Hsf Hnd. unfold _filter_children_actions, Diff.run.
  intros [= <- <- <-] f Hf.
  destruct (diff_loop_guards sc sf []
              (Sorted_StronglySorted _ _ Hsc) (Sorted_le_NoDup_lt _ Hsf Hnd)
              (length sc + length sf) (Diff.State 0 0 [] [] []))
    as (_ & _ & _ & Hrem).
  { unfold diff_guards; simpl. split_and!; [lia..| |].
    - intros x y Hx. by apply elem_of_nil in Hx.
    - intros g Hg. by apply elem_of_nil in Hg. }
  destruct (Hrem f Hf) as [?%elem_of_nil|?]; done.
Qed.


(** ** The atomic writer, on any destination *)

Lemma mkstemp_inner_name dir pre candidates m file rest :
  mkstemp_inner dir pre candidates m = Some (file, rest) →
  ∃ name, name ∈ candidates ∧ file = os_path_join dir (pre +:+ name).
Proof.
  induction candidates as [|name l IH]; simpl; [done|].
  case_bool_decide.
  - intros [= <- <-]. exists name. split; [left|done].
  - intros (n & Hn & ->)%IH. exists n. split; [by right|done].
Qed.

(** X5. A call of [write_data], whatever the destination, the faults and
    [raise_err], ends in one of three ways: it returns with the whole new
    file at the destination and nothing else changed (no temporary file is
    left); or it raises before a temporary file exists, and no file
    changed; or every entry that existed is as it was and one new temporary
    file, [.tmp] and a drawn name in the destination's directory, is left
    behind, which after a swallowed rename failure holds the whole new
    file. *)
Theorem write_data_outcomes (w : World) (fpath : string)
    (data : option string) (modified : Z) (raise_err : bool) :
  let r := result (write_data fpath data modified raise_err) w in
  let w' := exec (write_data fpath data modified raise_err) w in
  let written := File (default "" data) modified 420%N in
  (r = Ok tt ∧ fs w' = <[fpath := written]> (fs w))
  ∨ (r ≠ Ok tt ∧ fs w' = fs w)
  ∨ (∃ name entry,
       let temp := os_path_join (os_path_dirname fpath) (".tmp" +:+ name) in
       name ∈ names w ∧ fs w !! temp = None
       ∧ fs w' = <[temp := entry]> (fs w)
       ∧ (r = Ok tt → raise_err = false ∧ entry = written)).
Proof.
  intros r w' written. subst r w' written.
  unfold write_data, next_fault, named_temporary_file, temp_write, os_fchmod,
    os_utime, os_rename, result, exec.
  run_unfold. simpl.
  destruct (faults w) as [|[flt|] faults']; simpl;
    try (destruct flt; simpl); try (right; left; by split);
    (destruct (mkstemp_inner _ _ _ _) as [[temp rest]|] eqn:Etemp; simpl;
     [pose proof (mkstemp_inner_fresh _ _ _ _ _ _ Etemp) as Hfresh;
      apply mkstemp_inner_name in Etemp as (name & Hname & ->)
     |right; left; by split]);
    (destruct data as [d|]; simpl; [case_bool_decide; simpl; subst|]);
    repeat (rewrite ?lookup_insert_eq; simpl);
    try (destruct (_ !! fpath) as [[c0 t0 m0|]|] eqn:Edst; simpl);
    try (destruct raise_err; simpl);
    rewrite ?insert_insert_eq, ?delete_insert_eq, ?(delete_id _ _ Hfresh);
    try (left; by split);
    right; right; exists name; eexists; (split; [done|]);
    (split; [done|]); (split; [reflexivity|]); by intros.
Qed.

(** X6. [raise_err] decides nothing but whether a failed rename is raised
    again: the two runs end in the same world, trace included, and return
    the same unless the rename failed, which is then logged, raised under
    [raise_err=True] and swallowed under [raise_err=False].  A failure
    before the rename (at the creation, in the middle of the write, at
    [fchmod], at [utime]) raises under [raise_err=False] as well. *)
Theorem write_data_best_effort (w : World) (fpath : string)
    (data : option string) (modified : Z) :
  let strict := write_data fpath data modified true in
  let lax := write_data fpath data modified false in
  exec lax w = exec strict w
  ∧ (result lax w = result strict w
     ∨ (result lax w = Ok tt ∧ result strict w = Raise OSError
        ∧ ∃ evs temp,
            log (exec strict w) = evs ++ [rename_error temp fpath]))
  ∧ (∀ flt, injected w = Some flt → flt ≠ FailRename →
       (∀ n, flt = FailWrite n → default "" data ≠ "") →
       ∃ e, result lax w = Raise e ∧ is_OSError e = true).
Proof.
  intros strict lax. subst strict lax.
  unfold write_data, next_fault, named_temporary_file, temp_write, os_fchmod,
    os_utime, os_rename, result, exec, rename_error, injected.
  run_unfold. simpl.
  destruct (faults w) as [|[flt|] faults']; simpl;
    try (destruct flt; simpl);
    try (split_and!; [done|by left|];
         first [done|intros ? [= <-] ? ?; first [done|by eexists]]);
    (destruct (mkstemp_inner _ _ _ _) as [[temp rest]|] eqn:Etemp; simpl;
     [|split_and!; [done|by left|];
       first [done|intros ? [= <-] ? ?; first [done|by eexists]]]);
    (destruct data as [d|]; simpl; [case_bool_decide; simpl; subst|]);
    repeat (rewrite ?lookup_insert_eq; simpl);
    try (destruct (_ !! fpath) as [[c0 t0 m0|]|] eqn:Edst; simpl);
    (split; [done|]);
    (split;
     [first [by left
            |right; split_and!; [done..|]; eexists _, temp;
             first [exact (eq_refl (_ ++ [_]))
                   |by rewrite <- (assoc (++))]]
     |first [done
            |intros ? [= <-] ? Hd;
             first [done|by destruct (Hd _ eq_refl)|by eexists]]]).
Qed.

(** ** The mirror path of a node *)

Lemma lstrip_slash_relative (s : string) :
  starts_with_slash (lstrip_slash s) = false.
Proof.
  induction s as [|c s IH]; [done|]. simpl.
  destruct (is_slash c) eqn:Ec; [done|]. simpl. by rewrite Ec.
Qed.

Lemma lstrip_slash_slash (s : string) :
  lstrip_slash ("/" +:+ s) = lstrip_slash s.
Proof. done. Qed.

Lemma lstrip_slash_all_slashes (s : string) :
  all_slashes s = true → lstrip_slash s = "".
Proof.
  induction s as [|c s IH]; [done|]. simpl.
  destruct (is_slash c); [|done]. apply IH.
Qed.

(** X7. [fpath] strips the leading slashes of the node's path, so that
    [os.path.join] never takes it for an absolute path and drops the root:
    the mirror path is the root, a slash unless the root is empty or ends
    in one, and the stripped path.  A further leading slash changes
    nothing, and a path of slashes only maps to the root directory. *)
Theorem fpath_under_root (w : World) (zkpath : string) :
  let rel := lstrip_slash zkpath in
  starts_with_slash rel = false
  ∧ fpath zkpath w
    = (Ok (fsroot w
           +:+ (if bool_decide (fsroot w = "") || ends_with_slash (fsroot w)
                then "" else "/")
           +:+ rel), w)
  ∧ fpath ("/" +:+ zkpath) w = fpath zkpath w
  ∧ (all_slashes zkpath = true → rel = "").
Proof.
  intros rel. subst rel.
  pose proof (lstrip_slash_relative zkpath) as Hrel.
  split; [done|]. split; [|split].
  - unfold fpath. run_unfold. cbv beta iota.
    unfold os_path_join. rewrite Hrel.
    destruct (bool_decide (fsroot w = "") || ends_with_slash (fsroot w));
      [|done].
    by rewrite str_app_nil_l.
  - unfold fpath. run_unfold. cbv beta iota. by rewrite lstrip_slash_slash.
  - apply lstrip_slash_all_slashes.
Qed.

(** ** Renewing a data watch *)

#[global] Instance unwatch_step_preorder zkpath : PreOrder (unwatch_step zkpath).
Proof.
  split.
  - intros w. unfold unwatch_step. split_and!; try done; by left.
  - intros w1 w2 w3 (Hw1 & Hp1 & Hd1 & Hc1 & Hz1 & Hr1 & Hf1 & Hn1 & Hl1)
      (Hw2 & Hp2 & Hd2 & Hc2 & Hz2 & Hr2 & Hf2 & Hn2 & Hl2).
    unfold unwatch_step. split_and!; try congruence; [|by etrans].
    destruct Hw1 as [Hw1|Hw1], Hw2 as [Hw2|Hw2]; rewrite Hw2, Hw1;
      [by left|by right|by right|right; set_solver].
Qed.

Ltac unwatch_leaf :=
  let w := fresh "w" in
  intros w; unfold unwatch_step; world_simpl;
  split_and!; try done;
  first [by left|by right
        |by exists []; rewrite app_nil_r
        |by eexists [_]; split; [|repeat constructor]].

Lemma unwatch__data_watch zkpath data st event :
  steps (unwatch_step zkpath) (_data_watch zkpath data st event).
Proof. unfold _data_watch. steps_auto unwatch_leaf. Qed.

(** The end of [_data_watch]: the answer is whether the path is watched. *)
Lemma data_watch_answer zkpath data st event w r w' :
  _data_watch zkpath data st event w = (Ok r, w') →
  r = bool_decide (zkpath ∈ watches w').
Proof.
  unfold _data_watch. intros Hrun.
  apply bind_Ok_inv in Hrun as (p & w0 & _ & Hrun).
  apply bind_Ok_inv in Hrun as (u & w1 & _ & Hrun).
  revert Hrun. run_unfold. cbv beta iota zeta. world_simpl.
  by intros [= <- <-].
Qed.

Lemma deliver_data_Ok_inv zkpath data st event w :
  zkpath ∈ data_subs w →
  result (deliver_data zkpath data st event) w = Ok tt →
  ∃ renew w1, _data_watch zkpath data st event w = (Ok renew, w1).
Proof.
  intros Hsub. unfold result, deliver_data. rewrite bind_run.
  unfold gets at 1. cbv beta iota. rewrite bool_decide_true by done.
  rewrite bind_run. unfold data_watch_callback, exit_on_unhandled, try_except.
  rewrite bind_run.
  destruct (_data_watch zkpath data st event w) as [[renew|e] w1];
    [by eexists _, _|].
  cbv beta iota. rewrite bind_run. unfold emit at 1, modify at 1.
  by cbv beta iota.
Qed.

(** X8. A data delivery never adds to [watches], drops at most the
    delivered path from it, leaves the other sets of the engine alone and
    calls the coordination service for nothing.  Its answer, when it
    returns, is whether the path is in [watches] afterwards: a path that is
    not watched gets [False] even when its data was written, so kazoo stops
    a watch that is still armed for it, and no later delivery reaches the
    engine. *)
Theorem data_watch_renew (w : World) (zkpath : string)
    (data : option string) (st : option stat) (event : option event_type) :
  let w' := exec (_data_watch zkpath data st event) w in
  let wd := exec (deliver_data zkpath data st event) w in
  unwatch_step zkpath w w'
  ∧ (∀ r, result (_data_watch zkpath data st event) w = Ok r →
       r = bool_decide (zkpath ∈ watches w')
       ∧ (zkpath ∉ watches w → r = false))
  ∧ (zkpath ∈ data_subs w → zkpath ∉ watches w →
     result (deliver_data zkpath data st event) w = Ok tt →
     (zkpath ∉ data_subs wd)
     ∧ ∀ data' st' event',
         deliver_data zkpath data' st' event' wd = (Ok tt, wd)).
Proof.
  intros w' wd. pose proof (unwatch__data_watch zkpath data st event w) as Hstep.
  fold w' in Hstep. split; [done|].
  assert (∀ r, result (_data_watch zkpath data st event) w = Ok r →
               r = bool_decide (zkpath ∈ watches w')
               ∧ (zkpath ∉ watches w → r = false)) as Hanswer.
  { intros r Hr.
    pose proof (run_eta (_data_watch zkpath data st event) w) as Hrun.
    rewrite Hr in Hrun. apply data_watch_answer in Hrun as ->.
    fold w'. split; [done|]. intros Hw. apply bool_decide_eq_false.
    destruct Hstep as ([->| ->] & _); set_solver. }
  split; [done|].
  intros Hsub Hw Hres.
  destruct (deliver_data_Ok_inv _ _ _ _ _ Hsub Hres) as (renew & w1 & Hrun).
  destruct (Hanswer renew) as [_ Hf];
    [by rewrite (run_result _ _ _ _ Hrun)|].
  specialize (Hf Hw). subst renew.
  subst wd. unfold exec. rewrite (deliver_data_run _ _ _ _ _ _ _ Hsub Hrun).
  cbn [snd]. cbv zeta.
  set (w2 := if ready w1 then bumped w1 else w1).
  split; [world_simpl; set_solver|].
  intros. apply deliver_data_stopped. world_simpl. set_solver.
Qed.

(** ** A data delivery that writes *)

Lemma data_watch_write_run w zkpath data st event :
  (data ≠ None ∨ event ≠ None) → event ≠ Some DELETED →
  _data_watch zkpath data st event w
  = (_write_data (os_path_join (fsroot w) (lstrip_slash zkpath)) data st ;;
     ws <- gets watches ;;
     let renew := bool_decide (zkpath ∈ ws) in
     emit (Logged INFO ("Renew watch on " +:+ zkpath +:+ " - "
                        +:+ pybool renew)) ;;
     ret renew) w.
Proof.
  intros Hsome Hdel. unfold _data_watch, fpath. rewrite bind_run.
  unfold bind at 1, gets at 1, ret at 1. cbv beta iota.
  destruct data, event as [[]|]; try done. by destruct Hsome.
Qed.

(** A delivery that writes and returns has put the delivered data in
    place, with the remote time, and answers whether the path is watched. *)
Lemma data_watch_write_ok w zkpath data st event r w1 :
  (data ≠ None ∨ event ≠ None) → event ≠ Some DELETED →
  _data_watch zkpath data (Some st) event w = (Ok r, w1) →
  let p := os_path_join (fsroot w) (lstrip_slash zkpath) in
  fs w1 = <[p := File (default "" data) (last_modified st) 420%N]> (fs w)
  ∧ watches w1 = watches w
  ∧ r = bool_decide (zkpath ∈ watches w)
  ∧ ∃ temp,
      log w1
      = log w ++ write_events temp p data (last_modified st)
          ++ [Logged INFO ("Renew watch on " +:+ zkpath +:+ " - "
                           +:+ pybool r)].
Proof.
  intros Hsome Hdel Hrun p.
  rewrite (data_watch_write_run _ _ _ _ _ Hsome Hdel) in Hrun. fold p in Hrun.
  rewrite bind_run in Hrun. unfold _write_data in Hrun.
  destruct (write_data p data (last_modified st) true w)
    as [[[]|e] w2] eqn:Hwrite; [|done].
  destruct (write_data_ok w p data (last_modified st))
    as (temp & rest & Hmk & Hw2); [by rewrite (run_result _ _ _ _ Hwrite)|].
  rewrite (run_exec _ _ _ _ Hwrite) in Hw2.
  revert Hrun. run_unfold. cbv beta iota zeta. intros [= <- <-].
  rewrite Hw2. world_simpl. split_and!; [done..|].
  exists temp. by rewrite <- app_assoc.
Qed.

(** X9. A data delivery that does not delete (data or an event is there,
    and the event is no deletion) and returns has replaced the mirror file,
    through one atomic write, by the delivered data stamped with the remote
    [last_modified] and mode [0644]; no other file changed, [watches] is as
    it was, and the answer is whether the path is watched. *)
Theorem data_watch_write_through (w : World) (zkpath : string)
    (data : option string) (st : stat) (event : option event_type)
    (r : bool) :
  let p := os_path_join (fsroot w) (lstrip_slash zkpath) in
  let w' := exec (_data_watch zkpath data (Some st) event) w in
  (data ≠ None ∨ event ≠ None) → event ≠ Some DELETED →
  result (_data_watch zkpath data (Some st) event) w = Ok r →
  fs w' = <[p := File (default "" data) (last_modified st) 420%N]> (fs w)
  ∧ watches w' = watches w
  ∧ r = bool_decide (zkpath ∈ watches w)
  ∧ ∃ temp,
      log w'
      = log w ++ write_events temp p data (last_modified st)
          ++ [Logged INFO ("Renew watch on " +:+ zkpath +:+ " - "
                           +:+ pybool r)].
Proof.
  intros p w' Hsome Hdel Hres. subst w'.
  pose proof (run_eta (_data_watch zkpath data (Some st) event) w) as Hrun.
  rewrite Hres in Hrun.
  exact (data_watch_write_ok _ _ _ _ _ _ _ Hsome Hdel Hrun).
Qed.

Lemma data_watch_write_through_witness :
  let run := _data_watch "/cell/servers/host2" (Some "C") (Some (Stat 30))
               (Some CHANGED) in
  result run w_watched = Ok true
  ∧ fs (exec run w_watched)
    = <["/mirror/cell/servers/host2" := File "C" 30 420%N]> (fs w_watched).
Proof.
  intros run. subst run.
  assert (result (_data_watch "/cell/servers/host2" (Some "C")
                    (Some (Stat 30)) (Some CHANGED)) w_watched = Ok true)
    as Hres by (vm_compute; reflexivity).
  split; [exact Hres|].
  destruct (data_watch_write_through w_watched "/cell/servers/host2"
              (Some "C") (Stat 30) (Some CHANGED) true) as (Hfs & _);
    [by left|done|exact Hres|exact Hfs].
Defined.

(** ** Synchronising a watched path *)

Lemma sync_data_watched_run w zkpath :
  zkpath ∈ watches w →
  sync_data zkpath w
  = match data_watch_callback zkpath (first_delivery w zkpath).1
            (first_delivery w zkpath).2 None
            (set_log (λ l, l ++ [ZkDataWatch zkpath]) w) with
    | (Ok renew, w1) =>
        (Ok tt, set_data_subs (if renew then union {[zkpath]}
                               else λ s, s ∖ {[zkpath]}) w1)
    | (Raise e, w1) => (Raise e, w1)
    end.
Proof.
  intros Hw. unfold sync_data. rewrite bind_run. unfold gets at 1.
  cbv beta iota. rewrite bool_decide_true by done.
  unfold zk_DataWatch, first_delivery. rewrite bind_run.
  unfold emit at 1, modify at 1. cbv beta iota.
  rewrite bind_run. unfold gets at 1. cbv beta iota. world_simpl.
  rewrite bind_run.
  destruct (zk w !! zkpath) as [n|]; cbn [fst snd];
    (destruct (data_watch_callback _ _ _ _ _) as [[[]|e] w1]; [| |done]);
    by unfold modify.
Qed.

Lemma unwatch_data_watch_callback zkpath data st event :
  steps (unwatch_step zkpath) (data_watch_callback zkpath data st event).
Proof.
  unfold data_watch_callback, exit_on_unhandled.
  apply steps_try_except; [exact _| |].
  - apply steps_bind; [exact _|apply unwatch__data_watch|intros renew].
    steps_auto unwatch_leaf.
  - intros e h [= <-]. steps_auto unwatch_leaf.
Qed.

Lemma data_watch_callback_Ok_inv zkpath data st event w renew w2 :
  data_watch_callback zkpath data st event w = (Ok renew, w2) →
  ∃ w1, _data_watch zkpath data st event w = (Ok renew, w1)
    ∧ w2 = if ready w1 then bumped w1 else w1.
Proof.
  unfold data_watch_callback, exit_on_unhandled, try_except.
  rewrite bind_run.
  destruct (_data_watch zkpath data st event w) as [[r|e] w1] eqn:Hrun.
  - cbv beta iota. rewrite bind_run, update_last_run. cbv beta iota.
    unfold ret. intros [= <- <-]. by exists w1.
  - cbv beta iota. rewrite bind_run. unfold emit at 1, modify at 1.
    by cbv beta iota.
Qed.

(** X10. [sync_data] on a watched path makes one [DataWatch] and no other
    call to the coordination service, and leaves [processed_once] and the
    children watches alone.  When the node is missing, or holds no data,
    the first delivery takes it for a missing node: the path leaves
    [watches], its watch is not armed and its mirror file is removed.  When
    the node holds data and the call returns, the watch is armed, [watches]
    is as it was and the mirror file holds the data with the remote
    time. *)
Theorem sync_data_watched (w : World) (zkpath : string) :
  zkpath ∈ watches w →
  let p := os_path_join (fsroot w) (lstrip_slash zkpath) in
  let marker := os_path_join (fsroot w) ".modified" in
  let w' := exec (sync_data zkpath) w in
  (∃ evs, log w' = log w ++ ZkDataWatch zkpath :: evs
     ∧ Forall (λ ev, is_zk_call ev = false) evs)
  ∧ processed_once w' = processed_once w
  ∧ children_subs w' = children_subs w
  ∧ ((first_delivery w zkpath).1 = None → fs w !! p ≠ Some Dir →
     result (sync_data zkpath) w = Ok tt
     ∧ watches w' = watches w ∖ {[zkpath]}
     ∧ data_subs w' = data_subs w ∖ {[zkpath]}
     ∧ (p ≠ marker ∨ ready w = false → fs w' !! p = None))
  ∧ (∀ n d, zk w !! zkpath = Some n → zdata n = Some d →
       result (sync_data zkpath) w = Ok tt →
       watches w' = watches w
       ∧ data_subs w' = {[zkpath]} ∪ data_subs w
       ∧ (p ≠ marker ∨ ready w = false →
          fs w' !! p = Some (File d (last_modified (zstat n)) 420%N))).
Proof.
  intros Hw p marker w'. subst w'. unfold result, exec.
  rewrite (sync_data_watched_run _ _ Hw).
  set (w0 := set_log (λ l, l ++ [ZkDataWatch zkpath]) w).
  set (d0 := (first_delivery w zkpath).1).
  set (s0 := (first_delivery w zkpath).2).
  pose proof (unwatch_data_watch_callback zkpath d0 s0 None w0)
    as (_ & Hp & _ & Hc & _ & _ & _ & _ & evs & Hl & Hevs).
  unfold exec in *. change (log w0) with (log w ++ [ZkDataWatch zkpath]) in Hl.
  split_and!.
  - exists evs. split; [|done].
    destruct (data_watch_callback zkpath d0 s0 None w0) as [[[]|e] w1];
      cbn [snd] in *; world_simpl; by rewrite Hl, <- app_assoc.
  - destruct (data_watch_callback zkpath d0 s0 None w0) as [[[]|e] w1];
      cbn [snd] in *; by world_simpl.
  - destruct (data_watch_callback zkpath d0 s0 None w0) as [[[]|e] w1];
      cbn [snd] in *; by world_simpl.
  - intros Hnone Hdir. clear Hp Hc Hl Hevs evs. subst d0. rewrite Hnone.
    destruct (data_watch_delete_run w0 zkpath None s0 None)
      as (w1 & Hrun & Hw1 & Hfs1 & Hd1 & Hr1 & Hf1); [done|by left|].
    rewrite (data_watch_callback_run _ _ _ _ _ _ _ Hrun). cbn [fst snd].
    change (fsroot w0) with (fsroot w) in *.
    change (ready w0) with (ready w) in *. fold p in Hfs1.
    set (w2 := if ready w1 then bumped w1 else w1).
    assert (watches w2 = watches w1 ∧ data_subs w2 = data_subs w1)
      as [Hw2 Hd2] by (subst w2; by destruct (ready w1)).
    world_simpl. rewrite Hw2, Hd2, Hw1, Hd1.
    split_and!; [done..|]. intros Hcase. subst w2.
    destruct (ready w1) eqn:Er1.
    + destruct Hcase as [Hne|Hnr]; [|congruence].
      unfold bumped. world_simpl. rewrite Hf1.
      fold marker. rewrite lookup_insert_ne by done.
      rewrite Hfs1. apply lookup_delete_eq.
    + rewrite Hfs1. apply lookup_delete_eq.
  - intros n d Hn Hd. clear Hp Hc Hl Hevs evs.
    assert (d0 = Some d ∧ s0 = Some (zstat n)) as [-> ->]
      by (subst d0 s0; unfold first_delivery; by rewrite Hn, Hd).
    destruct (data_watch_callback zkpath (Some d) (Some (zstat n)) None w0)
      as [[renew|e] w2] eqn:Hcb; [|done].
    intros _. cbn [snd].
    apply data_watch_callback_Ok_inv in Hcb as (w1 & Hrun & ->).
    destruct (data_watch_write_ok w0 zkpath (Some d) (zstat n) None renew w1)
      as (Hfs1 & Hw1 & Hrenew & _); [by left|done|done|].
    change (watches w0) with (watches w) in *.
    change (fsroot w0) with (fsroot w) in *. change (fs w0) with (fs w) in *.
    fold p in Hfs1. rewrite bool_decide_true in Hrenew by done. subst renew.
    pose proof (unwatch__data_watch zkpath (Some d) (Some (zstat n)) None w0)
      as (_ & _ & Hd1 & _ & _ & Hr1 & Hf1 & _).
    unfold exec in Hd1, Hr1, Hf1. rewrite Hrun in Hd1, Hr1, Hf1.
    cbn [snd] in Hd1, Hr1, Hf1.
    change (ready w0) with (ready w) in *.
    set (w2 := if ready w1 then bumped w1 else w1).
    assert (watches w2 = watches w1 ∧ data_subs w2 = data_subs w1)
      as [Hw2 Hd2] by (subst w2; by destruct (ready w1)).
    world_simpl. rewrite Hw2, Hd2, Hw1, Hd1.
    split_and!; [done..|]. intros Hcase. subst w2.
    destruct (ready w1) eqn:Er1.
    + destruct Hcase as [Hne|Hnr]; [|congruence].
      unfold bumped. world_simpl. rewrite Hf1.
      fold marker. rewrite lookup_insert_ne by done.
      rewrite Hfs1. apply lookup_insert_eq.
    + rewrite Hfs1. apply lookup_insert_eq.
Qed.

Lemma sync_data_watched_witness :
  let w' := exec (sync_data "/cell/servers/host2") w_watched in
  watches w' = watches w_watched
  ∧ data_subs w' = {["/cell/servers/host2"]} ∪ data_subs w_watched
  ∧ fs w' !! "/mirror/cell/servers/host2" = Some (File "B" 20 420%N).
Proof.
  intros w'. subst w'.
  destruct (sync_data_watched w_watched "/cell/servers/host2")
    as (_ & _ & _ & _ & Hwrite).
  - by apply (bool_decide_unpack _); vm_compute.
  - destruct (Hwrite (ZNode (Some "B") (Stat 20) []) "B")
      as (Hw & Hd & Hfs); [vm_compute; reflexivity|reflexivity
                          |vm_compute; reflexivity|].
    split; [exact Hw|]. split; [exact Hd|]. apply Hfs. by right.
Defined.

(** ** The parents reconciled *)

#[global] Instance records_preorder : PreOrder records.
Proof. split; unfold records; [by intros w|intros w1 w2 w3; set_solver]. Qed.

Ltac records_leaf :=
  let w := fresh "w" in
  intros w; unfold records; world_simpl; set_solver.

Lemma records_sync_data zkpath : steps records (sync_data zkpath).
Proof.
  unfold sync_data, zk_DataWatch, data_watch_callback, _data_watch.
  steps_auto records_leaf.
Qed.

Lemma records__default_on_del zkpath : steps records (_default_on_del zkpath).
Proof. steps_auto records_leaf. Qed.

Section records.
Variables (zkpath : string) (watch_data : bool).
Variables on_add on_del : string → M unit.
Variable cont : option (string → list string → bool).
Hypothesis on_add_records : ∀ zknode, steps records (on_add zknode).
Hypothesis on_del_records : ∀ zknode, steps records (on_del zknode).

Lemma records__children_watch children :
  steps records (_children_watch zkpath children watch_data on_add on_del cont).
Proof.
  unfold _children_watch. repeat (steps_step records_leaf || done).
Qed.

Lemma children_watch_recorded children w r w' :
  _children_watch zkpath children watch_data on_add on_del cont w = (Ok r, w') →
  zkpath ∈ processed_once w' ∧ r = cont_eff cont zkpath children.
Proof.
  destruct (children_actions (os_path_join (fsroot w) (lstrip_slash zkpath))
              children (fs w)) as [[add remove] common] eqn:Hact.
  rewrite (children_watch_run _ _ _ _ _ _ _ _ _ _ Hact). intros Hrun.
  apply bind_Ok_inv in Hrun as ([] & w1 & _ & Hrun).
  rewrite bind_run in Hrun. unfold gets at 1 in Hrun. cbv beta iota in Hrun.
  apply bind_Ok_inv in Hrun as ([] & w2 & Hseen & Hrun).
  assert (zkpath ∈ processed_once w2) as Hin.
  { destruct (bool_decide (zkpath ∈ processed_once w1)) eqn:Eseen; simpl in Hseen.
    - apply bool_decide_eq_true in Eseen. unfold ret in Hseen.
      by injection Hseen as <-.
    - rewrite bind_run in Hseen. unfold modify at 1 in Hseen.
      cbv beta iota in Hseen.
      assert (steps records (for_each common (λ node,
                emit (Logged INFO ("Common: " +:+ node)) ;;
                let zknode := join_zookeeper_path zkpath node in
                when watch_data (modify (set_watches (union {[zknode]}))) ;;
                on_add zknode))) as Hloop
        by (repeat (steps_step records_leaf || done)).
      specialize (Hloop (set_processed_once (union {[zkpath]}) w1)).
      unfold exec in Hloop. rewrite Hseen in Hloop. cbn [snd] in Hloop.
      apply Hloop. world_simpl. set_solver. }
  apply bind_Ok_inv in Hrun as ([] & w3 & Hadd & Hrun).
  assert (steps records (for_each add (λ node,
            emit (Logged INFO ("Add: " +:+ node)) ;;
            let zknode := join_zookeeper_path zkpath node in
            when watch_data (modify (set_watches (union {[zknode]}))) ;;
            on_add zknode))) as Hloop
    by (repeat (steps_step records_leaf || done)).
  specialize (Hloop w2). unfold exec in Hloop. rewrite Hadd in Hloop.
  cbn [snd] in Hloop.
  unfold cont_eff. destruct cont as [c|]; unfold ret in Hrun;
    injection Hrun as <- <-; (split; [by apply Hloop|done]).
Qed.
End records.

(** X11. [_children_watch] never shrinks [processed_once], its callbacks
    being any that do not; when it returns, the parent is in
    [processed_once], and its answer is that of [cont_watch_predicate] on
    the path and the sorted children, or [True] without a predicate. *)
Theorem children_watch_records (w : World) (zkpath : string)
    (children : list string) (watch_data : bool)
    (on_add on_del : string → M unit)
    (cont : option (string → list string → bool)) :
  (∀ zknode, steps records (on_add zknode)) →
  (∀ zknode, steps records (on_del zknode)) →
  let run := _children_watch zkpath children watch_data on_add on_del cont in
  processed_once w ⊆ processed_once (exec run w)
  ∧ (∀ r, result run w = Ok r →
       zkpath ∈ processed_once (exec run w)
       ∧ r = from_option (λ c, c zkpath (sorted children)) true cont).
Proof.
  intros Ha Hd run. split.
  - by apply records__children_watch.
  - intros r Hr. pose proof (run_eta run w) as Hrun. rewrite Hr in Hrun.
    by apply (children_watch_recorded zkpath watch_data on_add on_del cont
                Ha Hd children w r _) in Hrun.
Qed.

Lemma children_watch_records_witness :
  let w := init "/mirror" (env0 zk_example 100) in
  let run := _children_watch "/cell/servers" ["host2"; "host1"] true
               _default_on_add _default_on_del None in
  processed_once w ⊆ processed_once (exec run w)
  ∧ result run w = Ok true
  ∧ "/cell/servers" ∈ processed_once (exec run w).
Proof.
  intros w run.
  destruct (children_watch_records w "/cell/servers" ["host2"; "host1"] true
              _default_on_add _default_on_del None) as [Hmono Hres].
  - intros n. apply records_sync_data.
  - intros n. apply records__default_on_del.
  - assert (result run w = Ok true) as Hr by (vm_compute; reflexivity).
    split; [exact Hmono|]. split; [exact Hr|]. by apply (Hres true).
Defined.

(** ** Once the done file is written *)

Lemma touch_exists p w : is_Some (fs (exec (touch p) w) !! p).
Proof.
  unfold touch, exec. run_unfold. simpl.
  destruct (fs w !! p) as [[c t m|]|] eqn:Ep; simpl;
    rewrite ?lookup_insert_eq, ?Ep; by eexists.
Qed.

(** The answer of [_children_watch] is that of [cont_watch_predicate] on the
    sorted children, whatever the callbacks do. *)
Lemma children_watch_answer zkpath children wd on_add on_del cont w r w' :
  _children_watch zkpath children wd on_add on_del cont w = (Ok r, w') →
  r = cont_eff cont zkpath children.
Proof.
  destruct (children_actions (os_path_join (fsroot w) (lstrip_slash zkpath))
              children (fs w)) as [[add remove] common] eqn:Hact.
  rewrite (children_watch_run _ _ _ _ _ _ _ _ _ _ Hact). intros Hrun.
  apply bind_Ok_inv in Hrun as ([] & w1 & _ & Hrun).
  apply bind_Ok_inv in Hrun as (seen & w1' & _ & Hrun).
  apply bind_Ok_inv in Hrun as ([] & w2 & _ & Hrun).
  apply bind_Ok_inv in Hrun as ([] & w3 & _ & Hrun).
  unfold cont_eff. destruct cont; unfold ret in Hrun; by injection Hrun as <-.
Qed.

(** With the done file in place [sync_children] returns without a call to
    the coordination service. *)
Lemma sync_children_short_circuit w zkpath wd on_add on_del need cont :
  let p := os_path_join (fsroot w) (lstrip_slash zkpath) in
  let run := sync_children zkpath wd on_add on_del need cont in
  is_Some (fs w !! os_path_join p ".done") →
  result run w = Ok tt
  ∧ ∃ evs, log (exec run w) = log w ++ evs ∧ filter is_zk_call evs = [].
Proof.
  intros p run Hdone. subst run.
  unfold sync_children, result, exec, fpath, mkdir_safe, os_path_exists.
  run_unfold. simpl. fold p.
  destruct (fs w !! p) as [n|] eqn:Ep; simpl.
  - rewrite bool_decide_true by done. simpl.
    split; [done|]. eexists. rewrite <- (assoc (++)). by split.
  - rewrite bool_decide_true; simpl.
    + split; [done|]. eexists. rewrite <- !(assoc (++)). by split.
    + destruct Hdone as [n Hn]. rewrite lookup_insert_ne; [by rewrite Hn|].
      intros Heq. rewrite <- Heq in Hn. congruence.
Qed.

(** X12. A call of [sync_children] that returns with both predicates
    saying no has written the done file, whatever the callbacks did before
    (they keep the mirror root); and from then on every call of
    [sync_children] on the path, with any arguments, returns without a call
    to the coordination service. *)
Theorem sync_children_done_sticks (w : World) (zkpath : string)
    (watch_data : bool) (on_add on_del : option (string → M unit))
    (need : string → bool) (cont : string → list string → bool) :
  let p := os_path_join (fsroot w) (lstrip_slash zkpath) in
  let done_file := os_path_join p ".done" in
  let run := sync_children zkpath watch_data on_add on_del (Some need)
               (Some cont) in
  (∀ n, emits any_event (default _default_on_add on_add n)) →
  (∀ n, emits any_event (default _default_on_del on_del n)) →
  fs w !! done_file = None →
  need zkpath = false →
  cont zkpath (sorted (remote_children w zkpath)) = false →
  result run w = Ok tt →
  is_Some (fs (exec run w) !! done_file)
  ∧ ∀ watch_data' on_add' on_del' need' cont',
      let again := sync_children zkpath watch_data' on_add' on_del' need'
                     cont' in
      result again (exec run w) = Ok tt
      ∧ ∃ evs, log (exec again (exec run w)) = log (exec run w) ++ evs
          ∧ filter is_zk_call evs = [].
Proof.
  intros p done_file run Ha Hd Hnone Hneed Hcont Hres. subst run.
  assert (fsroot (exec (sync_children zkpath watch_data on_add on_del
                          (Some need) (Some cont)) w) = fsroot w) as Hroot.
  { by destruct (emits_sync_children any_event (λ _ _ _ _, I) (λ _, I)
                   (λ _ _ _, I) (λ _ _ _, I) zkpath watch_data on_add on_del
                   (Some need) (Some cont) Ha Hd w) as (_ & ? & _). }
  assert (is_Some (fs (exec (sync_children zkpath watch_data on_add on_del
                               (Some need) (Some cont)) w) !! done_file))
    as Hdone.
  { clear Hroot.
    destruct (sync_children_found_none w zkpath watch_data on_add on_del
                (Some need) (Some cont) Hnone)
      as (w1 & pre & Heq & _ & _ & _ & Hzk & _).
    fold p done_file in Heq.
    pose proof (run_eta (sync_children zkpath watch_data on_add on_del
                           (Some need) (Some cont)) w) as Hrun.
    rewrite Hres in Hrun. set (wf := exec _ w) in *. clearbody wf.
    rewrite Heq in Hrun. clear Heq Hres.
    unfold sync_children_undone in Hrun. cbv zeta in Hrun.
    rewrite Hneed in Hrun.
    apply bind_Ok_inv in Hrun as (nw & wa & Hnw & Hrun).
    revert Hnw. run_unfold. cbv beta iota. intros [= <- <-].
    apply bind_Ok_inv in Hrun as (nw & wb & Hbranch & Hfinal).
    apply bind_Ok_inv in Hbranch as (children & wc & Hfetch & Hbranch).
    rewrite fetch_children_run in Hfetch. injection Hfetch as <- <-.
    apply bind_Ok_inv in Hbranch as (r & wd & Hcw & Hbranch).
    apply children_watch_answer in Hcw as Hr.
    unfold cont_eff, remote_children in Hr. cbn [from_option] in Hr.
    world_simpl. rewrite Hzk in Hr. fold (remote_children w zkpath) in Hr.
    rewrite Hcont in Hr. subst r.
    apply bind_Ok_inv in Hbranch as ([] & we & _ & Hbranch).
    apply bind_Ok_inv in Hbranch as ([] & wg & _ & Hbranch).
    unfold ret in Hbranch. injection Hbranch as <- <-.
    unfold when, negb in Hfinal.
    rewrite <- (run_exec _ _ _ _ Hfinal). apply touch_exists. }
  split; [done|].
  intros watch_data' on_add' on_del' need' cont' again. subst again.
  apply sync_children_short_circuit. rewrite Hroot. by fold p.
Qed.

Lemma sync_children_done_sticks_witness :
  let w := init "/mirror" (env0 zk_example 100) in
  let w' := exec (sync_children "/cell/servers" false None None
                    (Some (λ _, false)) (Some (λ _ _, false))) w in
  is_Some (fs w' !! "/mirror/cell/servers/.done")
  ∧ result (sync_children "/cell/servers" true None None None None) w'
    = Ok tt.
Proof.
  intros w w'. subst w'.
  destruct (sync_children_done_sticks w "/cell/servers" false None None
              (λ _, false) (λ _ _, false)) as [Hdone Hagain].
  - intros n. apply emits_sync_data; by intros.
  - intros n. apply emits__default_on_del. by intros.
  - reflexivity.
  - reflexivity.
  - reflexivity.
  - vm_compute. reflexivity.
  - split; [exact Hdone|]. apply (Hagain true None None None None).
Defined.

(** ** Without [watch_data] *)

#[global] Instance no_data_watch_preorder : PreOrder no_data_watch.
Proof.
  split.
  - intros w. by split_and!.
  - intros w1 w2 w3 (Hw1 & Hd1 & Hl1) (Hw2 & Hd2 & Hl2).
    split_and!; [congruence..|by etrans].
Qed.

Section steps_from.
Context (I : World → Prop) (R : relation World) `{!PreOrder R}.
Hypothesis stable : ∀ w w', I w → R w w' → I w'.

Lemma steps_from_steps {A} (m : M A) : steps R m → steps_from I R m.
Proof. intros Hm w _. apply Hm. Qed.

Lemma steps_from_bind {A B} (m : M A) (k : A → M B) :
  steps_from I R m → (∀ a, steps_from I R (k a)) →
  steps_from I R (bind m k).
Proof.
  intros Hm Hk w Hw. rewrite exec_bind. specialize (Hm w Hw).
  destruct (result m w) as [a|e]; [|done].
  etrans; [done|]. apply Hk. by eapply stable.
Qed.

Lemma steps_from_when b (m : M unit) :
  steps_from I R m → steps_from I R (when b m).
Proof. intros Hm. destruct b; [done|]. by intros w _. Qed.

Lemma steps_from_for_each {A} (l : list A) (body : A → M unit) :
  (∀ x, steps_from I R (body x)) → steps_from I R (for_each l body).
Proof.
  intros Hb. induction l as [|x l IH]; simpl; [by intros w _|].
  by apply steps_from_bind.
Qed.

Lemma steps_from_exit_on_unhandled {A} (m : M A) :
  steps R (emit (Logged ERROR "Unhandled exception - exiting.")) →
  steps_from I R m → steps_from I R (exit_on_unhandled m).
Proof.
  intros Hemit Hm w Hw. specialize (Hm w Hw).
  unfold exit_on_unhandled, try_except, exec in *.
  destruct (m w) as [[a|e] w1]; [done|]. cbn [snd] in *.
  etrans; [done|].
  assert (steps R (emit (Logged ERROR "Unhandled exception - exiting.") ;;
                   @raise A SystemExit)) as Hh.
  { apply steps_bind; [done|done|intros _]. by apply steps_raise. }
  apply Hh.
Qed.
End steps_from.

Ltac no_data_watch_leaf :=
  let w := fresh "w" in
  intros w; unfold no_data_watch; world_simpl;
  split; [done|]; split; [done|];
  first [by exists []; rewrite app_nil_r
        |by eexists [_]; split; [|repeat constructor]].

Lemma unwatched_all_stable w w' :
  unwatched_all w → no_data_watch w w' → unwatched_all w'.
Proof. unfold unwatched_all. intros Hw (Hw' & _). congruence. Qed.

Lemma no_data_watch_sync_data zkpath :
  steps_from unwatched_all no_data_watch (sync_data zkpath).
Proof.
  intros w Hw. unfold exec.
  rewrite sync_data_unwatched_run by (rewrite Hw; set_solver).
  assert (steps no_data_watch
            (r <- zk_get zkpath ;;
             _write_data (os_path_join (fsroot w) (lstrip_slash zkpath)) r.1
               (Some r.2) ;;
             _update_last)) as Hsteps by steps_auto no_data_watch_leaf.
  apply Hsteps.
Qed.

Lemma no_data_watch__default_on_del zkpath :
  steps no_data_watch (_default_on_del zkpath).
Proof. steps_auto no_data_watch_leaf. Qed.

Lemma no_data_watch_discard zknode :
  steps_from unwatched_all no_data_watch
    (modify (set_watches (λ s, s ∖ {[zknode]}))).
Proof.
  intros w Hw. unfold exec, modify, no_data_watch, unwatched_all in *.
  world_simpl. split; [rewrite Hw; set_solver|]. split; [done|].
  exists []. by rewrite app_nil_r.
Qed.

(** Takes apart a computation that starts with nothing watched. *)
Ltac from_step :=
  lazymatch goal with
  | |- steps_from _ _ (bind _ _) =>
      apply (steps_from_bind _ _ unwatched_all_stable); [|intros ?]
  | |- steps_from _ _ (for_each _ _) =>
      apply (steps_from_for_each _ _ unwatched_all_stable); intros ?
  | |- steps_from _ _ (when false _) =>
      apply steps_from_steps, steps_ret; exact _
  | |- steps_from _ _ (when _ _) => apply steps_from_when; [exact _|]
  | |- steps_from _ _ (exit_on_unhandled _) =>
      apply steps_from_exit_on_unhandled;
      [exact _|apply steps_modify; no_data_watch_leaf|]
  | |- steps_from _ _ (modify (set_watches _)) => apply no_data_watch_discard
  | |- steps_from _ _ (sync_data _) => apply no_data_watch_sync_data
  | |- steps_from _ _ (_default_on_add _) => apply no_data_watch_sync_data
  | |- steps_from _ _ (_default_on_del _) =>
      apply steps_from_steps, no_data_watch__default_on_del
  | |- steps_from _ _ (os_path_exists _) => unfold os_path_exists
  | |- steps_from _ _ (let _ := _ in _) => cbv zeta
  | |- steps_from _ _ (match ?x with _ => _ end) => destruct x
  | |- steps_from _ _ (if ?x then _ else _) => destruct x
  | |- steps_from _ _ _ =>
      apply steps_from_steps; solve [steps_auto no_data_watch_leaf]
  end.

Lemma no_data_watch__children_watch zkpath children cont :
  steps_from unwatched_all no_data_watch
    (_children_watch zkpath children false _default_on_add _default_on_del
       cont).
Proof. unfold _children_watch. repeat from_step. Qed.

Lemma no_data_watch_children_watch_callback zkpath cont children :
  steps_from unwatched_all no_data_watch
    (children_watch_callback zkpath false _default_on_add _default_on_del
       cont children).
Proof.
  unfold children_watch_callback.
  repeat first [apply no_data_watch__children_watch|from_step].
Qed.

Lemma no_data_watch__make_children_watch zkpath cont :
  steps_from unwatched_all no_data_watch
    (_make_children_watch zkpath false _default_on_add _default_on_del cont).
Proof.
  unfold _make_children_watch, zk_ChildrenWatch.
  repeat first [apply no_data_watch_children_watch_callback|from_step].
Qed.

Lemma no_data_watch_sync_children zkpath need cont :
  steps_from unwatched_all no_data_watch
    (sync_children zkpath false None None need cont).
Proof.
  unfold sync_children, sync_children_undone. cbn [default].
  repeat first [apply no_data_watch__make_children_watch
               |apply no_data_watch__children_watch|from_step].
Qed.

Lemma no_data_watch_deliver_children zkpath cont children :
  steps_from unwatched_all no_data_watch
    (deliver_children zkpath false _default_on_add _default_on_del cont
       children).
Proof.
  unfold deliver_children.
  repeat first [apply no_data_watch_children_watch_callback|from_step].
Qed.

(** X13. Without [watch_data] and with the default callbacks, an engine
    that watches no path stays so: neither [sync_children] nor a later
    delivery of children makes a data watch, adds to [watches] or changes
    the armed data watches. *)
Theorem sync_children_without_watch_data (w : World) (zkpath : string)
    (need : option (string → bool))
    (cont : option (string → list string → bool))
    (children : list string) :
  watches w = ∅ →
  no_data_watch w (exec (sync_children zkpath false None None need cont) w)
  ∧ no_data_watch w
      (exec (deliver_children zkpath false _default_on_add _default_on_del
               cont children) w).
Proof.
  intros Hw. split.
  - by apply no_data_watch_sync_children.
  - by apply no_data_watch_deliver_children.
Qed.

Lemma sync_children_without_watch_data_witness :
  let w := init "/mirror" (env0 zk_example 100) in
  no_data_watch w (exec (sync_children "/cell/servers" false None None None
                           None) w).
Proof.
  intros w.
  destruct (sync_children_without_watch_data w "/cell/servers" None None [])
    as [Hsync _]; [reflexivity|exact Hsync].
Defined.

(** ** With [watch_data] *)

Lemma holds_data_zk w w' zkpath :
  zk w' = zk w → holds_data w' zkpath ↔ holds_data w zkpath.
Proof. unfold holds_data, first_delivery. by intros ->. Qed.

(** What [sync_data] on a watched path that returns does to the watches:
    the remote side and the other paths are as they were, and a path that
    holds data is watched and armed. *)
Lemma sync_data_watched_ok w zkpath w' :
  zkpath ∈ watches w → sync_data zkpath w = (Ok tt, w') →
  zk w' = zk w ∧ processed_once w' = processed_once w
  ∧ (∀ q, q ≠ zkpath →
       (q ∈ watches w' ↔ q ∈ watches w)
       ∧ (q ∈ data_subs w' ↔ q ∈ data_subs w))
  ∧ (holds_data w zkpath → zkpath ∈ watches w' ∧ zkpath ∈ data_subs w').
Proof.
  intros Hw. rewrite (sync_data_watched_run _ _ Hw).
  set (w0 := set_log (λ l, l ++ [ZkDataWatch zkpath]) w).
  set (d0 := (first_delivery w zkpath).1).
  set (s0 := (first_delivery w zkpath).2).
  pose proof (unwatch_data_watch_callback zkpath d0 s0 None w0)
    as (Hw1 & Hp1 & Hd1 & _ & Hz1 & _).
  unfold exec in *.
  destruct (data_watch_callback zkpath d0 s0 None w0) as [[renew|e] w1]
    eqn:Hcb; [|done].
  cbn [snd] in *. intros [= <-]. world_simpl.
  change (watches w0) with (watches w) in Hw1.
  split; [done|]. split; [done|]. split.
  - intros q Hq. rewrite Hd1. change (data_subs w0) with (data_subs w).
    split; [destruct Hw1 as [-> | ->]; set_solver|].
    destruct renew; set_solver.
  - intros [d Hd]. fold d0 in Hd.
    assert (∃ st, s0 = Some st) as [st Hs].
    { subst d0 s0. unfold first_delivery in *.
      destruct (zk w !! zkpath); [by eexists|done]. }
    rewrite Hd, Hs in Hcb.
    apply data_watch_callback_Ok_inv in Hcb as (w2 & Hrun & ->).
    destruct (data_watch_write_ok w0 zkpath (Some d) st None renew w2)
      as (_ & Hw2 & Hrenew & _); [by left|done|done|].
    change (watches w0) with (watches w) in *.
    rewrite bool_decide_true in Hrenew by done. subst renew.
    assert (watches (if ready w2 then bumped w2 else w2) = watches w2) as ->
      by (by destruct (ready w2)).
    rewrite Hw2. set_solver.
Qed.

Lemma watch_and_sync_ok zkpath tag l w w' :
  for_each l (λ node,
    emit (Logged INFO (tag +:+ node)) ;; watch_and_sync zkpath node) w
    = (Ok tt, w') →
  zk w' = zk w ∧ processed_once w' = processed_once w
  ∧ (∀ q, holds_data w q → q ∈ watches w → q ∈ data_subs w →
          q ∈ watches w' ∧ q ∈ data_subs w')
  ∧ (∀ c, c ∈ l → holds_data w (join_zookeeper_path zkpath c) →
          join_zookeeper_path zkpath c ∈ watches w'
          ∧ join_zookeeper_path zkpath c ∈ data_subs w').
Proof.
  revert w. induction l as [|c l IH]; intros w; simpl.
  - unfold ret. intros [= <-]. split_and!; [done..|].
    intros c Hc. by apply elem_of_nil in Hc.
  - intros Hrun.
    apply bind_Ok_inv in Hrun as ([] & w3 & Hbody & Hrest).
    apply bind_Ok_inv in Hbody as ([] & w1 & Hemit & Hbody).
    unfold emit, modify in Hemit. injection Hemit as <-.
    unfold watch_and_sync in Hbody. cbv zeta in Hbody.
    apply bind_Ok_inv in Hbody as ([] & w2 & Hadd & Hsync).
    unfold when, modify in Hadd. injection Hadd as <-.
    set (zn := join_zookeeper_path zkpath c) in *.
    unfold _default_on_add in Hsync.
    apply sync_data_watched_ok in Hsync as (Hz3 & Hp3 & Hother & Hzn);
      [|world_simpl; set_solver].
    world_simpl.
    assert (∀ q, holds_data w3 q ↔ holds_data w q) as Hhd.
    { intros q. apply holds_data_zk. by rewrite Hz3. }
    assert (∀ q, holds_data w q → q ∈ watches w → q ∈ data_subs w →
                 q ∈ watches w3 ∧ q ∈ data_subs w3) as Hkeep.
    { intros q Hq Hqw Hqd. destruct (decide (q = zn)) as [->|Hne].
      - apply Hzn. unfold holds_data, first_delivery in *. by world_simpl.
      - destruct (Hother q Hne) as [-> ->]. world_simpl. set_solver. }
    apply IH in Hrest as (Hz & Hp & Hpres & Hnew).
    split; [congruence|]. split; [congruence|]. split.
    + intros q Hq Hqw Hqd. destruct (Hkeep q Hq Hqw Hqd).
      apply Hpres; [by apply Hhd|done..].
    + intros c' [->|Hin]%elem_of_cons Hc'.
      * fold zn in Hc' |- *.
        assert (zn ∈ watches w3 ∧ zn ∈ data_subs w3) as [??].
        { apply Hzn. unfold holds_data, first_delivery in *. by world_simpl. }
        apply Hpres; [by apply Hhd|done..].
      * apply Hnew; [done|by apply Hhd].
Qed.

(** Every remote child is an addition or a common name. *)
Lemma children_actions_cover fpath children m add remove common c :
  children_actions fpath children m = (add, remove, common) →
  c ∈ children → c ∈ add ∨ c ∈ common.
Proof.
  unfold children_actions, _filter_children_actions, Diff.run.
  set (sc := sorted children).
  set (sf := sorted (os_path_basename <$> glob_star fpath m)).
  intros Hact Hc.
  destruct (diff_loop_conserves sc sf [] [] [] (length sc + length sf)
              (Diff.State 0 0 [] [] []))
    as [(Hi & Hj & add' & remove' & common' & Ha & Hr & Hco & Hpa & _) Hexit].
  { unfold diff_conserves; simpl. split; [lia|]. split; [lia|].
    exists [], [], []. by rewrite !app_nil_r. }
  { simpl. lia. }
  destruct (diff_step_exit _ _ _ Hi Hj Hexit) as [Ei Ej].
  rewrite Ei, firstn_all in Hpa.
  injection Hact as <- _ <-. rewrite Ha, Hco. simpl.
  apply elem_of_app. rewrite Hpa. subst sc. unfold sorted.
  by rewrite merge_sort_Permutation.
Qed.

Lemma remove_loop_frame zkpath (remove : list string) :
  steps (λ w w', zk w' = zk w ∧ processed_once w' = processed_once w)
    (for_each remove (λ node,
       emit (Logged INFO ("Delete: " +:+ node)) ;;
       let zknode := join_zookeeper_path zkpath node in
       modify (set_watches (λ s, s ∖ {[zknode]})) ;;
       _default_on_del zknode)).
Proof.
  assert (PreOrder (λ w w' : World,
            zk w' = zk w ∧ processed_once w' = processed_once w)).
  { split; [done|]. intros w1 w2 w3 [??] [??]. split; congruence. }
  steps_auto ltac:(by intros ?).
Qed.

(** X14. With [watch_data] and the default callbacks, a first
    reconciliation of a parent that returns leaves every given child whose
    remote node holds data watched: its path is in [watches] and its data
    watch is installed, whether the child was an addition or was already
    mirrored. *)
Theorem children_watch_watches_children (w : World) (zkpath : string)
    (children : list string)
    (cont : option (string → list string → bool)) (r : bool) :
  let run := _children_watch zkpath children true _default_on_add
               _default_on_del cont in
  zkpath ∉ processed_once w →
  result run w = Ok r →
  ∀ c, c ∈ children → holds_data w (join_zookeeper_path zkpath c) →
       join_zookeeper_path zkpath c ∈ watches (exec run w)
       ∧ join_zookeeper_path zkpath c ∈ data_subs (exec run w).
Proof.
  intros run Hseen Hres c Hc Hdata. subst run.
  pose proof (run_eta (_children_watch zkpath children true _default_on_add
                         _default_on_del cont) w) as Hrun.
  rewrite Hres in Hrun. set (w' := exec _ w) in *. clearbody w'. clear Hres.
  destruct (children_actions (os_path_join (fsroot w) (lstrip_slash zkpath))
              children (fs w)) as [[add remove] common] eqn:Hact.
  rewrite (children_watch_run _ _ _ _ _ _ _ _ _ _ Hact) in Hrun.
  apply bind_Ok_inv in Hrun as ([] & w1 & Hrem & Hrun).
  pose proof (remove_loop_frame zkpath remove w) as [Hz1 Hp1].
  rewrite (run_exec _ _ _ _ Hrem) in Hz1, Hp1.
  rewrite bind_run in Hrun. unfold gets at 1 in Hrun. cbv beta iota in Hrun.
  rewrite bool_decide_false in Hrun by (by rewrite Hp1).
  apply bind_Ok_inv in Hrun as ([] & w2 & Hcommon & Hrun).
  unfold when, negb in Hcommon.
  apply bind_Ok_inv in Hcommon as ([] & w1' & Hmark & Hcommon).
  unfold modify in Hmark. injection Hmark as <-.
  apply (watch_and_sync_ok zkpath "Common: ") in Hcommon
    as (Hz2 & _ & _ & Hnew2).
  apply bind_Ok_inv in Hrun as ([] & w3 & Hadd & Hrun).
  apply (watch_and_sync_ok zkpath "Add: ") in Hadd
    as (Hz3 & _ & Hkeep3 & Hnew3).
  assert (w' = w3) as ->
    by (destruct cont; unfold ret in Hrun; by injection Hrun as _ <-).
  world_simpl.
  assert (holds_data w2 (join_zookeeper_path zkpath c)) as Hdata2
    by (apply (holds_data_zk w); [congruence|done]).
  destruct (children_actions_cover _ _ _ _ _ _ c Hact Hc) as [Hin|Hin].
  - by apply Hnew3.
  - destruct (Hnew2 c Hin) as [??].
    { unfold holds_data, first_delivery in *. world_simpl. by rewrite Hz1. }
    by apply Hkeep3.
Qed.

Lemma children_watch_watches_children_witness :
  let w := init "/mirror" (env0 zk_example 100) in
  let w' := exec (_children_watch "/cell/servers" ["host2"; "host1"] true
                    _default_on_add _default_on_del None) w in
  "/cell/servers/host1" ∈ watches w' ∧ "/cell/servers/host1" ∈ data_subs w'.
Proof.
  intros w w'. subst w'.
  apply (children_watch_watches_children w "/cell/servers"
           ["host2"; "host1"] None true).
  - by apply (bool_decide_unpack _); vm_compute.
  - vm_compute. reflexivity.
  - by apply (bool_decide_unpack _); vm_compute.
  - eexists. vm_compute. reflexivity.
Defined.

(** ** A parent that is missing *)

#[global] Instance appends_preorder : PreOrder appends.
Proof. apply log_ext_preorder. Qed.

Ltac appends_leaf :=
  let w := fresh "w" in
  intros w; unfold appends, log_ext; world_simpl;
  first [by exists []; rewrite app_nil_r
        |by eexists [_]; split; [|repeat constructor]].

Lemma appends_elem_of w w' ev :
  appends w w' → ev ∈ log w → ev ∈ log w'.
Proof. intros (evs & -> & _) Hin. apply elem_of_app. by left. Qed.

Lemma diff_run_no_children sf add0 remove0 common0 :
  Diff.run [] sf add0 remove0 common0
  = Diff.State 0 (length sf) add0 (remove0 ++ sf) common0.
Proof.
  unfold Diff.run. rewrite <- (app_nil_r remove0) at 1.
  by apply (diff_loop_no_children sf _ 0); simpl; lia.
Qed.

(** Each round of a loop that returns has left its first event. *)
Lemma for_each_logged {A} (l : list A) (ev : A → event) (rest : A → M unit)
    w w' :
  (∀ x, steps appends (rest x)) →
  for_each l (λ x, emit (ev x) ;; rest x) w = (Ok tt, w') →
  appends w w' ∧ ∀ x, x ∈ l → ev x ∈ log w'.
Proof.
  intros Hrest. revert w. induction l as [|x l IH]; intros w; simpl.
  - unfold ret. intros [= <-]. split; [done|].
    intros x Hx. by apply elem_of_nil in Hx.
  - intros Hrun. apply bind_Ok_inv in Hrun as ([] & w2 & Hbody & Hloop).
    apply bind_Ok_inv in Hbody as ([] & w1 & Hemit & Hbody).
    unfold emit, modify in Hemit. injection Hemit as <-.
    pose proof (Hrest x (set_log (λ l, l ++ [ev x]) w)) as Hx.
    rewrite (run_exec _ _ _ _ Hbody) in Hx.
    apply IH in Hloop as [Hl Hall].
    assert (appends w (set_log (λ l, l ++ [ev x]) w)) as H0
      by (eexists [_]; split; [done|by repeat constructor]).
    split; [etrans; [exact H0|]; etrans; [exact Hx|exact Hl]|].
    intros y [->|Hy]%elem_of_cons; [|by apply Hall].
    eapply appends_elem_of; [etrans; [exact Hx|exact Hl]|].
    world_simpl. apply elem_of_app. right. left.
Qed.

(** X15. A parent that is missing remotely while its directory is still
    mirrored: when [need_watch_predicate] declines the watch, a
    [sync_children] that returns has asked for the children, taken the
    missing node for no children, and logged the removal of every name the
    directory listed, which is where it calls [on_del]. *)
Theorem sync_children_missing_parent (w : World) (zkpath : string)
    (watch_data : bool) (on_add on_del : option (string → M unit))
    (need : string → bool)
    (cont : option (string → list string → bool)) :
  let p := os_path_join (fsroot w) (lstrip_slash zkpath) in
  let done_file := os_path_join p ".done" in
  let run := sync_children zkpath watch_data on_add on_del (Some need) cont in
  (∀ n, steps appends (default _default_on_add on_add n)) →
  (∀ n, steps appends (default _default_on_del on_del n)) →
  zk w !! zkpath = None →
  is_Some (fs w !! p) → fs w !! done_file = None →
  need zkpath = false →
  result run w = Ok tt →
  ZkGetChildren zkpath ∈ log (exec run w)
  ∧ ∀ name, name ∈ os_path_basename <$> glob_star p (fs w) →
            Logged INFO ("Delete: " +:+ name) ∈ log (exec run w).
Proof.
  intros p done_file run Ha Hd Hzk Hp Hnone Hneed Hres. subst run.
  destruct (sync_children_found_none w zkpath watch_data on_add on_del
              (Some need) cont Hnone)
    as (w1 & pre & Heq & _ & _ & _ & Hz1 & _ & Hf1 & _ & _ & _ & _ & _ & _
        & _ & Hfs1 & _).
  fold p done_file in Heq. fold p in Hfs1.
  destruct Hp as [n Hp]. rewrite Hp in Hfs1.
  pose proof (run_eta (sync_children zkpath watch_data on_add on_del
                         (Some need) cont) w) as Hrun.
  rewrite Hres in Hrun. set (wf := exec _ w) in *. clearbody wf.
  rewrite Heq in Hrun. clear Heq Hres.
  unfold sync_children_undone in Hrun. cbv zeta in Hrun.
  rewrite Hneed in Hrun.
  apply bind_Ok_inv in Hrun as (nw & wa & Hnw & Hrun).
  revert Hnw. run_unfold. cbv beta iota. intros [= <- <-].
  apply bind_Ok_inv in Hrun as (nw & wb & Hbranch & Hfinal).
  apply bind_Ok_inv in Hbranch as (children & wc & Hfetch & Hbranch).
  rewrite fetch_children_run in Hfetch. injection Hfetch as <- <-.
  unfold remote_children in Hbranch. world_simpl.
  rewrite Hz1, Hzk in Hbranch. cbn [from_option] in Hbranch.
  match type of Hbranch with _ ?wx = _ => set (wc := wx) in * end.
  assert (steps appends
            (need_watch <- _children_watch zkpath [] watch_data
                     (default _default_on_add on_add)
                     (default _default_on_del on_del) cont ;;
                   when need_watch
                     (_make_children_watch zkpath watch_data
                        (default _default_on_add on_add)
                        (default _default_on_del on_del) cont) ;;
                   _update_last ;; ret need_watch)) as Hb.
  { unfold _children_watch, _make_children_watch, zk_ChildrenWatch,
      children_watch_callback, _children_watch.
    repeat (steps_step appends_leaf || done). }
  assert (appends wc wb) as Hcb.
  { specialize (Hb wc). by rewrite (run_exec _ _ _ _ Hbranch) in Hb. }
  assert (appends wb wf) as Hbf.
  { assert (steps appends (when (negb nw) (touch done_file))) as Ht
      by steps_auto appends_leaf.
    specialize (Ht wb). by rewrite (run_exec _ _ _ _ Hfinal) in Ht. }
  split.
  { eapply appends_elem_of; [etrans; [exact Hcb|exact Hbf]|].
    subst wc. world_simpl.
    apply elem_of_app. right. left. }
  intros name Hname.
  apply bind_Ok_inv in Hbranch as (r & wd & Hcw & Hrest).
  assert (steps appends
            (when r
                     (_make_children_watch zkpath watch_data
                        (default _default_on_add on_add)
                        (default _default_on_del on_del) cont) ;;
                   _update_last ;; ret r)) as Hr.
  { unfold _make_children_watch, zk_ChildrenWatch,
      children_watch_callback, _children_watch.
    repeat (steps_step appends_leaf || done). }
  assert (appends wd wb) as Hdb.
  { specialize (Hr wd). by rewrite (run_exec _ _ _ _ Hrest) in Hr. }
  eapply appends_elem_of; [etrans; [exact Hdb|exact Hbf]|].
  assert (children_actions (os_path_join (fsroot wc) (lstrip_slash zkpath))
            [] (fs wc)
          = ([], sorted (os_path_basename <$> glob_star p (fs w)), []))
    as Hact.
  { subst wc. world_simpl. rewrite Hf1, Hfs1. fold p.
    unfold children_actions, _filter_children_actions.
    change (sorted []) with (@nil string).
    by rewrite diff_run_no_children. }
  rewrite (children_watch_run _ _ _ _ _ _ _ _ _ _ Hact) in Hcw.
  apply bind_Ok_inv in Hcw as ([] & w3 & Hrem & Hcw).
  apply (for_each_logged _ (λ node, Logged INFO ("Delete: " +:+ node))) in Hrem
    as [_ Hall].
  - assert (steps appends
              (seen <- gets processed_once ;;
                     when (negb (bool_decide (zkpath ∈ seen)))
                       (modify (set_processed_once (union {[zkpath]})) ;;
                        for_each [] (λ node,
                          emit (Logged INFO ("Common: " +:+ node)) ;;
                          let zknode := join_zookeeper_path zkpath node in
                          when watch_data
                            (modify (set_watches (union {[zknode]}))) ;;
                          default _default_on_add on_add zknode)) ;;
                     for_each [] (λ node,
                       emit (Logged INFO ("Add: " +:+ node)) ;;
                       let zknode := join_zookeeper_path zkpath node in
                       when watch_data
                         (modify (set_watches (union {[zknode]}))) ;;
                       default _default_on_add on_add zknode) ;;
                     match cont with
                     | Some cont => ret (cont zkpath (sorted []))
                     | None => ret true
                     end)) as Hs
      by (repeat (steps_step appends_leaf || done)).
    specialize (Hs w3). rewrite (run_exec _ _ _ _ Hcw) in Hs.
    eapply appends_elem_of; [done|]. apply Hall.
    unfold sorted. by rewrite merge_sort_Permutation.
  - intros node. cbv zeta. repeat (steps_step appends_leaf || done).
Qed.

Lemma appends_sync_data zkpath : steps appends (sync_data zkpath).
Proof.
  unfold sync_data, zk_DataWatch, data_watch_callback, _data_watch.
  steps_auto appends_leaf.
Qed.

Lemma appends__default_on_del zkpath : steps appends (_default_on_del zkpath).
Proof. steps_auto appends_leaf. Qed.

Lemma sync_children_missing_parent_witness :
  let w := set_fs (λ _, {[ "/mirror/gone" := Dir;
                           "/mirror/gone/old" := File "o" 1 420%N ]})
             (init "/mirror" (env0 ∅ 100)) in
  let w' := exec (sync_children "/gone" false None None (Some (λ _, false))
                    None) w in
  ZkGetChildren "/gone" ∈ log w'
  ∧ Logged INFO "Delete: old" ∈ log w'
  ∧ fs w' !! "/mirror/gone/old" = None.
Proof.
  intros w w'. subst w'.
  destruct (sync_children_missing_parent w "/gone" false None None
              (λ _, false) None) as [Hget Hdel].
  - intros n. apply appends_sync_data.
  - intros n. apply appends__default_on_del.
  - reflexivity.
  - exists Dir. vm_compute. reflexivity.
  - vm_compute. reflexivity.
  - reflexivity.
  - vm_compute. reflexivity.
  - split; [exact Hget|]. split; [|vm_compute; reflexivity].
    apply (Hdel "old"). by apply (bool_decide_unpack _); vm_compute.
Defined.

(** ** The children watch that [sync_children] leaves *)

#[global] Instance remote_frame_preorder : PreOrder remote_frame.
Proof.
  split; [by intros w|].
  intros w1 w2 w3 [??] [??]. split; congruence.
Qed.

Ltac remote_leaf := let w := fresh "w" in intros w; by split.

Lemma remote_frame_sync_data zkpath : steps remote_frame (sync_data zkpath).
Proof.
  unfold sync_data, zk_DataWatch, data_watch_callback, _data_watch.
  steps_auto remote_leaf.
Qed.

Lemma remote_frame__default_on_del zkpath :
  steps remote_frame (_default_on_del zkpath).
Proof. steps_auto remote_leaf. Qed.

Lemma remote_frame__update_last : steps remote_frame _update_last.
Proof. steps_auto remote_leaf. Qed.

Lemma remote_frame_touch p : steps remote_frame (touch p).
Proof. steps_auto remote_leaf. Qed.

Section armed.
Variables (zkpath : string) (watch_data : bool).
Variables on_add on_del : string → M unit.
Variable cont : option (string → list string → bool).
Hypothesis on_add_remote : ∀ z, steps remote_frame (on_add z).
Hypothesis on_del_remote : ∀ z, steps remote_frame (on_del z).

Lemma remote_frame__children_watch children :
  steps remote_frame
    (_children_watch zkpath children watch_data on_add on_del cont).
Proof.
  unfold _children_watch. repeat (steps_step remote_leaf || done).
Qed.

Lemma children_watch_Ok_inv children w r w' :
  _children_watch zkpath children watch_data on_add on_del cont w
    = (Ok r, w') →
  r = cont_eff cont zkpath children ∧ remote_frame w w'.
Proof.
  intros Hrun. split; [by eapply children_watch_answer|].
  rewrite <- (run_exec _ _ _ _ Hrun). apply remote_frame__children_watch.
Qed.

(** The function handed to [ChildrenWatch] answers as
    [cont_watch_predicate] does when it returns. *)
Lemma children_watch_callback_Ok_inv children w r w' :
  children_watch_callback zkpath watch_data on_add on_del cont children w
    = (Ok r, w') →
  r = cont_eff cont zkpath children ∧ remote_frame w w'.
Proof.
  unfold children_watch_callback, exit_on_unhandled, try_except.
  destruct ((renew <- _children_watch zkpath children watch_data on_add
                        on_del cont ;;
             _update_last ;; ret renew) w) as [[a|e] w1] eqn:E.
  - intros [= -> ->].
    apply bind_Ok_inv in E as (r' & w2 & Hcw & E).
    apply bind_Ok_inv in E as ([] & w3 & Hul & Hret).
    unfold ret in Hret. injection Hret as -> ->.
    apply children_watch_Ok_inv in Hcw as [-> Hf]. split; [done|].
    etrans; [exact Hf|]. rewrite <- (run_exec _ _ _ _ Hul).
    apply remote_frame__update_last.
  - run_unfold. simpl. intros [=].
Qed.

(** What [_make_children_watch] leaves armed: the watch on [zkpath] when the
    node exists and [cont_watch_predicate] says yes on its children, and no
    watch on it otherwise; the other watches are as they were. *)
Lemma make_children_watch_armed w w' :
  _make_children_watch zkpath watch_data on_add on_del cont w = (Ok tt, w') →
  zk w' = zk w
  ∧ children_subs w'
    = (if bool_decide (is_Some (zk w !! zkpath))
          && cont_eff cont zkpath (remote_children w zkpath)
       then {[zkpath]} ∪ children_subs w
       else children_subs w ∖ {[zkpath]}).
Proof.
  unfold _make_children_watch, zk_ChildrenWatch. intros Hrun.
  apply bind_Ok_inv in Hrun as ([] & w1 & H1 & Hrun).
  unfold emit, modify in H1. injection H1 as <-.
  apply bind_Ok_inv in Hrun as ([] & w2 & H2 & Hrun).
  unfold emit, modify in H2. injection H2 as <-.
  apply bind_Ok_inv in Hrun as (n & w3 & H3 & Hrun).
  unfold gets in H3. injection H3 as <- <-. world_simpl.
  unfold remote_children. destruct (zk w !! zkpath) as [n|] eqn:Ez; simpl.
  - apply bind_Ok_inv in Hrun as (renew & w4 & Hcb & Hrun).
    apply children_watch_callback_Ok_inv in Hcb as [-> [Hz Hs]].
    world_simpl. try rewrite bool_decide_true by done. simpl.
    destruct (cont_eff cont zkpath (zchildren n));
      unfold modify in Hrun; injection Hrun as <-; world_simpl;
      split; congruence.
  - try rewrite bool_decide_false by (by intros [??]). simpl.
    unfold modify in Hrun. injection Hrun as <-. by world_simpl.
Qed.
End armed.

(** The children watch [sync_children] leaves on [zkpath], past the done
    file check, and the done file it leaves when no watch was asked for. *)
Lemma sync_children_undone_armed zkpath wd on_add on_del need cont
    done_file w w' :
  (∀ z, steps remote_frame (default _default_on_add on_add z)) →
  (∀ z, steps remote_frame (default _default_on_del on_del z)) →
  sync_children_undone zkpath wd on_add on_del need cont done_file w
    = (Ok tt, w') →
  children_subs w'
  = (if need_eff need zkpath
        || cont_eff cont zkpath (remote_children w zkpath)
     then if bool_decide (is_Some (zk w !! zkpath))
             && cont_eff cont zkpath (remote_children w zkpath)
          then {[zkpath]} ∪ children_subs w
          else children_subs w ∖ {[zkpath]}
     else children_subs w)
  ∧ (need_eff need zkpath
       || cont_eff cont zkpath (remote_children w zkpath) = false →
     is_Some (fs w' !! done_file)).
Proof.
  intros Ha Hd Hrun. unfold sync_children_undone in Hrun.
  apply bind_Ok_inv in Hrun as (nw & w1 & Hneed & Hrun).
  assert (nw = need_eff need zkpath ∧ remote_frame w w1) as [-> Hf1].
  { unfold need_eff. destruct need as [f|].
    - unfold bind, emit, modify, ret in Hneed. by simplify_eq.
    - unfold ret in Hneed. by simplify_eq. }
  destruct Hf1 as [Hz1 Hs1].
  assert (remote_children w1 zkpath = remote_children w zkpath) as Hc1
    by (unfold remote_children; by rewrite Hz1).
  apply bind_Ok_inv in Hrun as (nw' & w2 & Hbr & Htouch).
  destruct (need_eff need zkpath); simpl.
  - apply bind_Ok_inv in Hbr as ([] & w2' & Hmcw & Hret).
    unfold ret in Hret. injection Hret as <- <-.
    simpl in Htouch. unfold ret in Htouch. injection Htouch as <-.
    apply make_children_watch_armed in Hmcw as [_ Hs]; [|done..].
    rewrite Hs, Hz1, Hs1, Hc1. done.
  - apply bind_Ok_inv in Hbr as (children & w3 & Hfetch & Hbr).
    rewrite fetch_children_run in Hfetch. injection Hfetch as <- <-.
    apply bind_Ok_inv in Hbr as (r & w4 & Hcw & Hbr).
    apply children_watch_Ok_inv in Hcw as [-> [Hz4 Hs4]]; [|done..].
    world_simpl. rewrite Hc1 in *.
    apply bind_Ok_inv in Hbr as ([] & w5 & Hwhen & Hbr).
    apply bind_Ok_inv in Hbr as ([] & w6 & Hul & Hret).
    unfold ret in Hret. injection Hret as <- <-.
    pose proof (remote_frame__update_last w5) as [_ Hs6].
    rewrite (run_exec _ _ _ _ Hul) in Hs6.
    destruct (cont_eff cont zkpath (remote_children w zkpath)) eqn:Ec;
      simpl in *.
    + unfold ret in Htouch. injection Htouch as <-.
      apply make_children_watch_armed in Hwhen as [_ Hs]; [|done..].
      assert (remote_children w4 zkpath = remote_children w zkpath) as Hc4
        by (unfold remote_children; by rewrite Hz4, Hz1).
      rewrite Hc4, Ec, Hz4, Hs4, Hz1, Hs1 in Hs.
      split; [congruence|done].
    + unfold ret in Hwhen. injection Hwhen as <-.
      pose proof (remote_frame_touch done_file w6) as [_ Hs'].
      rewrite (run_exec _ _ _ _ Htouch) in Hs'.
      split; [congruence|]. intros _.
      rewrite <- (run_exec _ _ _ _ Htouch). apply touch_exists.
Qed.

(** C5 as stated fails when [need_watch_predicate] says yes and
    [cont_watch_predicate] says no: the watch is made, so the disjunction
    holds and no done file is written, but the function handed to
    [ChildrenWatch] answers [False] at its first call and the watch stops;
    after the call no children watch is armed and there is no done file. *)
Lemma sync_children_needed_watch_stops :
  let w := init "/mirror" (env0 zk_example 100) in
  let run := sync_children "/cell/servers" false None None
               (Some (λ _, true)) (Some (λ _ _, false)) in
  result run w = Ok tt
  ∧ need_eff (Some (λ _, true)) "/cell/servers"
      || cont_eff (Some (λ _ _, false)) "/cell/servers"
           (remote_children w "/cell/servers") = true
  ∧ ZkChildrenWatch "/cell/servers" ∈ log (exec run w)
  ∧ children_subs (exec run w) = ∅
  ∧ fs (exec run w) !! "/mirror/cell/servers/.done" = None.
Proof.
  intros w run. subst w run. split_and!.
  - vm_compute. reflexivity.
  - reflexivity.
  - apply (bool_decide_unpack _). vm_compute. reflexivity.
  - vm_compute. reflexivity.
  - vm_compute. reflexivity.
Qed.

(** C5, as the code has it.  In [sync_children], past the done file check,
    the children watch is made if and only if [need_watch_predicate] says yes
    on the path or [cont_watch_predicate] says yes on the path and the sorted
    remote children (an absent predicate says yes), and the done file is
    touched if and only if it is not, and is then there.  The watch that was
    made is armed after the call exactly when the node exists and
    [cont_watch_predicate] says yes; otherwise no watch on the path is left,
    also when [need_watch_predicate] said yes.  When no watch is made the
    armed watches are as they were.  The callbacks [on_add] and [on_del] are
    any that do not themselves subscribe to the path, touch its done file,
    change the remote namespace or the armed children watches, as the
    default ones. *)
Theorem sync_children_subscription_decision (w : World) (zkpath : string)
    (watch_data : bool) (on_add on_del : option (string → M unit))
    (need : option (string → bool))
    (cont : option (string → list string → bool)) :
  let p := os_path_join (fsroot w) (lstrip_slash zkpath) in
  let done_file := os_path_join p ".done" in
  let run := sync_children zkpath watch_data on_add on_del need cont in
  let n := need_eff need zkpath in
  let c := cont_eff cont zkpath (remote_children w zkpath) in
  (∀ z, emits (quiet zkpath done_file) (default _default_on_add on_add z)) →
  (∀ z, emits (quiet zkpath done_file) (default _default_on_del on_del z)) →
  (∀ z, steps remote_frame (default _default_on_add on_add z)) →
  (∀ z, steps remote_frame (default _default_on_del on_del z)) →
  fs w !! done_file = None →
  result run w = Ok tt →
  (∃ evs, log (exec run w) = log w ++ evs
     ∧ (ZkChildrenWatch zkpath ∈ evs ↔ n || c = true)
     ∧ (FsTouch done_file ∈ evs ↔ n || c = false))
  ∧ children_subs (exec run w)
    = (if n || c
       then if bool_decide (is_Some (zk w !! zkpath)) && c
            then {[zkpath]} ∪ children_subs w
            else children_subs w ∖ {[zkpath]}
       else children_subs w)
  ∧ (n || c = false → is_Some (fs (exec run w) !! done_file)).
Proof.
  intros p done_file run n c Ha Hd Hra Hrd Hdone Hres. subst run n c.
  destruct (sync_children_found_none w zkpath watch_data on_add on_del need
              cont Hdone)
    as (w1 & pre & Heq & Hl1 & Hpre & _ & Hzk & _ & _ & _ & _ & Hsubs & _).
  fold p done_file in Heq.
  assert (remote_children w1 zkpath = remote_children w zkpath) as Hch
    by (unfold remote_children; by rewrite Hzk).
  pose proof (run_eta (sync_children zkpath watch_data on_add on_del need
                         cont) w) as Hrun.
  rewrite Hres, Heq in Hrun.
  destruct (sync_children_undone_armed _ _ _ _ _ _ _ _ _ Hra Hrd Hrun)
    as [Hs Hf].
  rewrite Hch, Hzk, Hsubs in Hs. rewrite Hch in Hf.
  split; [|split; [exact Hs|exact Hf]].
  unfold result, exec in *. rewrite Heq in *.
  destruct (sync_children_undone_trace zkpath watch_data on_add on_del need
              cont done_file) with (w := w1) as (evs & Hl & Htr);
    [intros; apply done_file_not_marker|done..|].
  unfold exec in Hl. exists (pre ++ evs).
  split; [by rewrite Hl, Hl1, (assoc (++))|].
  rewrite <- Hch.
  apply undone_trace_decision; [done|].
  eapply Forall_impl; [done|]. apply quiet_benign.
Qed.

Lemma sync_children_subscription_decision_witness :
  let w := init "/mirror" (env0 zk_example 100) in
  let run := sync_children "/cell/servers" false None None
               (Some (λ _, false)) (Some (λ _ _, true)) in
  (∃ evs, log (exec run w) = log w ++ evs
     ∧ (ZkChildrenWatch "/cell/servers" ∈ evs ↔ true = true)
     ∧ (FsTouch "/mirror/cell/servers/.done" ∈ evs ↔ true = false))
  ∧ children_subs (exec run w) = {[ "/cell/servers" ]} ∪ children_subs w.
Proof.
  intros w run. subst run.
  destruct (sync_children_subscription_decision w "/cell/servers" false None
              None (Some (λ _, false)) (Some (λ _ _, true)))
    as (Htr & Hs & _).
  - intros z. apply default_on_add_quiet.
  - intros z. apply default_on_del_quiet.
  - intros z. apply remote_frame_sync_data.
  - intros z. apply remote_frame__default_on_del.
  - reflexivity.
  - vm_compute. reflexivity.
  - split; [exact Htr|exact Hs].
Defined.

(** C9 as stated fails on a parent that does not exist: the listing raises
    [NoNodeError], which [sync_children] takes for no children, the
    reconciliation answers [True] and the watch is made, but on a missing
    node it stops at once; after the call no children watch is armed, and
    there is no done file. *)
Lemma sync_children_missing_parent_not_armed :
  let w := init "/mirror" (env0 ∅ 100) in
  let run := sync_children "/gone" false None None (Some (λ _, false))
               None in
  result run w = Ok tt
  ∧ ZkGetChildren "/gone" ∈ log (exec run w)
  ∧ ZkChildrenWatch "/gone" ∈ log (exec run w)
  ∧ children_subs (exec run w) = ∅
  ∧ fs (exec run w) !! "/mirror/gone/.done" = None.
Proof.
  intros w run. subst w run. split_and!.
  - vm_compute. reflexivity.
  - apply (bool_decide_unpack _). vm_compute. reflexivity.
  - apply (bool_decide_unpack _). vm_compute. reflexivity.
  - vm_compute. reflexivity.
  - vm_compute. reflexivity.
Qed.

(** C9, as the code has it.  With a [need_watch_predicate] that says no on
    the path and no [cont_watch_predicate], the one-shot reconciliation
    returns [True] whenever it returns; so [sync_children] lists the children
    once, then makes the children watch, and does not touch the done file.
    After the call the watch is armed when the node exists; on a missing
    node no watch on the path is left.  The other armed watches are as they
    were. *)
Theorem sync_children_without_cont_predicate (w : World) (zkpath : string)
    (watch_data : bool) (on_add on_del : option (string → M unit))
    (need : string → bool) :
  let p := os_path_join (fsroot w) (lstrip_slash zkpath) in
  let done_file := os_path_join p ".done" in
  let run := sync_children zkpath watch_data on_add on_del (Some need) None in
  (∀ z, emits (quiet zkpath done_file) (default _default_on_add on_add z)) →
  (∀ z, emits (quiet zkpath done_file) (default _default_on_del on_del z)) →
  (∀ z, steps remote_frame (default _default_on_add on_add z)) →
  (∀ z, steps remote_frame (default _default_on_del on_del z)) →
  fs w !! done_file = None →
  need zkpath = false →
  result run w = Ok tt →
  (∀ children w0 r,
     result (_children_watch zkpath children watch_data
               (default _default_on_add on_add)
               (default _default_on_del on_del) None) w0 = Ok r →
     r = true)
  ∧ (∃ before between after,
       log (exec run w)
         = log w ++ before ++ ZkGetChildren zkpath
             :: between ++ ZkChildrenWatch zkpath :: after
       ∧ (ZkChildrenWatch zkpath ∉ before ++ between ++ after)
       ∧ FsTouch done_file ∉ before ++ between ++ after)
  ∧ children_subs (exec run w)
    = (if bool_decide (is_Some (zk w !! zkpath))
       then {[zkpath]} ∪ children_subs w
       else children_subs w ∖ {[zkpath]}).
Proof.
  intros p done_file run Ha Hd Hra Hrd Hdone Hneed Hres. subst run.
  split; [intros children w0 r Hr; by apply children_watch_result in Hr|].
  destruct (sync_children_found_none w zkpath watch_data on_add on_del
              (Some need) None Hdone)
    as (w1 & pre & Heq & Hl1 & Hpre & _ & Hzk & _ & _ & _ & _ & Hsubs & _).
  fold p done_file in Heq.
  pose proof (run_eta (sync_children zkpath watch_data on_add on_del
                         (Some need) None) w) as Hrun.
  rewrite Hres, Heq in Hrun.
  destruct (sync_children_undone_armed _ _ _ _ _ _ _ _ _ Hra Hrd Hrun)
    as [Hs _].
  unfold need_eff, cont_eff in Hs. simpl in Hs.
  rewrite Hneed, andb_true_r, Hzk, Hsubs in Hs. simpl in Hs.
  split; [|exact Hs].
  unfold result, exec in *. rewrite Heq in *.
  destruct (sync_children_undone_trace zkpath watch_data on_add on_del
              (Some need) None done_file) with (w := w1) as (evs & Hl & Htr);
    [intros; apply done_file_not_marker|done..|].
  unfold exec in Hl. unfold undone_trace, need_eff, cont_eff in Htr.
  simpl in Htr. rewrite Hneed in Htr.
  destruct Htr as (e1 & e2 & -> & He1 & e3 & e4 & -> & He3 & He4).
  exists (pre ++ e1), e3, e4.
  split; [by rewrite Hl, Hl1, <- !(assoc (++))|].
  assert (Forall (quiet zkpath done_file true "") ((pre ++ e1) ++ e3 ++ e4))
    as Hall.
  { rewrite !Forall_app. split_and!; try done.
    eapply Forall_impl; [done|]. apply quiet_benign. }
  rewrite Forall_forall in Hall.
  split; intros Hin; by destruct (Hall _ Hin).
Qed.

Lemma sync_children_without_cont_predicate_witness :
  let w := init "/mirror" (env0 zk_example 100) in
  let run := sync_children "/cell/servers" false None None
               (Some (λ _, false)) None in
  (∃ before between after,
     log (exec run w)
       = log w ++ before ++ ZkGetChildren "/cell/servers"
           :: between ++ ZkChildrenWatch "/cell/servers" :: after
     ∧ (ZkChildrenWatch "/cell/servers" ∉ before ++ between ++ after)
     ∧ FsTouch "/mirror/cell/servers/.done" ∉ before ++ between ++ after)
  ∧ children_subs (exec run w) = {[ "/cell/servers" ]} ∪ children_subs w.
Proof.
  intros w run. subst run.
  destruct (sync_children_without_cont_predicate w "/cell/servers" false
              None None (λ _, false))
    as (_ & Htr & Hs).
  - intros z. apply default_on_add_quiet.
  - intros z. apply default_on_del_quiet.
  - intros z. apply remote_frame_sync_data.
  - intros z. apply remote_frame__default_on_del.
  - reflexivity.
  - reflexivity.
  - vm_compute. reflexivity.
  - split; [exact Htr|exact Hs].
Defined.
